(** * Tend_X: the attendance-submission page

    A shallow embedding of [src/pages/AttendanceSubmission.tsx]: the
    resolution effect [fetchSpace], the render function of the component,
    the submit handler [onSubmit] and the form it is bound to, followed by
    the properties of the page stated in the specification.

    Conventions.
    - A JavaScript string is a [string]: a sequence of code units, each
      below 256 (the Latin-1 range).  Literals in this file are ASCII.
    - React state is a record, a [setX] call is a record update, and the
      rendered view is a function of the current state.
    - The answers of the remote store (the awaited promises) are inputs of
      the operations; the calls issued, the console and the toasts are
      recorded in the state as traces.
    - The browser stands between the visitor and the form: it checks the
      native inputs before it fires the submit event.  Its verdict is an
      input of a click on the submit control, see [Gesture].
    - The form library keeps values and errors by field name.  The model
      does the same, which is exact for the names the library reads as one
      property, see [simpleName]; what is stated about the values of
      custom fields and about the payload is stated for such names. *)

From Stdlib Require Import ZArith NArith Ascii String.
From Stdlib Require Import DecimalString.
From stdpp Require Import base option list gmap strings.

(** ** JavaScript strings *)

Module JsString.

Local Open Scope N_scope.

Definition code (c : ascii) : N := N_of_ascii c.

Definition between (lo hi n : N) : bool := (lo <=? n) && (n <=? hi).

(** [String.prototype.toLowerCase] on one code unit below 256: the
    letters A-Z, and the accented capitals U+00C0-U+00DE but for the
    multiplication sign U+00D7, move up by 32. *)
Definition toLowerCase_unit (c : ascii) : ascii :=
  let n := code c in
  if between 65 90 n || (between 192 222 n && negb (n =? 215))
  then ascii_of_N (n + 32) else c.

Fixpoint toLowerCase (s : string) : string :=
  match s with
  | EmptyString => EmptyString
  | String c s' => String (toLowerCase_unit c) (toLowerCase s')
  end.

(** The class [\s] below 256: tab, line feed, vertical tab, form feed,
    carriage return, space and the no-break space. *)
Definition isWhiteSpace (c : ascii) : bool :=
  let n := code c in between 9 13 n || (n =? 32) || (n =? 160).

(** [s.replace(/\s+/g, '_')]: every maximal run of white space becomes
    one underscore.  [inRun] tells that the previous unit was white
    space, whose underscore is already written. *)
Fixpoint replaceRuns (inRun : bool) (s : string) : string :=
  match s with
  | EmptyString => EmptyString
  | String c s' =>
      if isWhiteSpace c
      then (if inRun then replaceRuns true s'
            else String "_" (replaceRuns true s'))
      else String c (replaceRuns false s')
  end.

Definition replace_ws_underscore (s : string) : string := replaceRuns false s.

(** Truthiness of a string value: only the empty string is falsy. *)
Definition truthy (s : string) : bool :=
  match s with EmptyString => false | _ => true end.

(** [a || b] on strings. *)
Definition or_else (a b : string) : string := if truthy a then a else b.

End JsString.

(** ** Regular expressions

    The subset of the RegExp syntax the page uses, matched with
    derivatives.  A pattern of the form [^r$] tested on a string holds
    exactly when the whole string is in the language of [r]. *)

Module RegExp.

Local Open Scope N_scope.

Inductive regex : Type :=
| Fail : regex                              (* matches nothing *)
| Eps : regex                               (* the empty string *)
| Chr : ascii -> regex                      (* a literal unit, e.g. [@] and [\.] *)
| Class : list (N * N) -> regex             (* a bracket class, as ranges *)
| Seq : regex -> regex -> regex
| Alt : regex -> regex -> regex
| Star : regex -> regex.

(** [r+] and [r{n,}]. *)
Definition Plus (r : regex) : regex := Seq r (Star r).

Fixpoint AtLeast (n : nat) (r : regex) : regex :=
  match n with
  | O => Star r
  | S n' => Seq r (AtLeast n' r)
  end.

(** Canonicalize of the [i] flag (no [u] flag): a unit is compared by
    its upper-case form; a unit above 127 never maps below 128, and all
    units written in the page's pattern are below 128, so only a-z are
    moved. *)
Definition canonicalize (ignoreCase : bool) (c : ascii) : N :=
  let n := JsString.code c in
  if ignoreCase && JsString.between 97 122 n then n - 32 else n.

Definition inRanges (rs : list (N * N)) (n : N) : bool :=
  existsb (fun r => JsString.between (fst r) (snd r) n) rs.

(** With the [i] flag a class holds the units whose canonical form is
    that of one of its members. *)
Definition inClass (ignoreCase : bool) (rs : list (N * N)) (c : ascii) : bool :=
  let n := canonicalize ignoreCase c in
  inRanges rs n
  || (ignoreCase && JsString.between 65 90 n && inRanges rs (n + 32)).

Fixpoint nullable (r : regex) : bool :=
  match r with
  | Fail => false
  | Eps => true
  | Chr _ => false
  | Class _ => false
  | Seq r1 r2 => nullable r1 && nullable r2
  | Alt r1 r2 => nullable r1 || nullable r2
  | Star _ => true
  end.

Fixpoint deriv (i : bool) (c : ascii) (r : regex) : regex :=
  match r with
  | Fail => Fail
  | Eps => Fail
  | Chr d => if canonicalize i c =? canonicalize i d then Eps else Fail
  | Class rs => if inClass i rs c then Eps else Fail
  | Seq r1 r2 =>
      if nullable r1
      then Alt (Seq (deriv i c r1) r2) (deriv i c r2)
      else Seq (deriv i c r1) r2
  | Alt r1 r2 => Alt (deriv i c r1) (deriv i c r2)
  | Star r1 => Seq (deriv i c r1) (Star r1)
  end.

(** [/^r$/.test(s)], with the [i] flag when [i] is set. *)
Fixpoint test (i : bool) (r : regex) (s : string) : bool :=
  match s with
  | EmptyString => nullable r
  | String c s' => test i (deriv i c r) s'
  end.

(** The strings a pattern denotes, for reference: [test] decides it. *)
Inductive Matches (i : bool) : regex -> string -> Prop :=
| MEps : Matches i Eps EmptyString
| MChr c d :
    canonicalize i c = canonicalize i d -> Matches i (Chr d) (String c EmptyString)
| MClass rs c :
    inClass i rs c = true -> Matches i (Class rs) (String c EmptyString)
| MSeq r1 r2 s1 s2 :
    Matches i r1 s1 -> Matches i r2 s2 -> Matches i (Seq r1 r2) (String.append s1 s2)
| MAltL r1 r2 s : Matches i r1 s -> Matches i (Alt r1 r2) s
| MAltR r1 r2 s : Matches i r2 s -> Matches i (Alt r1 r2) s
| MStar0 r : Matches i (Star r) EmptyString
| MStarS r s1 s2 :
    Matches i r s1 -> Matches i (Star r) s2 -> Matches i (Star r) (String.append s1 s2).

(** Every unit of the string satisfies [p]. *)
Fixpoint allUnits (p : ascii -> bool) (s : string) : bool :=
  match s with
  | EmptyString => true
  | String c s' => p c && allUnits p s'
  end.

End RegExp.

(** ** JSON values

    The [required_fields] column is typed [any]: whatever JSON the store
    holds arrives at the page. *)

Module Json.

#[local] Set Warnings "-register-all".

Inductive value : Type :=
| JNull : value
| JBool : bool -> value
| JNumber : Z -> value
| JString : string -> value
| JArray : list value -> value
| JObject : list (string * value) -> value.

Definition isArray (v : value) : bool :=
  match v with JArray _ => true | _ => false end.

(** Property read [o.k]: [None] is [undefined].  A key written twice in
    an object literal keeps its last value. *)
Fixpoint assoc (k : string) (kvs : list (string * value)) : option value :=
  match kvs with
  | [] => None
  | (k', v) :: rest =>
      match assoc k rest with
      | Some w => Some w
      | None => if String.eqb k k' then Some v else None
      end
  end.

Definition get (k : string) (v : value) : option value :=
  match v with JObject kvs => assoc k kvs | _ => None end.

(** Truthiness of a property that was read. *)
Definition truthy (o : option value) : bool :=
  match o with
  | None | Some JNull => false
  | Some (JBool b) => b
  | Some (JNumber n) => negb (n =? 0)%Z
  | Some (JString s) => JsString.truthy s
  | Some (JArray _) | Some (JObject _) => true
  end.

End Json.

(** ** Data model *)

(** [interface CustomField], and the JSON object that persists it. *)
Inductive FieldType : Type := TText | TEmail | TNumber.

Record CustomField : Type := {
  cf_id : string;
  cf_name : string;
  cf_type : FieldType;
  cf_required : bool
}.

Definition FieldType_string (t : FieldType) : string :=
  match t with TText => "text" | TEmail => "email" | TNumber => "number" end.

Definition CustomField_json (f : CustomField) : Json.value :=
  Json.JObject [ ("id", Json.JString (cf_id f));
                 ("name", Json.JString (cf_name f));
                 ("type", Json.JString (FieldType_string (cf_type f)));
                 ("required", Json.JBool (cf_required f)) ].

(** A row of [spaces] as the lookup returns it ([data]). *)
Module SpaceRow.
Record t : Type := {
  id : string;
  title : string;
  type : string;
  required_fields : Json.value;
  status : string;
  start_time : option string;
  end_time : option string
}.
End SpaceRow.

(** [interface Space]: what [setSpace] stores.  All three [setSpace] calls
    pass [{...data, required_fields: Array.isArray(..) ? .. : []}], so the
    stored schema is a list. *)
Module Space.
Record t : Type := {
  id : string;
  title : string;
  type : string;
  required_fields : list Json.value;
  status : string;
  start_time : option string;
  end_time : option string
}.
End Space.

(** The signed-in identity ([user] of [useAuth]) and a row of [users]. *)
Module User.
Record t : Type := { id : string }.
End User.

Module UserRow.
Record t : Type := { full_name : string; email : string }.
End UserRow.

(** [submissionData], the object handed to [insert].  [fields] gives the
    string the record holds under a key.  A key under which the form holds
    no value (it was never written, so its value is [undefined]) has no
    entry: it is not part of the JSON that [insert] sends. *)
Record AttendanceRecord : Type := {
  space_id : string;
  user_id : option string;
  fields : gmap string string
}.

(** ** The store, the console and the toasts *)

Inductive Exn : Type :=
| StoreError (code message : string)     (* the [error] of a store answer *)
| FetchError (message : string)          (* a rejected promise *)
| TypeError (message : string).          (* a property read on [null] *)

(** An awaited store call either resolves to [{data, error}] or rejects. *)
Module Response.
Record t (A : Type) : Type := { data : option A; error : option Exn }.
Arguments data {A} _.
Arguments error {A} _.
End Response.

Inductive Awaited (A : Type) : Type :=
| Resolved (r : Response.t A)
| Rejected (e : Exn).
Arguments Resolved {A} _.
Arguments Rejected {A} _.

Definition found {A} (a : A) : Awaited A :=
  Resolved {| Response.data := Some a; Response.error := None |}.
Definition failed {A} (e : Exn) : Awaited A :=
  Resolved {| Response.data := None; Response.error := Some e |}.

(** [.single()] over the rows a filter selects: one row is the answer, any
    other number is the error PGRST116. *)
Definition single {A} (rows : list A) : Awaited A :=
  match rows with
  | [r] => found r
  | _ => failed (StoreError "PGRST116" "JSON object requested, multiple (or no) rows returned")
  end.

Inductive StoreCall : Type :=
| FindSpaceByCode (code : string)
| FindUserProfile (uid : string)
| InsertAttendanceRecord (r : AttendanceRecord).

Inductive ToastVariant : Type := Default | Destructive.

Record Toast : Type := {
  toast_title : string;
  toast_description : string;
  toast_variant : ToastVariant
}.

(** ** The state of the page

    The five [useState] cells, the values and errors of the form
    ([useForm]), and the traces of what the page did to the outside. *)

Record Page : Type := {
  space : option Space.t;
  loading : bool;
  isSubmitting : bool;
  submitted : bool;
  error : option string;
  values : gmap string string;          (* the form's values, by field name *)
  fieldErrors : list (string * string); (* the flagged fields and their messages *)
  calls : list StoreCall;               (* store calls issued, oldest first *)
  pending : list AttendanceRecord;      (* inserts awaiting their answer *)
  console : list (string * Exn);        (* [console.error] lines *)
  toasts : list Toast
}.

Definition initialPage : Page :=
  {| space := None; loading := true; isSubmitting := false; submitted := false;
     error := None; values := ∅; fieldErrors := []; calls := []; pending := [];
     console := []; toasts := [] |}.

Definition setSpace (x : option Space.t) (p : Page) : Page :=
  {| space := x; loading := loading p; isSubmitting := isSubmitting p;
     submitted := submitted p; error := error p; values := values p;
     fieldErrors := fieldErrors p; calls := calls p; pending := pending p;
     console := console p; toasts := toasts p |}.

Definition setLoading (x : bool) (p : Page) : Page :=
  {| space := space p; loading := x; isSubmitting := isSubmitting p;
     submitted := submitted p; error := error p; values := values p;
     fieldErrors := fieldErrors p; calls := calls p; pending := pending p;
     console := console p; toasts := toasts p |}.

Definition setIsSubmitting (x : bool) (p : Page) : Page :=
  {| space := space p; loading := loading p; isSubmitting := x;
     submitted := submitted p; error := error p; values := values p;
     fieldErrors := fieldErrors p; calls := calls p; pending := pending p;
     console := console p; toasts := toasts p |}.

Definition setSubmitted (x : bool) (p : Page) : Page :=
  {| space := space p; loading := loading p; isSubmitting := isSubmitting p;
     submitted := x; error := error p; values := values p;
     fieldErrors := fieldErrors p; calls := calls p; pending := pending p;
     console := console p; toasts := toasts p |}.

Definition setError (x : option string) (p : Page) : Page :=
  {| space := space p; loading := loading p; isSubmitting := isSubmitting p;
     submitted := submitted p; error := x; values := values p;
     fieldErrors := fieldErrors p; calls := calls p; pending := pending p;
     console := console p; toasts := toasts p |}.

Definition setValues (x : gmap string string) (p : Page) : Page :=
  {| space := space p; loading := loading p; isSubmitting := isSubmitting p;
     submitted := submitted p; error := error p; values := x;
     fieldErrors := fieldErrors p; calls := calls p; pending := pending p;
     console := console p; toasts := toasts p |}.

Definition setFieldErrors (x : list (string * string)) (p : Page) : Page :=
  {| space := space p; loading := loading p; isSubmitting := isSubmitting p;
     submitted := submitted p; error := error p; values := values p;
     fieldErrors := x; calls := calls p; pending := pending p;
     console := console p; toasts := toasts p |}.

Definition setPending (x : list AttendanceRecord) (p : Page) : Page :=
  {| space := space p; loading := loading p; isSubmitting := isSubmitting p;
     submitted := submitted p; error := error p; values := values p;
     fieldErrors := fieldErrors p; calls := calls p; pending := x;
     console := console p; toasts := toasts p |}.

(** A store call leaves the page: it is appended to the trace. *)
Definition issue (c : StoreCall) (p : Page) : Page :=
  {| space := space p; loading := loading p; isSubmitting := isSubmitting p;
     submitted := submitted p; error := error p; values := values p;
     fieldErrors := fieldErrors p; calls := calls p ++ [c]; pending := pending p;
     console := console p; toasts := toasts p |}.

Definition console_error (label : string) (e : Exn) (p : Page) : Page :=
  {| space := space p; loading := loading p; isSubmitting := isSubmitting p;
     submitted := submitted p; error := error p; values := values p;
     fieldErrors := fieldErrors p; calls := calls p; pending := pending p;
     console := console p ++ [(label, e)]; toasts := toasts p |}.

Definition toast (t : Toast) (p : Page) : Page :=
  {| space := space p; loading := loading p; isSubmitting := isSubmitting p;
     submitted := submitted p; error := error p; values := values p;
     fieldErrors := fieldErrors p; calls := calls p; pending := pending p;
     console := console p; toasts := toasts p ++ [t] |}.

(** [form.reset(defaultValues)]: the values become the given object. *)
Definition form_reset (defaultValues : gmap string string) (p : Page) : Page :=
  setFieldErrors [] (setValues defaultValues p).

(** An input bound to [name] receives [v]: the value kept under [name]
    becomes [v], for every input bound to that name. *)
Definition form_setValue (name v : string) (p : Page) : Page :=
  setValues (<[name := v]> (values p)) p.

(** ** The Session Resolver: [fetchSpace] *)

(** How the [try] block ended: it ran to its end (or left by [return]), or
    an exception is on its way to [catch]. *)
Inductive Completion : Type :=
| Completed
| Thrown (e : Exn).

(** [{...data, required_fields: Array.isArray(data.required_fields) ?
    data.required_fields : []}] *)
Definition storedSpace (data : SpaceRow.t) : Space.t :=
  {| Space.id := SpaceRow.id data;
     Space.title := SpaceRow.title data;
     Space.type := SpaceRow.type data;
     Space.required_fields :=
       match SpaceRow.required_fields data with
       | Json.JArray items => items
       | _ => []
       end;
     Space.status := SpaceRow.status data;
     Space.start_time := SpaceRow.start_time data;
     Space.end_time := SpaceRow.end_time data |}.

(** [!code] for the route parameter. *)
Definition noCode (code : option string) : bool :=
  match code with
  | Some c => negb (JsString.truthy c)
  | None => true
  end.

Section Resolver.

(** [new Date(s).getTime()], [None] for an invalid date; a comparison
    with an invalid date is false. *)
Variable Date_parse : string -> option Z.

(** [data.end_time && new Date(data.end_time) < new Date()] *)
Definition hasEnded (end_time : option string) (now : Z) : bool :=
  match end_time with
  | Some s =>
      JsString.truthy s &&
      match Date_parse s with
      | Some t => (t <? now)%Z
      | None => false
      end
  | None => false
  end.

(** The prefill of lines 89-104, entered with the space stored. *)
Definition prefill (user : option User.t) (profile : Awaited UserRow.t)
    (st : Page) : Page * Completion :=
  match user with
  | None => (st, Completed)
  | Some u =>
      let st := issue (FindUserProfile (User.id u)) st in
      match profile with
      | Rejected e => (st, Thrown e)
      | Resolved r =>
          match Response.data r with
          | Some userData =>
              let defaultValues : gmap string string :=
                <["email" := JsString.or_else (UserRow.email userData) ""]>
                  (<["name" := JsString.or_else (UserRow.full_name userData) ""]> ∅) in
              (form_reset defaultValues st, Completed)
          | None => (st, Completed)
          end
      end
  end.

(** The body of [try]. *)
Definition fetchSpace_try (code : string) (user : option User.t) (now : Z)
    (lookup : Awaited SpaceRow.t) (profile : Awaited UserRow.t)
    (st : Page) : Page * Completion :=
  let st := issue (FindSpaceByCode code) st in
  match lookup with
  | Rejected e => (st, Thrown e)
  | Resolved r =>
      match Response.error r with
      | Some e => (st, Thrown e)
      | None =>
          match Response.data r with
          | None => (st, Thrown (TypeError "Cannot read properties of null (reading 'status')"))
          | Some data =>
              if negb (String.eqb (SpaceRow.status data) "open") then
                let st := setError (Some ("This attendance session is " +:+ SpaceRow.status data)) st in
                let st := setSpace (Some (storedSpace data)) st in
                let st := setLoading false st in
                (st, Completed)
              else if hasEnded (SpaceRow.end_time data) now then
                let st := setError (Some "This attendance session has ended") st in
                let st := setSpace (Some (storedSpace data)) st in
                let st := setLoading false st in
                (st, Completed)
              else
                let st := setSpace (Some (storedSpace data)) st in
                prefill user profile st
          end
      end
  end.

(** [fetchSpace]: the guard on the code, then [try]/[catch]/[finally]. *)
Definition fetchSpace (code : option string) (user : option User.t) (now : Z)
    (lookup : Awaited SpaceRow.t) (profile : Awaited UserRow.t)
    (st : Page) : Page :=
  if noCode code then
    setLoading false (setError (Some "Invalid attendance code") st)
  else
    let '(st, c) := fetchSpace_try (default "" code) user now lookup profile st in
    let st :=
      match c with
      | Thrown err =>
          setError (Some "Attendance session not found")
            (console_error "Error fetching space:" err st)
      | Completed => st
      end in
    setLoading false st.

(** The space accepts submissions: the two guards of [fetchSpace] let it
    through. *)
Definition accepting (data : SpaceRow.t) (now : Z) : bool :=
  String.eqb (SpaceRow.status data) "open"
  && negb (hasEnded (SpaceRow.end_time data) now).

End Resolver.

(** ** The Dynamic Field Renderer *)

(** [rules] of a [FormField]. *)
Record Rules : Type := {
  required : option string;                         (* the message *)
  pattern : option (RegExp.regex * bool * string)   (* value, [i] flag, message *)
}.

(** A [FormField] of the form: the key it is bound to and its rules.
    Labels and placeholders are presentation and are left out.  The
    [type] of the native input (lines 269 and 290) is read by the browser
    only, whose check is not part of the page: see [Gesture]. *)
Record FormField : Type := { name : string; rules : Rules }.

Definition noRules : Rules := {| required := None; pattern := None |}.

Definition range (a b : ascii) : N * N := (JsString.code a, JsString.code b).
Definition oneUnit (a : ascii) : N * N := range a a.

(** The three bracket classes of the email pattern. *)
Definition localClass : list (N * N) :=
  [range "A" "Z"; range "0" "9"; oneUnit "."; oneUnit "_"; oneUnit "%";
   oneUnit "+"; oneUnit "-"].

Definition domainClass : list (N * N) :=
  [range "A" "Z"; range "0" "9"; oneUnit "."; oneUnit "-"].

Definition letterClass : list (N * N) := [range "A" "Z"].

(** [/^[A-Z0-9._%+-]+@[A-Z0-9.-]+\.[A-Z]{2,}$/i] *)
Definition emailPattern : RegExp.regex :=
  RegExp.Seq (RegExp.Plus (RegExp.Class localClass))
    (RegExp.Seq (RegExp.Chr "@")
       (RegExp.Seq (RegExp.Plus (RegExp.Class domainClass))
          (RegExp.Seq (RegExp.Chr ".")
             (RegExp.AtLeast 2 (RegExp.Class letterClass))))).

Definition nameField : FormField :=
  {| name := "name";
     rules := {| required := Some "Name is required"; pattern := None |} |}.

Definition emailField : FormField :=
  {| name := "email";
     rules := {| required := Some "Email is required";
                 pattern := Some (emailPattern, true, "Invalid email address") |} |}.

(** [customField.name.toLowerCase().replace(/\s+/g, '_')] *)
Definition normalizeKey (fieldName : string) : string :=
  JsString.replace_ws_underscore (JsString.toLowerCase fieldName).

(** One element of the [map] of line 277.  [None]: the render throws a
    TypeError, because [customField.name] is not a string. *)
Definition customFormField (customField : Json.value) : option FormField :=
  match Json.get "name" customField with
  | Some (Json.JString n) =>
      Some {| name := normalizeKey n;
              rules := if Json.truthy (Json.get "required" customField)
                       then {| required := Some (n +:+ " is required"); pattern := None |}
                       else noRules |}
  | _ => None
  end.

Definition formFields (sp : Space.t) : option (list FormField) :=
  fs ← mapM customFormField (Space.required_fields sp);
  Some (nameField :: emailField :: fs).

(** What the component returns. *)
Inductive View : Type :=
| LoadingView
| ErrorView (message : string) (session : option Space.t)
| SubmittedView
| Blank                                            (* [return null] *)
| FormView (inputs : list FormField) (submitDisabled : bool)
| RenderThrows.

Definition render (st : Page) : View :=
  if loading st then LoadingView
  else
    match error st with
    | Some (String c m) => ErrorView (String c m) (space st)
    | _ =>
        if submitted st then SubmittedView
        else
          match space st with
          | None => Blank
          | Some sp =>
              match formFields sp with
              | Some inputs => FormView inputs (isSubmitting st)
              | None => RenderThrows
              end
          end
    end.

(** ** Validation: [form.handleSubmit]

    The form library is used through its contract: a field is checked
    against the rules it was rendered with, on the value stored under its
    name, and the submit callback runs only when no field is flagged.
    The library finds a field, its value and its error by the field's
    name, and the empty name finds nothing: an input bound to the empty
    key is rendered, but it is never checked and never flagged. *)

(** A value counts as empty when the field was never written or holds
    the empty string. *)
Definition isEmptyValue (v : option string) : bool :=
  match v with
  | Some s => negb (JsString.truthy s)
  | None => true
  end.

(** The message a field is flagged with, if any: none for a field
    without a name; otherwise [required] first, then [pattern], which is
    tried on non-empty values only. *)
Definition validateField (vals : gmap string string) (f : FormField) : option string :=
  if negb (JsString.truthy (name f)) then None else
  let v := vals !! name f in
  match required (rules f) with
  | Some msg => if isEmptyValue v then Some msg else
      match pattern (rules f) with
      | Some (re, i, pmsg) =>
          if RegExp.test i re (default "" v) then None else Some pmsg
      | None => None
      end
  | None =>
      match pattern (rules f) with
      | Some (re, i, pmsg) =>
          if isEmptyValue v || RegExp.test i re (default "" v) then None else Some pmsg
      | None => None
      end
  end.

Definition validate (vals : gmap string string) (inputs : list FormField)
    : list (string * string) :=
  omap (fun f => msg ← validateField vals f; Some (name f, msg)) inputs.

(** [form.handleSubmit(onValid)]: the callback runs on the form's values
    when no field is flagged; otherwise the flags are shown and nothing
    else happens. *)
Definition handleSubmit (inputs : list FormField)
    (onValid : gmap string string -> Page -> Page) (st : Page) : Page :=
  match validate (values st) inputs with
  | [] => onValid (values st) (setFieldErrors [] st)
  | errs => setFieldErrors errs st
  end.

(** ** The Submission Writer: [onSubmit] *)

(** [user?.id || null] *)
Definition submitter (user : option User.t) : option string :=
  match user with
  | Some u => if JsString.truthy (User.id u) then Some (User.id u) else None
  | None => None
  end.

(** [onSubmit] up to its [await] (lines 117-129): the guard, the flag and
    the insert call, which stays pending. *)
Definition onSubmit_begin (user : option User.t) (data : gmap string string)
    (st : Page) : Page :=
  match space st with
  | None => st
  | Some sp =>
      let st := setIsSubmitting true st in
      let submissionData :=
        {| space_id := Space.id sp; user_id := submitter user; fields := data |} in
      let st := issue (InsertAttendanceRecord submissionData) st in
      setPending (pending st ++ [submissionData]) st
  end.

Definition submitFailed (e : Exn) (st : Page) : Page :=
  toast {| toast_title := "Error";
           toast_description := "Failed to submit attendance";
           toast_variant := Destructive |}
    (console_error "Error submitting attendance:" e st).

(** [onSubmit] from the answer of the insert on (lines 131-140). *)
Definition onSubmit_settle (answer : Awaited ()) (st : Page) : Page :=
  let st := setPending (tail (pending st)) st in
  let st :=
    match answer with
    | Rejected e => submitFailed e st
    | Resolved r =>
        match Response.error r with
        | Some e => submitFailed e st
        | None =>
            toast {| toast_title := "Success";
                     toast_description := "Attendance submitted successfully!";
                     toast_variant := Default |}
              (setSubmitted true st)
        end
    end in
  setIsSubmitting false st.

(** [onSubmit] run through, the insert answering [answer]. *)
Definition onSubmit (user : option User.t) (answer : Awaited ())
    (data : gmap string string) (st : Page) : Page :=
  match space st with
  | None => st
  | Some _ => onSubmit_settle answer (onSubmit_begin user data st)
  end.

(** ** The page as a transition system

    The events are the ones the handlers of the page receive: the change
    event of an input, the submit event of the form, to which
    [form.handleSubmit(onSubmit)] is bound (line 238), and the settling of
    the awaited insert.  The submit event is what an activation of the
    submit control becomes once the browser has let it through, see
    [Gesture]. *)

Inductive Event : Type :=
| EvInput (i : nat) (v : string)          (* [v] is typed into the [i]-th input *)
| EvSubmit                                (* the submit control is activated, and
                                             the form receives its submit event *)
| EvInsertSettled (answer : Awaited ()).  (* the pending insert is answered *)

(** The submit control exists in the form view only, and a disabled
    button does not submit.  The view is the one of the current state. *)
Definition step (user : option User.t) (st : Page) (ev : Event) : Page :=
  match ev with
  | EvInput i v =>
      match render st with
      | FormView inputs _ =>
          match inputs !! i with
          | Some f => form_setValue (name f) v st
          | None => st
          end
      | _ => st
      end
  | EvSubmit =>
      match render st with
      | FormView inputs false => handleSubmit inputs (onSubmit_begin user) st
      | _ => st
      end
  | EvInsertSettled answer =>
      match pending st with
      | [] => st
      | _ :: _ => onSubmit_settle answer st
      end
  end.

Definition run (user : option User.t) (st : Page) (evs : list Event) : Page :=
  foldl (step user) st evs.

(** The insert calls of a trace. *)
Definition inserts (cs : list StoreCall) : list AttendanceRecord :=
  omap (fun c => match c with InsertAttendanceRecord r => Some r | _ => None end) cs.

Definition profileFetches (cs : list StoreCall) : list string :=
  omap (fun c => match c with FindUserProfile u => Some u | _ => None end) cs.


Definition isFormView (v : View) : bool :=
  match v with FormView _ _ => true | _ => false end.

(** The keys an input of the page can be bound to. *)
Definition knownKey (st : Page) (k : string) : Prop :=
  k = "name" \/ k = "email"
  \/ exists sp inputs, space st = Some sp /\ formFields sp = Some inputs
                       /\ k ∈ name <$> inputs.

(** The flag and the pending insert go together: the invariant of the
    transition system. *)
Definition inFlightInv (st : Page) : Prop :=
  (isSubmitting st = false /\ pending st = [])
  \/ (isSubmitting st = true /\ exists r, pending st = [r]).

(** The number of insert answers among the events. *)
Definition isSettled (ev : Event) : bool :=
  match ev with EvInsertSettled _ => true | _ => false end.

Definition settled (evs : list Event) : nat := length (List.filter isSettled evs).

(** The lookup did not deliver a row: the promise was rejected, the
    answer carries an error, or it carries neither error nor row. *)
Definition lookupFails (lookup : Awaited SpaceRow.t) : bool :=
  match lookup with
  | Rejected _ => true
  | Resolved r =>
      match Response.error r, Response.data r with
      | None, Some _ => false
      | _, _ => true
      end
  end.

(** What the page holds for the user: the state cells and the form,
    without the traces. *)
Definition observable (p : Page)
    : option Space.t * bool * bool * bool * option string
      * gmap string string * list (string * string) :=
  (space p, loading p, isSubmitting p, submitted p, error p, values p, fieldErrors p).

(** ** The visitor and the browser

    The [form] element of line 238 carries no [noValidate], and its
    inputs are native inputs of type [email] (line 269) or of the type of
    the custom field (line 290).  A click on the enabled submit control
    therefore first meets the constraint validation of the browser: the
    submit event is fired when every input passes it, and otherwise
    nothing reaches the page.  That check belongs to the browser, not to
    the page, so its verdict is an input of the click, as the answers of
    the store are inputs of the calls. *)

Inductive Gesture : Type :=
| Typing (i : nat) (v : string)        (* the visitor types [v] into the [i]-th input *)
| Click (nativeValid : bool)           (* a click on the submit control, and whether
                                          the browser finds the inputs valid *)
| Settling (answer : Awaited ()).      (* the store answers the pending insert *)

(** The event a gesture becomes, if any. *)
Definition fired (g : Gesture) : option Event :=
  match g with
  | Typing i v => Some (EvInput i v)
  | Click true => Some EvSubmit
  | Click false => None
  | Settling answer => Some (EvInsertSettled answer)
  end.

Definition act (user : option User.t) (st : Page) (g : Gesture) : Page :=
  match fired g with
  | Some ev => step user st ev
  | None => st
  end.

Definition session (user : option User.t) (st : Page) (gs : list Gesture) : Page :=
  foldl (act user) st gs.



(** ** Field names that are one property

    The form library keeps the values, the fields and the errors of a
    form in objects, and reads a field name as a path into them: a dot or
    a bracket in a name descends into a nested object.  A name made of
    letters, digits and underscores is one property, which is the
    library's own test for a plain key.  The model keeps values and
    errors by name, so it is exact for such names, provided they are not
    empty and are not among the names that mean something else in those
    objects: the properties every object has or refuses, and [root],
    under which the library keeps the errors of the form as a whole. *)

Definition wordUnit (c : ascii) : bool :=
  let n := JsString.code c in
  JsString.between 48 57 n || JsString.between 65 90 n
  || JsString.between 97 122 n || (n =? 95)%N.

Definition reservedNames : list string :=
  ["__proto__"; "constructor"; "prototype"; "root"].

Definition simpleName (k : string) : bool :=
  JsString.truthy k
  && forallb wordUnit (list_ascii_of_string k)
  && negb (existsb (String.eqb k) reservedNames).

(** Every input of the form the page can show has a simple name. *)
Definition simpleForm (st : Page) : Prop :=
  forall sp inputs, space st = Some sp -> formFields sp = Some inputs ->
    Forall (fun f => simpleName (name f) = true) inputs.

(** ** The key rule in the words of the specification

    The key of a custom field is obtained by lower-casing the display
    name and replacing each whitespace run with an underscore.  The rule
    is written here by itself, as a relation between a display name and a
    key over tables of the capital letters and of the white-space
    characters, without the functions of [JsString]; [normalizeKey],
    which follows line 281, is compared with it below. *)

Module KeyRule.

(** The capital letters below 256 with their small letters: A-Z, and the
    accented capitals on either side of the multiplication sign. *)
Definition capitals : list (N * N) :=
  (fun n => (N.of_nat n, N.of_nat n + 32)%N) <$> (seq 65 26 ++ seq 192 23 ++ seq 216 7).

(** Tab, line feed, vertical tab, form feed, carriage return, space and
    no-break space. *)
Definition whiteSpace : list N := [9; 10; 11; 12; 13; 32; 160]%N.

Definition isWhite (c : ascii) : Prop := N_of_ascii c ∈ whiteSpace.

(** [LowerCased s t]: [t] is [s] with each capital letter replaced by its
    small letter and every other character kept. *)
Inductive LowerCased : string -> string -> Prop :=
| LowerNil : LowerCased "" ""
| LowerCapital c d s t :
    (N_of_ascii c, N_of_ascii d) ∈ capitals -> LowerCased s t ->
    LowerCased (String c s) (String d t)
| LowerOther c s t :
    N_of_ascii c ∉ capitals.*1 -> LowerCased s t ->
    LowerCased (String c s) (String c t).

Definition allWhite (w : string) : Prop := Forall isWhite (list_ascii_of_string w).

Definition startsWhite (s : string) : Prop :=
  match s with
  | String c _ => isWhite c
  | EmptyString => False
  end.

(** [RunsReplaced s t]: [t] is [s] with each white-space run, taken as
    long as it goes, replaced by one underscore. *)
Inductive RunsReplaced : string -> string -> Prop :=
| RunsNil : RunsReplaced "" ""
| RunsUnit c s t :
    ~ isWhite c -> RunsReplaced s t -> RunsReplaced (String c s) (String c t)
| RunsRun w s t :
    w <> "" -> allWhite w -> ~ startsWhite s -> RunsReplaced s t ->
    RunsReplaced (w +:+ s) (String "_" t).

Definition Key (displayName key : string) : Prop :=
  exists lowered, LowerCased displayName lowered /\ RunsReplaced lowered key.

End KeyRule.

(** ** Timestamps

    The store returns [timestamptz] columns as [YYYY-MM-DDTHH:MM:SS+00:00],
    and [CreateSpace] writes them with [toISOString], as
    [YYYY-MM-DDTHH:MM:SS.sssZ].  [IsoDate.parse] reads these two forms the
    way [new Date(s).getTime()] does, in milliseconds since the epoch, and
    stands for [Date_parse] in the examples, which use no other form.
    The other forms that [new Date] accepts are not read. *)

Module IsoDate.

Local Open Scope Z_scope.

Definition digit (c : ascii) : option Z :=
  let n := JsString.code c in
  if JsString.between 48 57 n then Some (Z.of_N n - 48) else None.

Fixpoint number (acc : Z) (s : string) : option Z :=
  match s with
  | EmptyString => Some acc
  | String c s' => d ← digit c; number (10 * acc + d) s'
  end.

Definition digitsAt (pos len : nat) (s : string) : option Z :=
  let t := String.substring pos len s in
  if Nat.eqb (String.length t) len then number 0 t else None.

Definition isAt (pos : nat) (sep s : string) : bool :=
  String.eqb (String.substring pos (String.length sep) s) sep.

(** Days from 1970-01-01 to the given civil date. *)
Definition daysFromCivil (y m d : Z) : Z :=
  let y := if m <=? 2 then y - 1 else y in
  let era := y / 400 in
  let yoe := y - era * 400 in
  let mp := if m >? 2 then m - 3 else m + 9 in
  let doy := (153 * mp + 2) / 5 + d - 1 in
  let doe := yoe * 365 + yoe / 4 - yoe / 100 + doy in
  era * 146097 + doe - 719468.

Definition zone (suffix : string) : option Z :=
  if String.eqb suffix "Z" || String.eqb suffix "+00:00" then Some 0
  else if isAt 0 "." suffix && (String.eqb (String.substring 4 6 suffix) "Z"
                                || String.eqb (String.substring 4 6 suffix) "+00:00")
  then digitsAt 1 3 suffix
  else None.

Definition parse (s : string) : option Z :=
  if isAt 4 "-" s && isAt 7 "-" s && isAt 10 "T" s && isAt 13 ":" s && isAt 16 ":" s
  then
    y ← digitsAt 0 4 s; mo ← digitsAt 5 2 s; d ← digitsAt 8 2 s;
    h ← digitsAt 11 2 s; mi ← digitsAt 14 2 s; se ← digitsAt 17 2 s;
    ms ← zone (String.substring 19 (String.length s - 19) s);
    if (1 <=? mo) && (mo <=? 12) && (1 <=? d) && (d <=? 31)
       && (h <=? 23) && (mi <=? 59) && (se <=? 59)
    then Some ((((daysFromCivil y mo d * 24 + h) * 60 + mi) * 60 + se) * 1000 + ms)
    else None
  else None.

End IsoDate.

(** ** Sample data

    The scenario of the specification: the space reached by the code
    TEND-00042, with one custom field. *)

Module Sample.

Definition studentId : CustomField :=
  {| cf_id := "1752000000000"; cf_name := "Student ID";
     cf_type := TNumber; cf_required := true |}.

Definition row (status : string) (fields : Json.value) (end_time : option string)
    : SpaceRow.t :=
  {| SpaceRow.id := "5f0c9a4e-0000-4000-8000-000000000042";
     SpaceRow.title := "Algorithms, week 3";
     SpaceRow.type := "Class";
     SpaceRow.required_fields := fields;
     SpaceRow.status := status;
     SpaceRow.start_time := None;
     SpaceRow.end_time := end_time |}.

Definition schema : Json.value := Json.JArray [CustomField_json studentId].

Definition code : option string := Some "TEND-00042".

Definition jane : User.t := {| User.id := "9b2e6f3a-0000-4000-8000-0000000000aa" |}.

Definition janeRow : UserRow.t :=
  {| UserRow.full_name := "Jane Doe"; UserRow.email := "jane@x.com" |}.

(** 2025-07-20T12:00:00Z *)
Definition noon : Z := 1753012800000.

Definition unreachable : Exn := FetchError "Failed to fetch".

Definition ok : Awaited () :=
  Resolved {| Response.data := None; Response.error := None |}.

Definition answers : gmap string string :=
  <["student_id" := "99"]> (<["email" := "jane@x.com"]> {["name" := "Jane Doe"]}).

(** 2025-07-20T13:00:00Z *)
Definition oneOClock : Z := 1753016400000.

(** The page after an anonymous visitor resolved the open space, and
    after the three inputs were filled in. *)
Definition loaded : Page :=
  fetchSpace IsoDate.parse code None noon (found (row "open" schema None))
    (found janeRow) initialPage.

Definition filled (emailValue : string) : Page :=
  run None loaded [EvInput 0 "Jane Doe"; EvInput 1 emailValue; EvInput 2 "99"].



Definition studentIdField : FormField :=
  {| name := "student_id";
     rules := {| required := Some "Student ID is required"; pattern := None |} |}.




End Sample.

(** More forms: a space with an optional field, and one whose field names
    exercise the key rule. *)

Module SampleForms.




Definition nickInputs : list FormField :=
  [ nameField; emailField; Sample.studentIdField;
    {| name := "nickname"; rules := noRules |} ].









End SampleForms.

(** ** More of the JavaScript library

    What the space-creation page and the image helpers use besides the
    above. *)

Module Js.

(** [String.prototype.trim]: white space and line terminators are taken
    off both ends; below 256 these are the units of [\s]. *)
Fixpoint trimStart (s : string) : string :=
  match s with
  | EmptyString => EmptyString
  | String c s' => if JsString.isWhiteSpace c then trimStart s' else s
  end.

Fixpoint trimEnd (s : string) : string :=
  match s with
  | EmptyString => EmptyString
  | String c s' =>
      match trimEnd s' with
      | EmptyString => if JsString.isWhiteSpace c then EmptyString else String c EmptyString
      | t => String c t
      end
  end.

Definition trim (s : string) : string := trimEnd (trimStart s).

(** [n.toString()] for a non-negative integer and for an integer. *)
Definition Number_toString (n : N) : string := NilZero.string_of_uint (N.to_uint n).

Definition Int_toString (z : Z) : string := NilZero.string_of_int (Z.to_int z).

(** [String.prototype.toUpperCase] on one unit below 256.  The three
    units whose upper-case form is not one unit below 256 (the micro
    sign, the sharp s and the y with diaeresis) are left as they are;
    the strings it is applied to here hold none of them. *)
Definition toUpperCase_unit (c : ascii) : ascii :=
  let n := JsString.code c in
  if (JsString.between 97 122 n
      || (JsString.between 224 254 n && negb (n =? 247)%N))%bool
  then ascii_of_N (n - 32) else c.

Fixpoint toUpperCase (s : string) : string :=
  match s with
  | EmptyString => EmptyString
  | String c s' => String (toUpperCase_unit c) (toUpperCase s')
  end.

(** [s.split('.').pop()]: what follows the last point, the whole string
    when it has none. *)
Fixpoint afterLastDot (s : string) : string :=
  match s with
  | EmptyString => EmptyString
  | String c s' =>
      if Ascii.eqb c "." then afterLastDot s'
      else if existsb (Ascii.eqb ".") (list_ascii_of_string s') then afterLastDot s'
      else s
  end.

(** [JSON.stringify] of a string: quotes around it, with the quote, the
    backslash and the control units escaped. *)
Definition hexDigit (n : N) : ascii :=
  if (n <? 10)%N then ascii_of_N (48 + n) else ascii_of_N (87 + n).

Definition escapeUnit (c : ascii) : string :=
  let n := JsString.code c in
  if (n =? 34)%N then String "\" (String c EmptyString)
  else if (n =? 92)%N then String "\" (String "\" EmptyString)
  else if (n =? 8)%N then "\b"
  else if (n =? 9)%N then "\t"
  else if (n =? 10)%N then "\n"
  else if (n =? 12)%N then "\f"
  else if (n =? 13)%N then "\r"
  else if (n <? 32)%N then
    "\u00" +:+ String (hexDigit (n / 16)) (String (hexDigit (n mod 16)) EmptyString)
  else String c EmptyString.

Fixpoint escapeUnits (s : string) : string :=
  match s with
  | EmptyString => EmptyString
  | String c s' => escapeUnit c +:+ escapeUnits s'
  end.

Definition quoteJson (s : string) : string :=
  String "034" (escapeUnits s +:+ String "034" EmptyString).

(** [xs.join(sep)] *)
Fixpoint join (sep : string) (xs : list string) : string :=
  match xs with
  | [] => EmptyString
  | [x] => x
  | x :: rest => x +:+ sep +:+ join sep rest
  end.

End Js.

(** ** The space-creation page, [src/pages/CreateSpace.tsx]

    The page where an admin composes the schema the attendance page
    renders.  [Math.random().toString(36)], the origin of the window,
    the QR code and the answer of the store are inputs; [JSON.stringify]
    and [Date.prototype.toISOString] are parameters. *)

Module CreateSpace.

Inductive SpaceType : Type := Class | Event | Custom.

Module FormData.
Record t : Type := {
  title : string;
  type : SpaceType;
  startTime : option string;
  endTime : option string
}.
End FormData.

(** [spaceData], the object handed to [insert]. *)
Module SpaceData.
Record t : Type := {
  title : string;
  type : SpaceType;
  admin_id : string;
  required_fields : Json.value;
  unique_code : string;
  public_link : string;
  qr_code : string;
  start_time : option string;
  end_time : option string
}.
End SpaceData.

(** The row the insert answers with, and what [setCreatedSpace] keeps. *)
Module Row.
Record t : Type := {
  id : string;
  title : string;
  unique_code : string;
  public_link : string;
  qr_code : option string
}.
End Row.

Module Created.
Record t : Type := {
  id : string;
  title : string;
  uniqueCode : string;
  publicLink : string;
  qrCode : option string
}.
End Created.

(** What can be thrown inside [onSubmit]. *)
Inductive Failure : Type :=
| Raised (e : Exn)
| RangeError (message : string).

(** A promise that is not a store answer. *)
Inductive Settled (A : Type) : Type :=
| Fulfilled (a : A)
| Broken (e : Exn).
Arguments Fulfilled {A} _.
Arguments Broken {A} _.

Record State : Type := {
  isSubmitting : bool;
  customFields : list CustomField;
  newFieldName : string;
  newFieldType : FieldType;
  createdSpace : option Created.t;
  inserted : list SpaceData.t;            (* inserts issued, oldest first *)
  toasts : list Toast;
  console : list (string * Failure)
}.

Definition initialState : State :=
  {| isSubmitting := false; customFields := []; newFieldName := "";
     newFieldType := TText; createdSpace := None; inserted := [];
     toasts := []; console := [] |}.

Definition setIsSubmitting (x : bool) (s : State) : State :=
  {| isSubmitting := x; customFields := customFields s;
     newFieldName := newFieldName s; newFieldType := newFieldType s;
     createdSpace := createdSpace s; inserted := inserted s;
     toasts := toasts s; console := console s |}.

Definition setCustomFields (x : list CustomField) (s : State) : State :=
  {| isSubmitting := isSubmitting s; customFields := x;
     newFieldName := newFieldName s; newFieldType := newFieldType s;
     createdSpace := createdSpace s; inserted := inserted s;
     toasts := toasts s; console := console s |}.

Definition setNewFieldName (x : string) (s : State) : State :=
  {| isSubmitting := isSubmitting s; customFields := customFields s;
     newFieldName := x; newFieldType := newFieldType s;
     createdSpace := createdSpace s; inserted := inserted s;
     toasts := toasts s; console := console s |}.

Definition setNewFieldType (x : FieldType) (s : State) : State :=
  {| isSubmitting := isSubmitting s; customFields := customFields s;
     newFieldName := newFieldName s; newFieldType := x;
     createdSpace := createdSpace s; inserted := inserted s;
     toasts := toasts s; console := console s |}.

Definition setCreatedSpace (x : option Created.t) (s : State) : State :=
  {| isSubmitting := isSubmitting s; customFields := customFields s;
     newFieldName := newFieldName s; newFieldType := newFieldType s;
     createdSpace := x; inserted := inserted s;
     toasts := toasts s; console := console s |}.

Definition issue (d : SpaceData.t) (s : State) : State :=
  {| isSubmitting := isSubmitting s; customFields := customFields s;
     newFieldName := newFieldName s; newFieldType := newFieldType s;
     createdSpace := createdSpace s; inserted := inserted s ++ [d];
     toasts := toasts s; console := console s |}.

Definition toast (t : Toast) (s : State) : State :=
  {| isSubmitting := isSubmitting s; customFields := customFields s;
     newFieldName := newFieldName s; newFieldType := newFieldType s;
     createdSpace := createdSpace s; inserted := inserted s;
     toasts := toasts s ++ [t]; console := console s |}.

Definition console_error (label : string) (e : Failure) (s : State) : State :=
  {| isSubmitting := isSubmitting s; customFields := customFields s;
     newFieldName := newFieldName s; newFieldType := newFieldType s;
     createdSpace := createdSpace s; inserted := inserted s;
     toasts := toasts s; console := console s ++ [(label, e)] |}.

(** [addCustomField], the clock reading [now] being [Date.now()]. *)
Definition addCustomField (now : N) (s : State) : State :=
  if negb (JsString.truthy (Js.trim (newFieldName s))) then s
  else
    let field :=
      {| cf_id := Js.Number_toString now;
         cf_name := Js.trim (newFieldName s);
         cf_type := newFieldType s;
         cf_required := true |} in
    setNewFieldName "" (setCustomFields (customFields s ++ [field]) s).

(** [removeCustomField] *)
Definition removeCustomField (id : string) (s : State) : State :=
  setCustomFields
    (List.filter (fun field => negb (String.eqb (cf_id field) id)) (customFields s)) s.

(** [generateUniqueCode], [digits] being [Math.random().toString(36)]. *)
Definition generateUniqueCode (digits : string) : string :=
  "TEND-" +:+ Js.toUpperCase (String.substring 2 5 digits).

Section OnSubmit.

Variable JSON_stringify : list CustomField -> string.

(** [new Date(s).toISOString()]; [None]: the date is invalid and a
    RangeError is thrown. *)
Variable toISOString : string -> option string.

(** [v ? new Date(v).toISOString() : null]; the outer [None] is the
    RangeError. *)
Definition isoOrNull (v : option string) : option (option string) :=
  match v with
  | Some s =>
      if JsString.truthy s
      then match toISOString s with
           | Some iso => Some (Some iso)
           | None => None
           end
      else Some None
  | None => Some None
  end.

(** The body of [try] in [onSubmit]. *)
Definition onSubmit_try (u : User.t) (data : FormData.t) (digits origin : string)
    (qr : Settled string) (answer : Awaited Row.t) (s : State)
    : State * option Failure :=
  let uniqueCode := generateUniqueCode digits in
  let publicLink := origin +:+ "/attend/" +:+ uniqueCode in
  match qr with
  | Broken e => (s, Some (Raised e))
  | Fulfilled qrCodeDataUrl =>
      match isoOrNull (FormData.startTime data) with
      | None => (s, Some (RangeError "Invalid time value"))
      | Some start_time =>
          match isoOrNull (FormData.endTime data) with
          | None => (s, Some (RangeError "Invalid time value"))
          | Some end_time =>
              let spaceData :=
                {| SpaceData.title := FormData.title data;
                   SpaceData.type := FormData.type data;
                   SpaceData.admin_id := User.id u;
                   SpaceData.required_fields :=
                     Json.JString (JSON_stringify (customFields s));
                   SpaceData.unique_code := uniqueCode;
                   SpaceData.public_link := publicLink;
                   SpaceData.qr_code := qrCodeDataUrl;
                   SpaceData.start_time := start_time;
                   SpaceData.end_time := end_time |} in
              let s := issue spaceData s in
              match answer with
              | Rejected e => (s, Some (Raised e))
              | Resolved r =>
                  match Response.error r with
                  | Some e => (s, Some (Raised e))
                  | None =>
                      match Response.data r with
                      | None =>
                          (s, Some (Raised (TypeError
                             "Cannot read properties of null (reading 'id')")))
                      | Some space =>
                          let s := setCreatedSpace
                                     (Some {| Created.id := Row.id space;
                                              Created.title := Row.title space;
                                              Created.uniqueCode := Row.unique_code space;
                                              Created.publicLink := Row.public_link space;
                                              Created.qrCode := Row.qr_code space |}) s in
                          (toast {| toast_title := "Success";
                                    toast_description := "Attendance space created successfully!";
                                    toast_variant := Default |} s, None)
                      end
                  end
              end
          end
      end
  end.

(** [onSubmit] *)
Definition onSubmit (user : option User.t) (data : FormData.t) (digits origin : string)
    (qr : Settled string) (answer : Awaited Row.t) (s : State) : State :=
  match user with
  | None =>
      toast {| toast_title := "Error";
               toast_description := "You must be logged in to create a space";
               toast_variant := Destructive |} s
  | Some u =>
      let s := setIsSubmitting true s in
      let '(s, thrown) := onSubmit_try u data digits origin qr answer s in
      let s :=
        match thrown with
        | Some err =>
            toast {| toast_title := "Error";
                     toast_description := "Failed to create attendance space";
                     toast_variant := Destructive |}
              (console_error "Error creating space:" err s)
        | None => s
        end in
      setIsSubmitting false s
  end.

End OnSubmit.

Definition failureToast : Toast :=
  {| toast_title := "Error";
     toast_description := "Failed to create attendance space";
     toast_variant := Destructive |}.

(** [JSON.stringify(customFields)] *)
Definition stringifyField (f : CustomField) : string :=
  "{" +:+ Js.quoteJson "id" +:+ ":" +:+ Js.quoteJson (cf_id f) +:+ ","
  +:+ Js.quoteJson "name" +:+ ":" +:+ Js.quoteJson (cf_name f) +:+ ","
  +:+ Js.quoteJson "type" +:+ ":" +:+ Js.quoteJson (FieldType_string (cf_type f)) +:+ ","
  +:+ Js.quoteJson "required" +:+ ":" +:+ (if cf_required f then "true" else "false")
  +:+ "}".

Definition stringifyFields (fs : list CustomField) : string :=
  "[" +:+ Js.join "," (stringifyField <$> fs) +:+ "]".

(** [toISOString] in a browser whose time zone is UTC, on the values a
    datetime-local input gives, [YYYY-MM-DDTHH:MM]. *)
Definition utcISOString (s : string) : option string :=
  if Nat.eqb (String.length s) 16
  then match IsoDate.parse (s +:+ ":00Z") with
       | Some _ => Some (s +:+ ":00.000Z")
       | None => None
       end
  else None.

(** What the admin does on the page before submitting. *)
Inductive Edit : Type :=
| TypeName (text : string)
| PickType (t : FieldType)
| Add (now : N)
| Remove (id : string).

Definition edit (s : State) (e : Edit) : State :=
  match e with
  | TypeName text => setNewFieldName text s
  | PickType t => setNewFieldType t s
  | Add now => addCustomField now s
  | Remove id => removeCustomField id s
  end.

Definition edits (s : State) (es : list Edit) : State := foldl edit s es.

(** A field as [addCustomField] makes them: required, with a name that
    is not empty and is trimmed. *)
Definition wellFormedField (f : CustomField) : Prop :=
  cf_required f = true /\ cf_name f <> "" /\ Js.trim (cf_name f) = cf_name f.

End CreateSpace.

(** ** The image helpers, [src/lib/imageUpload.ts]

    File sizes and size limits are non-negative integers; the answers of
    the storage service and of the store are inputs. *)

Module ImageUpload.

Module File.
Record t : Type := { name : string; size : N; type : string }.
End File.

(** [interface UploadOptions]: [None] is an absent key. *)
Record UploadOptions : Type := {
  maxSizeBytes : option N;
  allowedTypes : option (list string);
  upsert : option bool
}.

Definition noOptions : UploadOptions :=
  {| maxSizeBytes := None; allowedTypes := None; upsert := None |}.

Definition DEFAULT_OPTIONS : UploadOptions :=
  {| maxSizeBytes := Some (5 * 1024 * 1024)%N;
     allowedTypes := Some ["image/jpeg"; "image/png"; "image/gif"; "image/webp"];
     upsert := Some true |}.

(** [{ ...a, ...b }] *)
Definition spread (a b : UploadOptions) : UploadOptions :=
  {| maxSizeBytes := match maxSizeBytes b with Some x => Some x | None => maxSizeBytes a end;
     allowedTypes := match allowedTypes b with Some x => Some x | None => allowedTypes a end;
     upsert := match upsert b with Some x => Some x | None => upsert a end |}.

(** [Math.round(n / 1024 / 1024)]: the divisions by a power of two are
    exact, and halves round up. *)
Definition roundMB (n : N) : N := ((n + 524288) / 1048576)%N.

(** [validateImageFile].  After the spread over the defaults every key
    is present; an absent limit would compare as false and an absent
    type list would throw, which cannot happen. *)
Definition validateImageFile (file : File.t) (options : UploadOptions) : option string :=
  let opts := spread DEFAULT_OPTIONS options in
  match maxSizeBytes opts, allowedTypes opts with
  | Some limit, Some types =>
      if (limit <? File.size file)%N then
        Some ("File size must be less than " +:+ Js.Number_toString (roundMB limit) +:+ "MB")
      else if negb (existsb (String.eqb (File.type file)) types) then
        Some "Please select a valid image file (JPEG, PNG, GIF, or WebP)"
      else None
  | _, _ => None
  end.

Inductive StorageCall : Type :=
| Upload (bucket path : string) (file : File.t) (upsertFlag : option bool)
| GetPublicUrl (bucket path : string)
| Remove (bucket : string) (paths : list string)
| UpdateAvatarUrl (userId url : string).

(** What a helper throws: an [Error] it made, or what it was handed. *)
Inductive Thrown : Type :=
| Error (message : string)
| Raw (e : Exn).

Inductive Settled (A : Type) : Type :=
| Fulfilled (a : A)
| Broken (e : Exn).
Arguments Fulfilled {A} _.
Arguments Broken {A} _.

(** The result of a helper with what it did on the way. *)
Record Run (A : Type) : Type := {
  outcome : Thrown + A;
  calls : list StorageCall;
  log : list (string * Exn)
}.
Arguments outcome {A} _.
Arguments calls {A} _.
Arguments log {A} _.

Record UploadResult : Type := { url : string; path : string }.

Definition message (e : Exn) : string :=
  match e with
  | StoreError _ m => m
  | FetchError m => m
  | TypeError m => m
  end.

(** The [catch] of [uploadImage]. *)
Definition uploadFailed {A} (e : Exn) (done : list StorageCall) : Run A :=
  {| outcome := inl (Error (JsString.or_else (message e) "Failed to upload image"));
     calls := done;
     log := [("Image upload error:", e)] |}.

(** [uploadImage]; [uploaded] is the answer of the upload, whose [error]
    may be set, and [publicUrl] the URL the service computes. *)
Definition uploadImage (bucket path : string) (file : File.t) (options : UploadOptions)
    (uploaded : Settled (option Exn)) (publicUrl : string) : Run UploadResult :=
  let opts := spread DEFAULT_OPTIONS options in
  match validateImageFile file opts with
  | Some (String c m) =>
      {| outcome := inl (Error (String c m)); calls := []; log := [] |}
  | _ =>
      let done := [Upload bucket path file (upsert opts)] in
      match uploaded with
      | Broken e => uploadFailed e done
      | Fulfilled (Some uploadError) => uploadFailed uploadError done
      | Fulfilled None =>
          {| outcome := inr {| url := publicUrl; path := path |};
             calls := done ++ [GetPublicUrl bucket path];
             log := [] |}
      end
  end.

(** [file.name.split('.').pop() || 'png'] *)
Definition fileExt (file : File.t) : string :=
  JsString.or_else (Js.afterLastDot (File.name file)) "png".

(** [uploadAvatar]; [updated] is the answer of the profile update. *)
Definition uploadAvatar (userId : string) (file : File.t)
    (uploaded : Settled (option Exn)) (publicUrl : string)
    (updated : Settled (option Exn)) : Run string :=
  let path := userId +:+ "." +:+ fileExt file in
  let result := uploadImage "avatars" path file noOptions uploaded publicUrl in
  match outcome result with
  | inl t => {| outcome := inl t; calls := calls result; log := log result |}
  | inr r =>
      let done := calls result ++ [UpdateAvatarUrl userId (url r)] in
      match updated with
      | Broken e => {| outcome := inl (Raw e); calls := done; log := log result |}
      | Fulfilled (Some _) =>
          {| outcome := inl (Error "Failed to update profile with new avatar");
             calls := done; log := log result |}
      | Fulfilled None => {| outcome := inr (url r); calls := done; log := log result |}
      end
  end.

End ImageUpload.

(** ** Sample data for the space-creation page and the image helpers *)

Module SampleCreate.

(** The admin types a name, picks the number type and adds the field. *)
Definition composed : CreateSpace.State :=
  CreateSpace.edits CreateSpace.initialState
    [CreateSpace.TypeName "  Student ID "; CreateSpace.PickType TNumber;
     CreateSpace.Add 1752000000000].

Definition form : CreateSpace.FormData.t :=
  {| CreateSpace.FormData.title := "Algorithms, week 3";
     CreateSpace.FormData.type := CreateSpace.Class;
     CreateSpace.FormData.startTime := Some "2025-07-20T10:00";
     CreateSpace.FormData.endTime := None |}.

Definition digits : string := "0.4fzyo82mvyr".

Definition origin : string := "https://tendx.example".

Definition qr : CreateSpace.Settled string :=
  CreateSpace.Fulfilled "data:image/png;base64,iVBORw0KGgo".

Definition written : CreateSpace.SpaceData.t :=
  {| CreateSpace.SpaceData.title := "Algorithms, week 3";
     CreateSpace.SpaceData.type := CreateSpace.Class;
     CreateSpace.SpaceData.admin_id := User.id Sample.jane;
     CreateSpace.SpaceData.required_fields :=
       Json.JString (CreateSpace.stringifyFields [Sample.studentId]);
     CreateSpace.SpaceData.unique_code := "TEND-4FZYO";
     CreateSpace.SpaceData.public_link := "https://tendx.example/attend/TEND-4FZYO";
     CreateSpace.SpaceData.qr_code := "data:image/png;base64,iVBORw0KGgo";
     CreateSpace.SpaceData.start_time := Some "2025-07-20T10:00:00.000Z";
     CreateSpace.SpaceData.end_time := None |}.

Definition answer : Awaited CreateSpace.Row.t :=
  found {| CreateSpace.Row.id := "5f0c9a4e-0000-4000-8000-000000000042";
           CreateSpace.Row.title := "Algorithms, week 3";
           CreateSpace.Row.unique_code := "TEND-4FZYO";
           CreateSpace.Row.public_link := "https://tendx.example/attend/TEND-4FZYO";
           CreateSpace.Row.qr_code := Some "data:image/png;base64,iVBORw0KGgo" |}.

Definition photo : ImageUpload.File.t :=
  {| ImageUpload.File.name := "me.profile.JPG";
     ImageUpload.File.size := 204800;
     ImageUpload.File.type := "image/jpeg" |}.

Definition scan : ImageUpload.File.t :=
  {| ImageUpload.File.name := "scan.pdf";
     ImageUpload.File.size := 6000000;
     ImageUpload.File.type := "application/pdf" |}.

End SampleCreate.

(** * Properties *)

(** ** Strings, patterns and timestamps on examples *)

Example IsoDate_epoch : IsoDate.parse "1970-01-01T00:00:00+00:00" = Some 0%Z.
Proof. reflexivity. Qed.

Example IsoDate_2025 : IsoDate.parse "2025-07-20T10:00:00.250Z" = Some 1753005600250%Z.
Proof. reflexivity. Qed.

Example normalizeKey_student_id : normalizeKey "Student ID" = "student_id".
Proof. reflexivity. Qed.

Example normalizeKey_run : normalizeKey "Phone   Number" = "phone_number".
Proof. reflexivity. Qed.

Example normalizeKey_edges : normalizeKey " A  b " = "_a_b_".
Proof. reflexivity. Qed.

Example email_shapes :
  RegExp.test true emailPattern "a@b.co" = true
  /\ RegExp.test true emailPattern "Jane.Doe+x@Mail.Example.ORG" = true
  /\ RegExp.test true emailPattern "not-an-email" = false
  /\ RegExp.test true emailPattern "a@b.c" = false
  /\ RegExp.test true emailPattern "a@b@c.co" = false
  /\ RegExp.test true emailPattern "" = false
  /\ RegExp.test false emailPattern "a@b.co" = false.
Proof. repeat split; vm_compute; reflexivity. Qed.

(** ** Normalized keys *)

Lemma replaceRuns_no_whitespace b s :
  RegExp.allUnits (fun c => negb (JsString.isWhiteSpace c)) (JsString.replaceRuns b s) = true.
Proof.
  revert b. induction s as [|c s IH]; intros b; simpl; [reflexivity|].
  destruct (JsString.isWhiteSpace c) eqn:Hc.
  - destruct b; [apply IH|]. simpl. apply IH.
  - simpl. rewrite Hc. apply IH.
Qed.

(** A normalized key holds no white space. *)
Lemma normalizeKey_no_whitespace n :
  RegExp.allUnits (fun c => negb (JsString.isWhiteSpace c)) (normalizeKey n) = true.
Proof. apply replaceRuns_no_whitespace. Qed.

Lemma toLowerCase_unit_idem c :
  JsString.toLowerCase_unit (JsString.toLowerCase_unit c) = JsString.toLowerCase_unit c.
Proof. destruct c as [[] [] [] [] [] [] [] []]; reflexivity. Qed.

Lemma toLowerCase_idem s : JsString.toLowerCase (JsString.toLowerCase s) = JsString.toLowerCase s.
Proof.
  induction s as [|c s IH]; simpl; [reflexivity|].
  rewrite toLowerCase_unit_idem, IH. reflexivity.
Qed.

(** Names that differ by the case of their letters share a key. *)
Lemma normalizeKey_ignores_case n : normalizeKey (JsString.toLowerCase n) = normalizeKey n.
Proof. unfold normalizeKey. rewrite toLowerCase_idem. reflexivity. Qed.

(** ** The pattern matcher decides the language of the pattern *)

Lemma append_empty (s1 s2 : string) :
  s1 +:+ s2 = "" -> s1 = "" /\ s2 = "".
Proof. destruct s1; [auto|discriminate]. Qed.

Lemma nullable_Matches i r : RegExp.nullable r = true <-> RegExp.Matches i r "".
Proof.
  split.
  - induction r; simpl; intros H; try discriminate.
    + constructor.
    + apply andb_true_iff in H as [H1 H2].
      change "" with ("" +:+ ""). constructor; auto.
    + apply orb_true_iff in H as [H|H]; [apply RegExp.MAltL|apply RegExp.MAltR]; auto.
    + constructor.
  - intros H. remember "" as s eqn:Hs.
    induction H; simpl; try discriminate; try reflexivity.
    + apply append_empty in Hs as [-> ->]. rewrite IHMatches1, IHMatches2; reflexivity.
    + rewrite IHMatches; [reflexivity|exact Hs].
    + rewrite IHMatches; [apply orb_true_r|exact Hs].
Qed.

Lemma deriv_sound i c r s :
  RegExp.Matches i (RegExp.deriv i c r) s -> RegExp.Matches i r (String c s).
Proof.
  revert s. induction r as [| |d|rs|r1 IH1 r2 IH2|r1 IH1 r2 IH2|r1 IH1]; simpl; intros s H.
  - inversion H.
  - inversion H.
  - destruct (N.eqb_spec (RegExp.canonicalize i c) (RegExp.canonicalize i d)) as [E|E];
      inversion H; subst. constructor. exact E.
  - destruct (RegExp.inClass i rs c) eqn:E; inversion H; subst. constructor. exact E.
  - destruct (RegExp.nullable r1) eqn:Hn.
    + inversion H as [| | | |? ? ? H'|? ? ? H'| |]; subst.
      * inversion H' as [| | |? ? s1 s2 Ha Hb| | | |]; subst.
        change (String c (s1 +:+ s2)) with (String c s1 +:+ s2).
        constructor; auto.
      * change (String c s) with ("" +:+ String c s).
        constructor; [apply nullable_Matches; exact Hn | auto].
    + inversion H as [| | |? ? s1 s2 Ha Hb| | | |]; subst.
      change (String c (s1 +:+ s2)) with (String c s1 +:+ s2).
      constructor; auto.
  - inversion H; subst; [apply RegExp.MAltL|apply RegExp.MAltR]; auto.
  - inversion H as [| | |? ? s1 s2 Ha Hb| | | |]; subst.
    change (String c (s1 +:+ s2)) with (String c s1 +:+ s2).
    constructor; auto.
Qed.

Lemma deriv_complete i c r s :
  RegExp.Matches i r (String c s) -> RegExp.Matches i (RegExp.deriv i c r) s.
Proof.
  intros H. remember (String c s) as t eqn:Ht. revert s Ht.
  induction H as [|c' d E|rs c' E|r1 r2 s1 s2 H1 IH1 H2 IH2|r1 r2 s0 H1 IH1
                  |r1 r2 s0 H1 IH1|r|r s1 s2 H1 IH1 H2 IH2];
    intros s Ht; simpl.
  - discriminate.
  - injection Ht as -> <-. rewrite E, N.eqb_refl. constructor.
  - injection Ht as -> <-. rewrite E. constructor.
  - destruct s1 as [|a s1'].
    + simpl in Ht. apply nullable_Matches in H1. rewrite H1.
      apply RegExp.MAltR. auto.
    + simpl in Ht. injection Ht as -> <-.
      assert (Hs : RegExp.Matches i (RegExp.Seq (RegExp.deriv i c r1) r2) (s1' +:+ s2))
        by (constructor; auto).
      destruct (RegExp.nullable r1); [apply RegExp.MAltL|]; exact Hs.
  - apply RegExp.MAltL. auto.
  - apply RegExp.MAltR. auto.
  - discriminate.
  - destruct s1 as [|a s1'].
    + simpl in Ht. apply IH2 in Ht. exact Ht.
    + simpl in Ht. injection Ht as -> <-. constructor; auto.
Qed.

(** [test] accepts exactly the strings the pattern denotes. *)
Theorem test_Matches i r s : RegExp.test i r s = true <-> RegExp.Matches i r s.
Proof.
  revert r. induction s as [|c s IH]; intros r; simpl.
  - apply nullable_Matches.
  - rewrite IH. split; [apply deriv_sound|apply deriv_complete].
Qed.

Lemma Matches_Seq i r1 r2 s :
  RegExp.Matches i (RegExp.Seq r1 r2) s
  <-> exists s1 s2, s = s1 +:+ s2 /\ RegExp.Matches i r1 s1 /\ RegExp.Matches i r2 s2.
Proof.
  split.
  - intros H. inversion H; subst. eauto.
  - intros (s1 & s2 & -> & H1 & H2). constructor; assumption.
Qed.

Lemma Matches_Class i rs s :
  RegExp.Matches i (RegExp.Class rs) s
  <-> exists c, s = String c "" /\ RegExp.inClass i rs c = true.
Proof.
  split.
  - intros H. inversion H; subst. eauto.
  - intros (c & -> & H). constructor. exact H.
Qed.

Lemma Matches_Star_Class i rs s :
  RegExp.Matches i (RegExp.Star (RegExp.Class rs)) s
  <-> RegExp.allUnits (RegExp.inClass i rs) s = true.
Proof.
  split.
  - intros H. remember (RegExp.Star (RegExp.Class rs)) as r eqn:Hr.
    induction H as [| | | | | | |r s1 s2 H1 _ H2 IH2]; try discriminate; [reflexivity|].
    injection Hr as ->. apply Matches_Class in H1 as (c & -> & Hc).
    simpl. rewrite Hc. apply IH2. reflexivity.
  - induction s as [|c s IH]; simpl; intros H; [constructor|].
    apply andb_true_iff in H as [Hc Hs].
    change (String c s) with (String c "" +:+ s).
    constructor; [constructor; exact Hc | apply IH; exact Hs].
Qed.

Lemma Matches_Plus_Class i rs s :
  RegExp.Matches i (RegExp.Plus (RegExp.Class rs)) s
  <-> s <> "" /\ RegExp.allUnits (RegExp.inClass i rs) s = true.
Proof.
  unfold RegExp.Plus. rewrite Matches_Seq. split.
  - intros (s1 & s2 & -> & (c & -> & Hc)%Matches_Class & H2%Matches_Star_Class).
    split; [discriminate|]. simpl. rewrite Hc. exact H2.
  - intros [Hne H]. destruct s as [|c s]; [congruence|]. simpl in H.
    apply andb_true_iff in H as [Hc Hs].
    exists (String c ""), s. split; [reflexivity|].
    split; [constructor; exact Hc | apply Matches_Star_Class; exact Hs].
Qed.

Lemma Matches_AtLeast_Class i rs n s :
  RegExp.Matches i (RegExp.AtLeast n (RegExp.Class rs)) s
  <-> n <= String.length s /\ RegExp.allUnits (RegExp.inClass i rs) s = true.
Proof.
  revert s. induction n as [|n IH]; intros s; simpl.
  - rewrite Matches_Star_Class. split; [intros H; split; [lia|exact H] | intros [_ H]; exact H].
  - rewrite Matches_Seq. split.
    + intros (s1 & s2 & -> & (c & -> & Hc)%Matches_Class & [Hlen Hs]%IH).
      change (String c "" +:+ s2) with (String c s2).
      simpl. rewrite Hc. split; [lia|exact Hs].
    + intros [Hlen H]. destruct s as [|c s]; [simpl in Hlen; lia|].
      simpl in Hlen, H. apply andb_true_iff in H as [Hc Hs].
      exists (String c ""), s. split; [reflexivity|].
      split; [constructor; exact Hc | apply IH; split; [lia|exact Hs]].
Qed.

Lemma canonicalize_at c :
  RegExp.canonicalize true c = RegExp.canonicalize true "@" -> c = "@"%char.
Proof.
  destruct c as [[] [] [] [] [] [] [] []]; vm_compute; intros H;
    try reflexivity; discriminate.
Qed.

Lemma canonicalize_dot c :
  RegExp.canonicalize true c = RegExp.canonicalize true "." -> c = "."%char.
Proof.
  destruct c as [[] [] [] [] [] [] [] []]; vm_compute; intros H;
    try reflexivity; discriminate.
Qed.

Lemma Matches_Chr_at s : RegExp.Matches true (RegExp.Chr "@") s <-> s = "@".
Proof.
  split.
  - intros H. inversion H as [|c d E| | | | | |]; subst.
    apply canonicalize_at in E. subst. reflexivity.
  - intros ->. constructor. reflexivity.
Qed.

Lemma Matches_Chr_dot s : RegExp.Matches true (RegExp.Chr ".") s <-> s = ".".
Proof.
  split.
  - intros H. inversion H as [|c d E| | | | | |]; subst.
    apply canonicalize_dot in E. subst. reflexivity.
  - intros ->. constructor. reflexivity.
Qed.

(** X21. The email pattern accepts exactly the strings made of a
    non-empty local part of letters, digits and [._%+-], "@", a non-empty
    domain part of letters, digits, points and hyphens, a point, and at
    least two letters, in either case; nothing is trimmed and nothing
    else is allowed. *)
Theorem email_shape s :
  RegExp.test true emailPattern s = true
  <-> exists l d t,
        s = l +:+ "@" +:+ d +:+ "." +:+ t
        /\ l <> "" /\ RegExp.allUnits (RegExp.inClass true localClass) l = true
        /\ d <> "" /\ RegExp.allUnits (RegExp.inClass true domainClass) d = true
        /\ 2 <= String.length t
        /\ RegExp.allUnits (RegExp.inClass true letterClass) t = true.
Proof.
  rewrite test_Matches. unfold emailPattern.
  rewrite Matches_Seq. split.
  - intros (l & s1 & -> & [Hl1 Hl2]%Matches_Plus_Class & H1).
    apply Matches_Seq in H1 as (a & s2 & -> & ->%Matches_Chr_at & H2).
    apply Matches_Seq in H2 as (d & s3 & -> & [Hd1 Hd2]%Matches_Plus_Class & H3).
    apply Matches_Seq in H3 as (b & t & -> & ->%Matches_Chr_dot & [Ht1 Ht2]%Matches_AtLeast_Class).
    exists l, d, t. repeat split; assumption.
  - intros (l & d & t & -> & Hl1 & Hl2 & Hd1 & Hd2 & Ht1 & Ht2).
    exists l, ("@" +:+ d +:+ "." +:+ t). split; [reflexivity|].
    split; [apply Matches_Plus_Class; auto|].
    apply Matches_Seq. exists "@", (d +:+ "." +:+ t). split; [reflexivity|].
    split; [apply Matches_Chr_at; reflexivity|].
    apply Matches_Seq. exists d, ("." +:+ t). split; [reflexivity|].
    split; [apply Matches_Plus_Class; auto|].
    apply Matches_Seq. exists ".", t. split; [reflexivity|].
    split; [apply Matches_Chr_dot; reflexivity|].
    apply Matches_AtLeast_Class. auto.
Qed.

(** ** The Session Resolver *)

Lemma noCode_false code :
  noCode code = false -> exists c, code = Some c /\ c <> "".
Proof.
  destruct code as [[|a c]|]; simpl; try discriminate.
  intros _. eexists; split; [reflexivity | discriminate].
Qed.

Lemma status_message_truthy (s : string) :
  exists a m, "This attendance session is " +:+ s = String a m.
Proof. simpl. eauto. Qed.

(** C4. A found space whose status is not [open] is rejected with a
    message that carries the status, whatever its end time and the
    clock; the space is stored, the error view is rendered in place of
    the form, and no other store call is made. *)
Theorem not_open_is_rejected Date_parse code user now data profile st :
  noCode code = false ->
  SpaceRow.status data <> "open" ->
  let st' := fetchSpace Date_parse code user now (found data) profile st in
  error st' = Some ("This attendance session is " +:+ SpaceRow.status data)
  /\ space st' = Some (storedSpace data)
  /\ loading st' = false
  /\ render st' = ErrorView ("This attendance session is " +:+ SpaceRow.status data)
                    (Some (storedSpace data))
  /\ calls st' = calls st ++ [FindSpaceByCode (default "" code)].
Proof.
  intros Hcode Hstatus. unfold fetchSpace, fetchSpace_try. rewrite Hcode.
  apply String.eqb_neq in Hstatus. simpl. rewrite Hstatus. simpl.
  repeat split; reflexivity.
Qed.

Lemma not_open_is_rejected_witness :
  render (fetchSpace IsoDate.parse Sample.code (Some Sample.jane) Sample.noon
            (found (Sample.row "paused" Sample.schema (Some "2099-01-01T00:00:00+00:00")))
            (found Sample.janeRow) initialPage)
  = ErrorView "This attendance session is paused"
      (Some (storedSpace (Sample.row "paused" Sample.schema (Some "2099-01-01T00:00:00+00:00")))).
Proof.
  refine (proj1 (proj2 (proj2 (proj2
    (not_open_is_rejected IsoDate.parse Sample.code (Some Sample.jane) Sample.noon
       (Sample.row "paused" Sample.schema (Some "2099-01-01T00:00:00+00:00"))
       (found Sample.janeRow) initialPage _ _))))).
  - reflexivity.
  - discriminate.
Defined.

(** C3. An open space whose end time is set and lies strictly before the
    current time is rejected as ended: the message says so, the error
    view is rendered in place of the form, and the profile is not
    fetched. *)
Theorem open_but_ended_is_rejected Date_parse code user now data profile st s t :
  noCode code = false ->
  SpaceRow.status data = "open" ->
  SpaceRow.end_time data = Some s ->
  s <> "" ->
  Date_parse s = Some t ->
  (t < now)%Z ->
  let st' := fetchSpace Date_parse code user now (found data) profile st in
  error st' = Some "This attendance session has ended"
  /\ space st' = Some (storedSpace data)
  /\ loading st' = false
  /\ render st' = ErrorView "This attendance session has ended" (Some (storedSpace data))
  /\ isFormView (render st') = false
  /\ calls st' = calls st ++ [FindSpaceByCode (default "" code)].
Proof.
  intros Hcode Hstatus Hend Hs Hparse Hlt.
  unfold fetchSpace, fetchSpace_try. rewrite Hcode. simpl.
  rewrite Hstatus. simpl. unfold hasEnded. rewrite Hend, Hparse.
  destruct s as [|a s']; [congruence|]. simpl.
  apply Z.ltb_lt in Hlt. rewrite Hlt. simpl.
  repeat split; reflexivity.
Qed.

Lemma open_but_ended_is_rejected_witness :
  render (fetchSpace IsoDate.parse Sample.code None Sample.noon
            (found (Sample.row "open" Sample.schema (Some "2025-07-20T11:59:59+00:00")))
            (found Sample.janeRow) initialPage)
  = ErrorView "This attendance session has ended"
      (Some (storedSpace (Sample.row "open" Sample.schema (Some "2025-07-20T11:59:59+00:00")))).
Proof.
  refine (proj1 (proj2 (proj2 (proj2
    (open_but_ended_is_rejected IsoDate.parse Sample.code None Sample.noon
       (Sample.row "open" Sample.schema (Some "2025-07-20T11:59:59+00:00"))
       (found Sample.janeRow) initialPage
       "2025-07-20T11:59:59+00:00" 1753012799000 _ _ _ _ _ _))))).
  - reflexivity.
  - reflexivity.
  - reflexivity.
  - discriminate.
  - reflexivity.
  - reflexivity.
Defined.

Lemma found_space_is_stored Date_parse code user now data profile st :
  noCode code = false ->
  space (fetchSpace Date_parse code user now (found data) profile st)
  = Some (storedSpace data).
Proof.
  intros Hcode. unfold fetchSpace, fetchSpace_try, prefill. rewrite Hcode. simpl.
  destruct (negb _); [reflexivity|].
  destruct (hasEnded _ _ _); [reflexivity|].
  destruct user as [u|]; [|reflexivity].
  destruct profile as [r|e]; [|reflexivity].
  destruct (Response.data r); reflexivity.
Qed.

Lemma formFields_no_custom sp :
  Space.required_fields sp = [] -> formFields sp = Some [nameField; emailField].
Proof. intros H. unfold formFields. rewrite H. reflexivity. Qed.

Lemma render_form_inv st inputs d :
  render st = FormView inputs d ->
  loading st = false /\ submitted st = false /\ d = isSubmitting st
  /\ exists sp, space st = Some sp /\ formFields sp = Some inputs.
Proof.
  unfold render. destruct (loading st); [discriminate|].
  destruct (error st) as [[|a m]|]; try discriminate;
    (destruct (submitted st); [discriminate|]);
    (destruct (space st) as [sp|]; [|discriminate]);
    (destruct (formFields sp) as [fs|] eqn:Hfs; [|discriminate]);
    intros [= <- <-]; eauto 10.
Qed.

(** C10. Whichever branch stores the fetched space (accepting, rejected
    by status, rejected as ended), a [required_fields] value that is not
    an array is stored as the empty list: the inputs are the fixed [name]
    and [email] only, and the render does not fail on the schema. *)
Theorem non_array_schema_is_empty Date_parse code user now data profile st :
  noCode code = false ->
  Json.isArray (SpaceRow.required_fields data) = false ->
  let st' := fetchSpace Date_parse code user now (found data) profile st in
  exists sp,
    space st' = Some sp
    /\ Space.required_fields sp = []
    /\ formFields sp = Some [nameField; emailField]
    /\ render st' <> RenderThrows
    /\ (forall inputs d, render st' = FormView inputs d -> inputs = [nameField; emailField]).
Proof.
  intros Hcode Harr st'.
  assert (Hsp : space st' = Some (storedSpace data))
    by (apply found_space_is_stored; exact Hcode).
  assert (Hrf : Space.required_fields (storedSpace data) = []).
  { unfold storedSpace; simpl.
    destruct (SpaceRow.required_fields data); try reflexivity. discriminate. }
  pose proof (formFields_no_custom _ Hrf) as Hff.
  exists (storedSpace data). repeat split; try assumption.
  - unfold render. rewrite Hsp, Hff.
    destruct (loading st'); [discriminate|].
    destruct (error st') as [[|a m]|]; try discriminate;
      destruct (submitted st'); discriminate.
  - intros inputs d Hr. apply render_form_inv in Hr as (_ & _ & _ & sp & Hs & Hf).
    congruence.
Qed.

Lemma non_array_schema_is_empty_witness :
  exists sp,
    space (fetchSpace IsoDate.parse Sample.code None Sample.noon
             (found (Sample.row "open" (Json.JString "[]") None))
             (found Sample.janeRow) initialPage) = Some sp
    /\ Space.required_fields sp = [].
Proof.
  destruct (non_array_schema_is_empty IsoDate.parse Sample.code None Sample.noon
              (Sample.row "open" (Json.JString "[]") None)
              (found Sample.janeRow) initialPage eq_refl eq_refl)
    as (sp & Hsp & Hrf & _).
  exists sp. split; assumption.
Defined.

Lemma try_keeps_console Date_parse c user now lookup profile st :
  console (fetchSpace_try Date_parse c user now lookup profile st).1 = console st.
Proof.
  unfold fetchSpace_try, prefill.
  destruct lookup as [r|e]; [|reflexivity].
  destruct (Response.error r); [reflexivity|].
  destruct (Response.data r) as [data|]; [|reflexivity].
  destruct (negb _); [reflexivity|].
  destruct (hasEnded _ _ _); [reflexivity|].
  destruct user as [u|]; [|reflexivity].
  destruct profile as [r'|e']; [|reflexivity].
  destruct (Response.data r'); reflexivity.
Qed.

Lemma try_failed_lookup Date_parse c user now lookup profile st :
  lookupFails lookup = true ->
  exists e, fetchSpace_try Date_parse c user now lookup profile st
            = (issue (FindSpaceByCode c) st, Thrown e).
Proof.
  unfold lookupFails, fetchSpace_try.
  destruct lookup as [r|e]; [|eauto].
  destruct (Response.error r); [eauto|].
  destruct (Response.data r); [discriminate|eauto].
Qed.

Lemma accepting_true Date_parse data now :
  accepting Date_parse data now = true ->
  negb (String.eqb (SpaceRow.status data) "open") = false
  /\ hasEnded Date_parse (SpaceRow.end_time data) now = false.
Proof.
  unfold accepting. intros [H1 H2]%andb_true_iff.
  rewrite H1. apply negb_true_iff in H2. auto.
Qed.

(** C9. Every exception of the resolution effect, whether the lookup
    was rejected, answered with an error or with no row, or the profile
    fetch was rejected after the space was found and stored, reaches the
    one [catch]: it is logged and the message is "Attendance session not
    found".  A failed lookup leaves the same page whatever made it
    fail, so a store failure shows as a code that does not exist. *)
Theorem thrown_errors_reach_one_catch Date_parse code user now lookup profile st :
  noCode code = false ->
  let attempt := fetchSpace_try Date_parse (default "" code) user now lookup profile st in
  let st' := fetchSpace Date_parse code user now lookup profile st in
  (forall e, attempt.2 = Thrown e ->
     error st' = Some "Attendance session not found"
     /\ loading st' = false
     /\ console st' = console st ++ [("Error fetching space:", e)]
     /\ render st' = ErrorView "Attendance session not found" (space st'))
  /\ (lookupFails lookup = true -> exists e, attempt.2 = Thrown e)
  /\ (forall data u e,
        lookup = found data -> accepting Date_parse data now = true ->
        user = Some u -> profile = Rejected e ->
        attempt.2 = Thrown e /\ space st' = Some (storedSpace data))
  /\ (forall user2 lookup2 profile2,
        lookupFails lookup = true -> lookupFails lookup2 = true ->
        let st2 := fetchSpace Date_parse code user2 now lookup2 profile2 st in
        observable st' = observable st2 /\ render st' = render st2
        /\ calls st' = calls st2).
Proof.
  intros Hcode attempt st'.
  assert (Hst' : st' = setLoading false
                   match attempt.2 with
                   | Thrown err =>
                       setError (Some "Attendance session not found")
                         (console_error "Error fetching space:" err attempt.1)
                   | Completed => attempt.1
                   end).
  { subst st'. unfold fetchSpace. rewrite Hcode. fold attempt.
    destruct attempt as [st1 c]. reflexivity. }
  split; [|split; [|split]].
  - intros e He. rewrite Hst', He. simpl.
    unfold attempt. rewrite try_keeps_console. repeat split; reflexivity.
  - intros Hf.
    destruct (try_failed_lookup Date_parse (default "" code) user now
                lookup profile st Hf) as [e He].
    exists e. unfold attempt. rewrite He. reflexivity.
  - intros data u e -> Hacc -> ->. split.
    + apply accepting_true in Hacc as [H1 H2].
      unfold attempt, fetchSpace_try, prefill. simpl. rewrite H1, H2. reflexivity.
    + apply found_space_is_stored. exact Hcode.
  - intros user2 lookup2 profile2 Hf Hf2 st2.
    subst st2. rewrite Hst'. unfold attempt, fetchSpace. rewrite Hcode.
    destruct (try_failed_lookup Date_parse (default "" code) user now
                lookup profile st Hf) as [e ->].
    destruct (try_failed_lookup Date_parse (default "" code) user2 now
                lookup2 profile2 st Hf2) as [e2 ->].
    repeat split; reflexivity.
Qed.

Lemma thrown_errors_reach_one_catch_witness :
  error (fetchSpace IsoDate.parse Sample.code None Sample.noon
           (Rejected Sample.unreachable) (found Sample.janeRow) initialPage)
  = Some "Attendance session not found"
  /\ render (fetchSpace IsoDate.parse Sample.code None Sample.noon
               (Rejected Sample.unreachable) (found Sample.janeRow) initialPage)
     = render (fetchSpace IsoDate.parse Sample.code None Sample.noon
                 (single []) (found Sample.janeRow) initialPage).
Proof.
  pose proof (thrown_errors_reach_one_catch IsoDate.parse Sample.code None Sample.noon
                (Rejected Sample.unreachable) (found Sample.janeRow) initialPage eq_refl)
    as H.
  cbv zeta in H. destruct H as (H1 & _ & _ & H4). split.
  - exact (proj1 (H1 Sample.unreachable eq_refl)).
  - exact (proj1 (proj2 (H4 None (single []) (found Sample.janeRow) eq_refl eq_refl))).
Defined.

(** ** Identity Prefill *)

(** C8, as the code has it.  One run of the resolution effect issues at
    most one profile fetch, after the lookup, and only when the lookup
    delivered a row that is accepting and an identity is signed in.  A
    profile fetch that returns without a row, with or without an error,
    is skipped in silence: nothing is logged, nothing is shown, and the
    page is the one an anonymous visitor gets. *)
Theorem prefill_once_then_skipped Date_parse code user now lookup profile st :
  let st' := fetchSpace Date_parse code user now lookup profile st in
  let c := default "" code in
  (calls st' = calls st
   \/ calls st' = calls st ++ [FindSpaceByCode c]
   \/ exists u r data,
        user = Some u /\ lookup = Resolved r
        /\ Response.error r = None /\ Response.data r = Some data
        /\ accepting Date_parse data now = true
        /\ calls st' = calls st ++ [FindSpaceByCode c; FindUserProfile (User.id u)])
  /\ (forall r,
        profile = Resolved r -> Response.data r = None ->
        let anonymous := fetchSpace Date_parse code None now lookup profile st in
        observable st' = observable anonymous
        /\ console st' = console anonymous
        /\ render st' = render anonymous).
Proof.
  intros st' c. split.
  - subst st' c. unfold fetchSpace.
    destruct (noCode code); [left; reflexivity|].
    unfold fetchSpace_try, prefill.
    destruct lookup as [r|e]; [|right; left; reflexivity].
    destruct (Response.error r) eqn:Herr; [right; left; reflexivity|].
    destruct (Response.data r) as [data|] eqn:Hdata; [|right; left; reflexivity].
    destruct (negb _) eqn:Hopen; [right; left; reflexivity|].
    destruct (hasEnded _ _ _) eqn:Hend; [right; left; reflexivity|].
    destruct user as [u|]; [|right; left; reflexivity].
    right; right. exists u, r, data.
    assert (Hacc : accepting Date_parse data now = true).
    { unfold accepting. apply negb_false_iff in Hopen. rewrite Hopen, Hend. reflexivity. }
    repeat split; try assumption; try reflexivity.
    destruct profile as [r'|e']; [destruct (Response.data r')|]; simpl;
      rewrite <- app_assoc; reflexivity.
  - intros r -> Hnone anonymous. subst st' anonymous. unfold fetchSpace.
    destruct (noCode code); [repeat split; reflexivity|].
    unfold fetchSpace_try, prefill.
    destruct lookup as [r0|e]; [|repeat split; reflexivity].
    destruct (Response.error r0); [repeat split; reflexivity|].
    destruct (Response.data r0) as [data|]; [|repeat split; reflexivity].
    destruct (negb _); [repeat split; reflexivity|].
    destruct (hasEnded _ _ _); [repeat split; reflexivity|].
    destruct user as [u|]; [|repeat split; reflexivity].
    rewrite Hnone. repeat split; reflexivity.
Qed.

Lemma prefill_once_then_skipped_witness :
  render (fetchSpace IsoDate.parse Sample.code (Some Sample.jane) Sample.noon
            (found (Sample.row "open" Sample.schema None))
            (failed (StoreError "PGRST116" "no rows")) initialPage)
  = render (fetchSpace IsoDate.parse Sample.code None Sample.noon
              (found (Sample.row "open" Sample.schema None))
              (failed (StoreError "PGRST116" "no rows")) initialPage).
Proof.
  pose proof (prefill_once_then_skipped IsoDate.parse Sample.code (Some Sample.jane)
                Sample.noon (found (Sample.row "open" Sample.schema None))
                (failed (StoreError "PGRST116" "no rows")) initialPage) as H.
  cbv zeta in H. destruct H as [_ H].
  exact (proj2 (proj2 (H _ eq_refl eq_refl))).
Defined.

(** C8, as stated, fails: a signed-in visitor resolves an accepting
    space, the profile fetch is issued and answers with an error, and the
    console stays empty: the failure is not logged. *)
Lemma prefill_failure_is_not_logged :
  let st' := fetchSpace IsoDate.parse Sample.code (Some Sample.jane) Sample.noon
               (found (Sample.row "open" Sample.schema None))
               (failed (StoreError "PGRST301" "JWT expired")) initialPage in
  calls st' = [FindSpaceByCode "TEND-00042"; FindUserProfile (User.id Sample.jane)]
  /\ console st' = []
  /\ error st' = None.
Proof. repeat split; reflexivity. Qed.

(** ** The Submission Writer and the view that guards it *)

Lemma settle_keeps_calls answer st : calls (onSubmit_settle answer st) = calls st.
Proof.
  unfold onSubmit_settle, submitFailed.
  destruct answer as [r|e]; [destruct (Response.error r)|]; reflexivity.
Qed.

Lemma settle_keeps_no_form answer st :
  isFormView (render st) = false -> isFormView (render (onSubmit_settle answer st)) = false.
Proof.
  unfold render, onSubmit_settle, submitFailed.
  destruct answer as [r|e]; [destruct (Response.error r)|]; simpl;
    destruct (loading st); try reflexivity;
    destruct (error st) as [[|a m]|]; try reflexivity;
    destruct (submitted st); try reflexivity;
    destruct (space st) as [sp|]; try reflexivity;
    destruct (formFields sp); try reflexivity; try discriminate.
Qed.

Lemma step_without_form user st ev :
  isFormView (render st) = false ->
  isFormView (render (step user st ev)) = false /\ calls (step user st ev) = calls st.
Proof.
  intros Hv. destruct ev as [i v| |answer]; simpl.
  - destruct (render st) eqn:Hr; try discriminate; rewrite Hr; split; reflexivity.
  - destruct (render st) eqn:Hr; try discriminate; rewrite Hr; split; reflexivity.
  - destruct (pending st); [split; [assumption|reflexivity]|].
    split; [apply settle_keeps_no_form; assumption | apply settle_keeps_calls].
Qed.

Lemma run_without_form user st evs :
  isFormView (render st) = false ->
  isFormView (render (run user st evs)) = false /\ calls (run user st evs) = calls st.
Proof.
  revert st. induction evs as [|ev evs IH]; intros st Hv; [split; [assumption|reflexivity]|].
  destruct (step_without_form user st ev Hv) as [Hv' Hc].
  destruct (IH _ Hv') as [Hv'' Hc']. simpl. split; [assumption|congruence].
Qed.

(** C1, as the code has it.  [onSubmit] checks that a space is stored and
    nothing else: with none stored it returns at once and issues nothing,
    and it reads neither the status nor the end time.  What keeps a
    rejected space from being written to is the view: a space found not
    accepting leaves the page in the error view, and as long as the form
    is not rendered no sequence of inputs, submit attempts and insert
    answers issues a store call. *)
Theorem submit_is_gated_by_the_view :
  (forall user answer data st,
     space st = None -> onSubmit user answer data st = st)
  /\ (forall user st evs,
        isFormView (render st) = false -> calls (run user st evs) = calls st)
  /\ (forall Date_parse code user now data profile st evs,
        noCode code = false ->
        accepting Date_parse data now = false ->
        let st' := fetchSpace Date_parse code user now (found data) profile st in
        isFormView (render st') = false
        /\ calls (run user st' evs) = calls st ++ [FindSpaceByCode (default "" code)]).
Proof.
  split; [|split].
  - intros user answer data st H. unfold onSubmit. rewrite H. reflexivity.
  - intros user st evs H. apply run_without_form. exact H.
  - intros Date_parse code user now data profile st evs Hcode Hacc st'.
    assert (H : isFormView (render st') = false
                /\ calls st' = calls st ++ [FindSpaceByCode (default "" code)]).
    { subst st'. unfold accepting in Hacc. unfold fetchSpace, fetchSpace_try.
      rewrite Hcode. simpl.
      destruct (String.eqb (SpaceRow.status data) "open"); simpl in *.
      - apply negb_false_iff in Hacc. rewrite Hacc. split; reflexivity.
      - split; reflexivity. }
    destruct H as [Hv Hc]. split; [exact Hv|].
    rewrite <- Hc. apply run_without_form. exact Hv.
Qed.

Lemma submit_is_gated_by_the_view_witness :
  calls (run None
           (fetchSpace IsoDate.parse Sample.code None Sample.noon
              (found (Sample.row "closed" Sample.schema None))
              (found Sample.janeRow) initialPage)
           [EvInput 0 "Jane Doe"; EvInput 1 "jane@x.com"; EvSubmit; EvSubmit])
  = [] ++ [FindSpaceByCode "TEND-00042"].
Proof.
  destruct submit_is_gated_by_the_view as (_ & _ & H).
  exact (proj2 (H IsoDate.parse Sample.code None Sample.noon
                  (Sample.row "closed" Sample.schema None) (found Sample.janeRow)
                  initialPage
                  [EvInput 0 "Jane Doe"; EvInput 1 "jane@x.com"; EvSubmit; EvSubmit]
                  eq_refl eq_refl)).
Defined.

(** C1, as stated, fails.  The space is closed when the page loads; its
    row is stored all the same, and a submit invocation on that page
    issues the insert.  Likewise a space that was accepting at noon and
    ended at 12:30 is still written to at one o'clock. *)
Lemma closed_space_submit_still_inserts :
  let closed := Sample.row "closed" Sample.schema None in
  let st := fetchSpace IsoDate.parse Sample.code None Sample.noon
              (found closed) (found Sample.janeRow) initialPage in
  let ending := Sample.row "open" Sample.schema (Some "2025-07-20T12:30:00+00:00") in
  let st2 := fetchSpace IsoDate.parse Sample.code None Sample.noon
               (found ending) (found Sample.janeRow) initialPage in
  (accepting IsoDate.parse closed Sample.noon = false
   /\ inserts (calls (onSubmit None Sample.ok Sample.answers st))
      = [ {| space_id := SpaceRow.id closed; user_id := None; fields := Sample.answers |} ])
  /\ (accepting IsoDate.parse ending Sample.oneOClock = false
      /\ space_id <$> inserts (calls (run None st2
                [EvInput 0 "Jane Doe"; EvInput 1 "jane@x.com"; EvInput 2 "99"; EvSubmit]))
         = [ SpaceRow.id ending ]).
Proof. repeat split; vm_compute; reflexivity. Qed.

(** ** The Dynamic Field Renderer *)

Lemma app_one_more {A} (l : list A) (x : A) : l = l ++ [x] -> False.
Proof. intros H%(f_equal length). rewrite length_app in H. simpl in H. lia. Qed.

(** The input a well-formed custom field is rendered as. *)
Lemma customFormField_json f :
  customFormField (CustomField_json f)
  = Some {| name := normalizeKey (cf_name f);
            rules := if cf_required f
                     then {| required := Some (cf_name f +:+ " is required");
                             pattern := None |}
                     else noRules |}.
Proof. destruct f as [i n t []]; reflexivity. Qed.



Lemma render_form_fixed st inputs d :
  render st = FormView inputs d -> exists fs, inputs = nameField :: emailField :: fs.
Proof.
  intros (_ & _ & _ & sp & _ & Hf)%render_form_inv. unfold formFields in Hf.
  destruct (mapM customFormField (Space.required_fields sp)) as [fs|]; [|discriminate].
  injection Hf as <-. eauto.
Qed.

Lemma begin_with_space user data st sp :
  space st = Some sp ->
  let submissionData :=
    {| space_id := Space.id sp; user_id := submitter user; fields := data |} in
  onSubmit_begin user data st
  = setPending (pending st ++ [submissionData])
      (issue (InsertAttendanceRecord submissionData) (setIsSubmitting true st)).
Proof. intros H. unfold onSubmit_begin. rewrite H. reflexivity. Qed.

(** What the submit event does, case by case. *)
Lemma step_submit_cases user st :
  step user st EvSubmit = st
  \/ (exists inputs, render st = FormView inputs false
        /\ validate (values st) inputs <> []
        /\ step user st EvSubmit = setFieldErrors (validate (values st) inputs) st)
  \/ (exists inputs sp, render st = FormView inputs false
        /\ validate (values st) inputs = []
        /\ space st = Some sp
        /\ step user st EvSubmit =
           onSubmit_begin user (values st) (setFieldErrors [] st)).
Proof.
  simpl. destruct (render st) as [| | | |inputs []|] eqn:Hr; auto.
  unfold handleSubmit.
  destruct (validate (values st) inputs) as [|e errs] eqn:Hv.
  - right; right. apply render_form_inv in Hr as Hr'.
    destruct Hr' as (_ & _ & _ & sp & Hsp & _). exists inputs, sp.
    rewrite Hv. auto.
  - right; left. exists inputs. rewrite Hv.
    split; [reflexivity|]. split; [discriminate|reflexivity].
Qed.

Lemma append_nil_l (s : string) : "" +:+ s = s.
Proof. reflexivity. Qed.

Lemma append_cons c (a b : string) : String c a +:+ b = String c (a +:+ b).
Proof. reflexivity. Qed.

(** *** Gestures and events *)

Lemma act_click user st : act user st (Click true) = step user st EvSubmit.
Proof. reflexivity. Qed.



Lemma session_cons user st g gs : session user st (g :: gs) = session user (act user st g) gs.
Proof. reflexivity. Qed.

(** A session is a run of the events the browser lets through. *)
Lemma session_run user st gs : session user st gs = run user st (omap fired gs).
Proof.
  revert st. induction gs as [|g gs IH]; intros st; [reflexivity|].
  rewrite session_cons, IH. unfold act.
  destruct g as [i v|[]|answer]; reflexivity.
Qed.


(** *** The key rule of the specification and [normalizeKey] *)

Lemma capitals_spec n m :
  (n, m) ∈ KeyRule.capitals
  <-> ((65 <= n <= 90 \/ 192 <= n <= 214 \/ 216 <= n <= 222) /\ m = n + 32)%N.
Proof.
  unfold KeyRule.capitals. rewrite list_elem_of_fmap. split.
  - intros (k & [= -> ->] & Hk). rewrite !elem_of_app, !elem_of_seq in Hk. lia.
  - intros [Hn ->]. exists (N.to_nat n). rewrite N2Nat.id. split; [reflexivity|].
    rewrite !elem_of_app, !elem_of_seq. lia.
Qed.

Lemma capitals_fst n :
  n ∈ KeyRule.capitals.*1 <-> (65 <= n <= 90 \/ 192 <= n <= 214 \/ 216 <= n <= 222)%N.
Proof.
  rewrite list_elem_of_fmap. split.
  - intros ([a b] & -> & H%capitals_spec). simpl. tauto.
  - intros H. exists (n, (n + 32)%N). split; [reflexivity|]. apply capitals_spec. tauto.
Qed.

Lemma toLowerCase_unit_capital c :
  (65 <= N_of_ascii c <= 90 \/ 192 <= N_of_ascii c <= 214 \/ 216 <= N_of_ascii c <= 222)%N ->
  JsString.toLowerCase_unit c = ascii_of_N (N_of_ascii c + 32).
Proof.
  intros H. unfold JsString.toLowerCase_unit, JsString.code, JsString.between.
  destruct (_ || _) eqn:E; [reflexivity|]. exfalso.
  apply orb_false_iff in E as [E1 E2].
  rewrite andb_false_iff, !N.leb_gt in E1.
  rewrite andb_false_iff, negb_false_iff, N.eqb_eq, andb_false_iff, !N.leb_gt in E2.
  lia.
Qed.

Lemma toLowerCase_unit_other c :
  ~ (65 <= N_of_ascii c <= 90 \/ 192 <= N_of_ascii c <= 214 \/ 216 <= N_of_ascii c <= 222)%N ->
  JsString.toLowerCase_unit c = c.
Proof.
  intros H. unfold JsString.toLowerCase_unit, JsString.code, JsString.between.
  destruct (_ || _) eqn:E; [|reflexivity]. exfalso. apply H.
  apply orb_true_iff in E as [E|E].
  - rewrite andb_true_iff, !N.leb_le in E. lia.
  - rewrite !andb_true_iff, negb_true_iff, N.eqb_neq, !N.leb_le in E. lia.
Qed.

Lemma LowerCased_toLowerCase s t : KeyRule.LowerCased s t <-> t = JsString.toLowerCase s.
Proof.
  split.
  - induction 1 as [|c d s t Hc _ IH|c s t Hc _ IH]; [reflexivity| |]; simpl; f_equal;
      try exact IH.
    + apply capitals_spec in Hc as [Hr Hd].
      rewrite (toLowerCase_unit_capital c Hr), <- Hd. symmetry. apply ascii_N_embedding.
    + symmetry. apply toLowerCase_unit_other. intros Hr. apply Hc, capitals_fst, Hr.
  - intros ->. induction s as [|c s IH]; [constructor|]. simpl.
    destruct (decide (65 <= N_of_ascii c <= 90 \/ 192 <= N_of_ascii c <= 214
                      \/ 216 <= N_of_ascii c <= 222)%N) as [Hr|Hr].
    + apply KeyRule.LowerCapital; [|exact IH]. apply capitals_spec. split; [exact Hr|].
      rewrite (toLowerCase_unit_capital c Hr). apply N_ascii_embedding.
      pose proof (N_ascii_bounded c). lia.
    + rewrite (toLowerCase_unit_other c Hr). apply KeyRule.LowerOther; [|exact IH].
      intros H%capitals_fst. exact (Hr H).
Qed.

Lemma isWhite_isWhiteSpace c : KeyRule.isWhite c <-> JsString.isWhiteSpace c = true.
Proof.
  unfold KeyRule.isWhite, KeyRule.whiteSpace, JsString.isWhiteSpace, JsString.code,
    JsString.between.
  rewrite !elem_of_cons, elem_of_nil, !orb_true_iff, andb_true_iff, !N.leb_le, !N.eqb_eq.
  lia.
Qed.

Lemma not_isWhite c : ~ KeyRule.isWhite c <-> JsString.isWhiteSpace c = false.
Proof. rewrite isWhite_isWhiteSpace. destruct (JsString.isWhiteSpace c); split; congruence. Qed.

Lemma replaceRuns_skips_run w s :
  KeyRule.allWhite w -> JsString.replaceRuns true (w +:+ s) = JsString.replaceRuns true s.
Proof.
  unfold KeyRule.allWhite. induction w as [|c w IH]; intros H; [reflexivity|].
  simpl in H. apply Forall_cons in H as [Hc Hw].
  rewrite append_cons. simpl. apply isWhite_isWhiteSpace in Hc. rewrite Hc. apply IH, Hw.
Qed.

Lemma replaceRuns_after_run s :
  ~ KeyRule.startsWhite s -> JsString.replaceRuns true s = JsString.replaceRuns false s.
Proof.
  destruct s as [|c s]; [reflexivity|]. simpl. intros H%not_isWhite. rewrite H. reflexivity.
Qed.

Lemma replaceRuns_run w s :
  w <> "" -> KeyRule.allWhite w -> ~ KeyRule.startsWhite s ->
  JsString.replaceRuns false (w +:+ s) = String "_" (JsString.replaceRuns false s).
Proof.
  destruct w as [|c w]; [congruence|]. intros _ H Hs.
  unfold KeyRule.allWhite in H. simpl in H. apply Forall_cons in H as [Hc Hw].
  rewrite append_cons. simpl. apply isWhite_isWhiteSpace in Hc. rewrite Hc.
  rewrite (replaceRuns_skips_run w s Hw), (replaceRuns_after_run s Hs). reflexivity.
Qed.

(** A string splits into its leading white-space run and the rest. *)
Lemma leading_run s :
  exists w rest, s = w +:+ rest /\ KeyRule.allWhite w /\ ~ KeyRule.startsWhite rest
                 /\ String.length rest <= String.length s.
Proof.
  induction s as [|c s (w & rest & Hs & Hw & Hr & Hlen)].
  - exists "", "". repeat split; [constructor|intros []|reflexivity].
  - destruct (JsString.isWhiteSpace c) eqn:Hc.
    + exists (String c w), rest. rewrite append_cons, <- Hs.
      repeat split; [|exact Hr|simpl; lia].
      unfold KeyRule.allWhite. simpl. constructor; [apply isWhite_isWhiteSpace, Hc|exact Hw].
    + exists "", (String c s). repeat split; [constructor| |reflexivity].
      simpl. apply not_isWhite, Hc.
Qed.

Lemma RunsReplaced_replaceRuns s t :
  KeyRule.RunsReplaced s t <-> t = JsString.replaceRuns false s.
Proof.
  split.
  - induction 1 as [|c s t Hc _ IH|w s t Hne Hw Hs _ IH]; [reflexivity| |].
    + simpl. apply not_isWhite in Hc. rewrite Hc, IH. reflexivity.
    + rewrite (replaceRuns_run w s Hne Hw Hs), IH. reflexivity.
  - intros ->. remember (String.length s) as n eqn:Hn.
    assert (Hle : String.length s <= n) by lia. clear Hn. revert s Hle.
    induction n as [|n IH]; intros s Hle.
    + destruct s; [constructor|simpl in Hle; lia].
    + destruct s as [|c s]; [constructor|]. simpl in Hle.
      destruct (JsString.isWhiteSpace c) eqn:Hc.
      * destruct (leading_run s) as (w & rest & -> & Hw & Hr & Hlen).
        assert (Hcw : KeyRule.allWhite (String c w)).
        { unfold KeyRule.allWhite. simpl.
          constructor; [apply isWhite_isWhiteSpace, Hc|exact Hw]. }
        rewrite <- append_cons.
        rewrite (replaceRuns_run (String c w) rest ltac:(discriminate) Hcw Hr).
        apply KeyRule.RunsRun; [discriminate|exact Hcw|exact Hr|]. apply IH. lia.
      * simpl. rewrite Hc. apply KeyRule.RunsUnit; [apply not_isWhite, Hc|].
        apply IH. lia.
Qed.

(** [normalizeKey] computes the key of the rule, and the rule gives no
    other key. *)
Lemma Key_normalizeKey n k : KeyRule.Key n k <-> k = normalizeKey n.
Proof.
  unfold KeyRule.Key, normalizeKey, JsString.replace_ws_underscore. split.
  - intros (l & Hl%LowerCased_toLowerCase & Hk%RunsReplaced_replaceRuns). congruence.
  - intros ->. exists (JsString.toLowerCase n).
    split; [apply LowerCased_toLowerCase|apply RunsReplaced_replaceRuns]; reflexivity.
Qed.


(** The rule at work on display names with capitals, runs of spaces, a
    leading space and a hyphen. *)
Example key_rule_samples :
  KeyRule.Key "Student ID" "student_id"
  /\ KeyRule.Key "Date  Of Birth" "date_of_birth"
  /\ KeyRule.Key " T-Shirt size" "_t-shirt_size"
  /\ ~ KeyRule.Key "Student ID" "phone_number".
Proof.
  rewrite !Key_normalizeKey. repeat split; try (vm_compute; reflexivity).
  vm_compute. discriminate.
Qed.

(** *** What typing does to the form *)






(** ** Validation *)

Lemma validate_flags vals inputs f msg :
  f ∈ inputs -> validateField vals f = Some msg -> (name f, msg) ∈ validate vals inputs.
Proof.
  intros Hin Hv. unfold validate. apply list_elem_of_omap.
  exists f. split; [exact Hin|]. rewrite Hv. reflexivity.
Qed.


Lemma validate_passed vals inputs f :
  validate vals inputs = [] -> f ∈ inputs -> validateField vals f = None.
Proof.
  intros Hv Hin. destruct (validateField vals f) as [msg|] eqn:Hf; [|reflexivity].
  pose proof (validate_flags vals inputs f msg Hin Hf) as H.
  rewrite Hv in H. inversion H.
Qed.




Lemma step_submit_valid user st inputs sp :
  render st = FormView inputs false -> space st = Some sp ->
  validate (values st) inputs = [] ->
  step user st EvSubmit
  = onSubmit_begin user (values st) (setFieldErrors [] st)
  /\ calls (step user st EvSubmit)
     = calls st ++ [InsertAttendanceRecord
                      {| space_id := Space.id sp; user_id := submitter user;
                         fields := values st |}].
Proof.
  intros Hr Hsp Hv. unfold step. rewrite Hr. unfold handleSubmit. rewrite Hv.
  split; [reflexivity|]. unfold onSubmit_begin. simpl. rewrite Hsp. reflexivity.
Qed.




(** ** Sessions: the page after it loaded, under any events *)

Lemma step_frame user st ev :
  space (step user st ev) = space st
  /\ loading (step user st ev) = loading st
  /\ error (step user st ev) = error st.
Proof.
  destruct ev as [i v| |answer]; simpl.
  - destruct (render st); try (repeat split; reflexivity).
    destruct (inputs !! i); repeat split; reflexivity.
  - destruct (render st) as [| | | |inputs []|]; try (repeat split; reflexivity).
    unfold handleSubmit. destruct (validate _ _); [|repeat split; reflexivity].
    unfold onSubmit_begin. simpl.
    destruct (space st) eqn:Hsp; simpl; rewrite ?Hsp; repeat split; reflexivity.
  - destruct (pending st); [repeat split; reflexivity|].
    unfold onSubmit_settle, submitFailed.
    destruct answer as [r|e]; [destruct (Response.error r)|]; repeat split; reflexivity.
Qed.



Lemma step_values user st ev k :
  is_Some (values (step user st ev) !! k) ->
  is_Some (values st !! k)
  \/ exists sp inputs, space st = Some sp /\ formFields sp = Some inputs
                       /\ k ∈ name <$> inputs.
Proof.
  destruct ev as [i v| |answer]; simpl.
  - destruct (render st) eqn:Hr; auto.
    destruct (inputs !! i) as [f|] eqn:Hi; auto.
    simpl. intros Hk. destruct (decide (name f = k)) as [<-|Hne].
    + right. apply render_form_inv in Hr as (_ & _ & _ & sp & Hsp & Hf).
      exists sp, inputs. repeat split; try assumption.
      apply list_elem_of_fmap. exists f. split; [reflexivity|].
      eapply list_elem_of_lookup_2. exact Hi.
    + left. rewrite lookup_insert_ne in Hk by exact Hne. exact Hk.
  - destruct (render st) as [| | | |inputs []|]; auto.
    unfold handleSubmit. destruct (validate _ _); auto.
    unfold onSubmit_begin. simpl. destruct (space st); auto.
  - destruct (pending st); auto.
    unfold onSubmit_settle, submitFailed.
    destruct answer as [r|e]; [destruct (Response.error r)|]; auto.
Qed.

Lemma run_cons user st ev evs : run user st (ev :: evs) = run user (step user st ev) evs.
Proof. reflexivity. Qed.


(** Closes a goal whose hypothesis reads a key of the empty form. *)
Ltac no_value := simpl; rewrite lookup_empty; intros [? [=]].

Lemma loaded_values_known Date_parse code user now lookup profile k :
  is_Some (values (fetchSpace Date_parse code user now lookup profile initialPage) !! k) ->
  k = "name" \/ k = "email".
Proof.
  unfold fetchSpace.
  destruct (noCode code); [no_value|].
  unfold fetchSpace_try, prefill.
  destruct lookup as [r|e]; [|no_value].
  destruct (Response.error r); [no_value|].
  destruct (Response.data r) as [data|]; [|no_value].
  destruct (negb _); [no_value|].
  destruct (hasEnded _ _ _); [no_value|].
  destruct user as [u|]; [|no_value].
  destruct profile as [r'|e']; [|no_value].
  destruct (Response.data r') as [userData|]; [|no_value].
  simpl. intros Hk.
  destruct (decide ("email" = k)) as [<-|H1]; [right; reflexivity|].
  rewrite lookup_insert_ne in Hk by exact H1.
  destruct (decide ("name" = k)) as [<-|H2]; [left; reflexivity|].
  rewrite lookup_insert_ne in Hk by exact H2.
  rewrite lookup_empty in Hk. destruct Hk as [? [=]].
Qed.

Lemma validateField_required vals f msg :
  name f <> "" ->
  required (rules f) = Some msg -> validateField vals f = None ->
  exists v, vals !! name f = Some v /\ v <> "".
Proof.
  unfold validateField. intros Hname ->.
  destruct (name f) as [|c k] eqn:Hk; [congruence|].
  cbn [JsString.truthy negb].
  destruct (vals !! String c k) as [[|a v]|]; simpl; try discriminate.
  intros _. eexists. split; [reflexivity|discriminate].
Qed.

Lemma validated_name_email vals inputs :
  validate vals (nameField :: emailField :: inputs) = [] ->
  exists n e, vals !! "name" = Some n /\ n <> ""
              /\ vals !! "email" = Some e /\ RegExp.test true emailPattern e = true.
Proof.
  intros Hv.
  assert (Hn : validateField vals nameField = None)
    by (apply (validate_passed _ _ _ Hv); left).
  assert (He : validateField vals emailField = None)
    by (apply (validate_passed _ _ _ Hv); right; left).
  destruct (validateField_required _ nameField _ ltac:(discriminate) eq_refl Hn)
      as (n & Hn1 & Hn2).
  destruct (validateField_required _ emailField _ ltac:(discriminate) eq_refl He)
      as (e & He1 & He2).
  exists n, e. repeat split; try assumption.
  unfold validateField, emailField in He. cbn [name rules required pattern] in He.
  simpl in He1. rewrite He1 in He.
  destruct e as [|a e']; [congruence|].
  cbn [isEmptyValue JsString.truthy negb from_option id] in He.
  destruct (RegExp.test true emailPattern (String a e')); [reflexivity|discriminate].
Qed.







(** ** One insert in flight *)

Lemma step_inFlightInv user st ev : inFlightInv st -> inFlightInv (step user st ev).
Proof.
  intros Hinv. destruct ev as [i v| |answer]; simpl.
  - destruct (render st); try exact Hinv.
    destruct (inputs !! i); exact Hinv.
  - destruct (render st) as [| | | |inputs []|] eqn:Hr; try exact Hinv.
    unfold handleSubmit. destruct (validate _ _); [|exact Hinv].
    apply render_form_inv in Hr as (_ & _ & Hsub & sp & Hsp & _).
    rewrite (begin_with_space user _ _ sp) by exact Hsp.
    destruct Hinv as [[_ Hp]|[Hs _]]; [|congruence].
    right. simpl. rewrite Hp. split; [reflexivity|eauto].
  - destruct (pending st) as [|r rest] eqn:Hp; [exact Hinv|].
    destruct Hinv as [[_ Hp']|[_ [r' Hp']]]; [congruence|].
    assert (rest = []) by congruence. subst rest.
    left. unfold onSubmit_settle, submitFailed. rewrite Hp.
    destruct answer as [a|e]; [destruct (Response.error a)|]; split; reflexivity.
Qed.

Lemma run_inFlightInv user st evs : inFlightInv st -> inFlightInv (run user st evs).
Proof.
  revert st. induction evs as [|ev evs IH]; intros st H; [exact H|].
  rewrite run_cons. apply IH, step_inFlightInv, H.
Qed.

Lemma step_insert_balance user st ev :
  length (inserts (calls (step user st ev))) + length (pending st)
  <= length (inserts (calls st)) + (if isSettled ev then 1 else 0)
     + length (pending (step user st ev)).
Proof.
  destruct ev as [i v| |answer]; simpl.
  - destruct (render st); try lia. destruct (inputs !! i); simpl; lia.
  - destruct (render st) as [| | | |inputs []|] eqn:Hr; try lia.
    unfold handleSubmit. destruct (validate _ _); [|simpl; lia].
    apply render_form_inv in Hr as (_ & _ & _ & sp & Hsp & _).
    rewrite (begin_with_space user _ _ sp) by exact Hsp.
    simpl. unfold inserts. rewrite omap_app, !length_app. simpl. lia.
  - destruct (pending st) as [|r rest] eqn:Hp; [simpl; lia|].
    rewrite settle_keeps_calls.
    assert (Hlen : pending (onSubmit_settle answer st) = rest).
    { unfold onSubmit_settle, submitFailed. rewrite Hp.
      destruct answer as [a|e]; [destruct (Response.error a)|]; reflexivity. }
    rewrite Hlen. simpl. lia.
Qed.

Lemma run_insert_balance user st evs :
  length (inserts (calls (run user st evs))) + length (pending st)
  <= length (inserts (calls st)) + settled evs + length (pending (run user st evs)).
Proof.
  revert st. induction evs as [|ev evs IH]; intros st; [unfold settled; simpl; lia|].
  rewrite run_cons. pose proof (IH (step user st ev)) as H1.
  pose proof (step_insert_balance user st ev) as H2.
  unfold settled in *. simpl. destruct (isSettled ev); simpl; lia.
Qed.

(** C7. From a page with no request in flight, under any sequence of
    inputs, activations of the submit control and insert answers: at
    most one insert is pending at any time; [isSubmitting] is true
    exactly while one is pending; while one is pending the rendered
    submit control is disabled and activating it changes nothing; hence
    the inserts issued are at most one more than the answers received,
    and a double click, with no answer in between, issues at most one. *)
Theorem one_insert_in_flight user st evs :
  isSubmitting st = false ->
  pending st = [] ->
  let st' := run user st evs in
  length (pending st') <= 1
  /\ (isSubmitting st' = true <-> pending st' <> [])
  /\ (pending st' <> [] ->
      (forall inputs d, render st' = FormView inputs d -> d = true)
      /\ step user st' EvSubmit = st')
  /\ length (inserts (calls st')) <= length (inserts (calls st)) + settled evs + 1
  /\ (settled evs = 0 -> length (inserts (calls st')) <= length (inserts (calls st)) + 1).
Proof.
  intros Hs Hp st'.
  assert (Hinv : inFlightInv st') by (apply run_inFlightInv; left; auto).
  pose proof (run_insert_balance user st evs) as Hbal. fold st' in Hbal.
  rewrite Hp in Hbal. simpl in Hbal.
  assert (Hlen : length (pending st') <= 1).
  { destruct Hinv as [[_ ->]|[_ [r ->]]]; simpl; lia. }
  split; [exact Hlen|]. split.
  { destruct Hinv as [[H1 H2]|[H1 [r H2]]]; rewrite H1, H2; split; congruence. }
  split.
  { intros Hne. destruct Hinv as [[_ H2]|[H1 _]]; [congruence|]. split.
    - intros inputs d (_ & _ & -> & _)%render_form_inv. exact H1.
    - simpl. destruct (render st') as [| | | |inputs d|] eqn:Hr; try reflexivity.
      apply render_form_inv in Hr as (_ & _ & -> & _). rewrite H1. reflexivity. }
  split; [lia|]. intros Hz. lia.
Qed.

Lemma one_insert_in_flight_witness :
  length (inserts (calls (run None (Sample.filled "jane@x.com") [EvSubmit; EvSubmit])))
  <= length (inserts (calls (Sample.filled "jane@x.com"))) + 1.
Proof.
  pose proof (one_insert_in_flight None (Sample.filled "jane@x.com") [EvSubmit; EvSubmit]
                eq_refl eq_refl) as H.
  cbv zeta in H. exact (proj2 (proj2 (proj2 (proj2 H))) eq_refl).
Defined.

(** The double click on the filled form: the first activation issues the
    insert, the second one meets the disabled control. *)
Example double_click_inserts_once :
  length (inserts (calls (run None (Sample.filled "jane@x.com") [EvSubmit; EvSubmit]))) = 1
  /\ render (run None (Sample.filled "jane@x.com") [EvSubmit])
     = FormView [nameField; emailField; Sample.studentIdField] true.
Proof. split; vm_compute; reflexivity. Qed.

(** * Further properties of the attendance page *)

(** ** The resolver, whatever it is given *)

(** The store calls one run of [fetchSpace] adds to the trace. *)
Lemma fetchSpace_calls Date_parse code user now lookup profile st :
  let st' := fetchSpace Date_parse code user now lookup profile st in
  (noCode code = true /\ calls st' = calls st)
  \/ (noCode code = false
      /\ (calls st' = calls st ++ [FindSpaceByCode (default "" code)]
          \/ exists u, user = Some u
               /\ calls st' = calls st ++ [FindSpaceByCode (default "" code);
                                           FindUserProfile (User.id u)])).
Proof.
  unfold fetchSpace. destruct (noCode code); [left; split; reflexivity|].
  right. split; [reflexivity|]. unfold fetchSpace_try, prefill.
  destruct lookup as [r|e]; [|left; reflexivity].
  destruct (Response.error r); [left; reflexivity|].
  destruct (Response.data r) as [data|]; [|left; reflexivity].
  destruct (negb _); [left; reflexivity|].
  destruct (hasEnded _ _ _); [left; reflexivity|].
  destruct user as [u|]; [|left; reflexivity].
  right. exists u. split; [reflexivity|].
  destruct profile as [r'|e']; [destruct (Response.data r')|]; simpl;
    rewrite <- app_assoc; reflexivity.
Qed.

(** X1. Without a code in the route, absent or empty, the resolver asks
    the store nothing: the trace and the console are untouched and the
    page shows "Invalid attendance code".  With a code, the first call
    it issues is the lookup of exactly that code. *)
Theorem lookup_only_with_a_code Date_parse code user now lookup profile st :
  let st' := fetchSpace Date_parse code user now lookup profile st in
  (noCode code = true ->
     calls st' = calls st /\ console st' = console st
     /\ space st' = space st
     /\ render st' = ErrorView "Invalid attendance code" (space st))
  /\ (forall c, code = Some c -> c <> "" ->
        exists rest, calls st' = calls st ++ FindSpaceByCode c :: rest)
  /\ noCode None = true /\ noCode (Some "") = true.
Proof.
  intros st'. split; [|split; [|split; reflexivity]].
  - intros H. subst st'. unfold fetchSpace. rewrite H. repeat split; reflexivity.
  - intros c -> Hc.
    destruct (fetchSpace_calls Date_parse (Some c) user now lookup profile st)
      as [[Hno _]|[_ [H|(u & _ & H)]]].
    + destruct c; [congruence|discriminate].
    + exists []. exact H.
    + exists [FindUserProfile (User.id u)]. exact H.
Qed.

Lemma lookup_only_with_a_code_witness :
  calls (fetchSpace IsoDate.parse (Some "") (Some Sample.jane) Sample.noon
           (found (Sample.row "open" Sample.schema None)) (found Sample.janeRow)
           initialPage) = [].
Proof.
  pose proof (lookup_only_with_a_code IsoDate.parse (Some "") (Some Sample.jane)
                Sample.noon (found (Sample.row "open" Sample.schema None))
                (found Sample.janeRow) initialPage) as H.
  cbv zeta in H. destruct H as [H _]. exact (proj1 (H eq_refl)).
Defined.

Lemma resolver_reads Date_parse code user now lookup profile st :
  inserts (calls (fetchSpace Date_parse code user now lookup profile st))
  = inserts (calls st)
  /\ loading (fetchSpace Date_parse code user now lookup profile st) = false.
Proof.
  split.
  - destruct (fetchSpace_calls Date_parse code user now lookup profile st)
      as [[_ H]|[_ [H|(u & _ & H)]]]; rewrite H; unfold inserts;
      rewrite ?omap_app; simpl; rewrite ?app_nil_r; reflexivity.
  - unfold fetchSpace. destruct (noCode code); [reflexivity|].
    destruct (fetchSpace_try _ _ _ _ _ _ _) as [st1 [|e]]; reflexivity.
Qed.

(** X2. Every run of the resolver ends the loading state, on every path,
    and it only reads: it issues no insert and leaves the submit flag,
    the submitted flag, the pending inserts and the toasts as they
    were. *)
Theorem resolver_ends_loading_and_only_reads Date_parse code user now lookup profile st :
  let st' := fetchSpace Date_parse code user now lookup profile st in
  loading st' = false
  /\ render st' <> LoadingView
  /\ inserts (calls st') = inserts (calls st)
  /\ isSubmitting st' = isSubmitting st
  /\ submitted st' = submitted st
  /\ pending st' = pending st
  /\ toasts st' = toasts st.
Proof.
  intros st'.
  assert (Hl : loading st' = false).
  { subst st'. unfold fetchSpace. destruct (noCode code); [reflexivity|].
    destruct (fetchSpace_try _ _ _ _ _ _ _) as [st1 [|e]]; reflexivity. }
  assert (Hins : inserts (calls st') = inserts (calls st)).
  { destruct (fetchSpace_calls Date_parse code user now lookup profile st)
      as [[_ H]|[_ [H|(u & _ & H)]]]; fold st' in H; rewrite H; unfold inserts;
      rewrite ?omap_app; simpl; rewrite ?app_nil_r; reflexivity. }
  assert (Hrest : isSubmitting st' = isSubmitting st /\ submitted st' = submitted st
                  /\ pending st' = pending st /\ toasts st' = toasts st).
  { subst st'. unfold fetchSpace. destruct (noCode code); [repeat split; reflexivity|].
    unfold fetchSpace_try, prefill.
    destruct lookup as [r|e]; [|repeat split; reflexivity].
    destruct (Response.error r); [repeat split; reflexivity|].
    destruct (Response.data r) as [data|]; [|repeat split; reflexivity].
    destruct (negb _); [repeat split; reflexivity|].
    destruct (hasEnded _ _ _); [repeat split; reflexivity|].
    destruct user as [u|]; [|repeat split; reflexivity].
    destruct profile as [r'|e']; [destruct (Response.data r')|]; repeat split; reflexivity. }
  split; [exact Hl|]. split.
  { unfold render. rewrite Hl. destruct (error st') as [[|a m]|]; try discriminate;
      destruct (submitted st'); try discriminate;
      destruct (space st') as [sp|]; try discriminate;
      destruct (formFields sp); discriminate. }
  split; [exact Hins|]. exact Hrest.
Qed.

Lemma render_with_space st sp :
  loading st = false -> error st = None -> submitted st = false -> space st = Some sp ->
  render st = match formFields sp with
              | Some inputs => FormView inputs (isSubmitting st)
              | None => RenderThrows
              end.
Proof. intros H1 H2 H3 H4. unfold render. rewrite H1, H2, H3, H4. reflexivity. Qed.

(** The page a first run of the resolver leaves, when the lookup delivers
    an accepting row and the profile fetch, if any, is answered. *)
Lemma loaded_accepting Date_parse code user now data profile :
  noCode code = false ->
  accepting Date_parse data now = true ->
  (user = None \/ exists r, profile = Resolved r) ->
  let st' := fetchSpace Date_parse code user now (found data) profile initialPage in
  loading st' = false /\ error st' = None /\ submitted st' = false
  /\ isSubmitting st' = false /\ space st' = Some (storedSpace data).
Proof.
  intros Hcode [H1 H2]%accepting_true Hp.
  unfold fetchSpace, fetchSpace_try, prefill. rewrite Hcode. simpl. rewrite H1, H2.
  destruct user as [u|]; [|repeat split; reflexivity].
  destruct Hp as [?|[r ->]]; [discriminate|].
  destruct (Response.data r); repeat split; reflexivity.
Qed.

(** X3. On a fresh page the form is rendered exactly when a code is
    given, the lookup delivers a row without error, the row is accepting
    (open and not ended), the profile fetch, if one is made, is answered
    rather than rejected, and every element of the schema has a string
    name.  In every other case the page shows an error view, or the
    render fails on the schema; it is never left loading, blank or
    submitted. *)
Theorem form_shown_iff_accepting Date_parse code user now lookup profile :
  let st' := fetchSpace Date_parse code user now lookup profile initialPage in
  (isFormView (render st') = true
   <-> noCode code = false
       /\ exists r data,
            lookup = Resolved r /\ Response.error r = None /\ Response.data r = Some data
            /\ accepting Date_parse data now = true
            /\ (user = None \/ exists r', profile = Resolved r')
            /\ is_Some (formFields (storedSpace data)))
  /\ (isFormView (render st') = true
      \/ render st' = RenderThrows
      \/ exists m sp, render st' = ErrorView m sp).
Proof.
  intros st'.
  assert (Herror : forall m sp,
            render st' = ErrorView m sp ->
            ((noCode code = false
             /\ exists r data,
                  lookup = Resolved r /\ Response.error r = None
                  /\ Response.data r = Some data
                  /\ accepting Date_parse data now = true
                  /\ (user = None \/ exists r', profile = Resolved r')
                  /\ is_Some (formFields (storedSpace data))) -> False) ->
            (isFormView (render st') = true
             <-> noCode code = false
                 /\ exists r data,
                      lookup = Resolved r /\ Response.error r = None
                      /\ Response.data r = Some data
                      /\ accepting Date_parse data now = true
                      /\ (user = None \/ exists r', profile = Resolved r')
                      /\ is_Some (formFields (storedSpace data)))
            /\ (isFormView (render st') = true
                \/ render st' = RenderThrows
                \/ exists m sp, render st' = ErrorView m sp)).
  { intros m sp Hv Habs. split; [|right; right; eauto].
    split; [rewrite Hv; discriminate|]. intros H. destruct (Habs H). }
  destruct (noCode code) eqn:Hcode.
  { eapply Herror; [subst st'; unfold fetchSpace; rewrite Hcode; reflexivity|].
    intros [? _]. discriminate. }
  destruct lookup as [[d e0]|e].
  2:{ eapply Herror; [subst st'; unfold fetchSpace; rewrite Hcode; reflexivity|].
      intros (_ & r & data & [=] & _). }
  destruct e0 as [e|].
  { eapply Herror; [subst st'; unfold fetchSpace; rewrite Hcode; reflexivity|].
    intros (_ & r & data & [= <-] & [=] & _). }
  destruct d as [data|].
  2:{ eapply Herror; [subst st'; unfold fetchSpace; rewrite Hcode; reflexivity|].
      intros (_ & r & data & [= <-] & _ & [=] & _). }
  fold (found data) in st'.
  destruct (accepting Date_parse data now) eqn:Hacc.
  2:{ assert (Hv : exists m sp, render st' = ErrorView m sp).
      { subst st'. unfold fetchSpace, fetchSpace_try. rewrite Hcode. simpl.
        unfold accepting in Hacc.
        destruct (String.eqb (SpaceRow.status data) "open"); simpl in *;
          [apply negb_false_iff in Hacc; rewrite Hacc|]; eauto. }
      destruct Hv as (m & sp & Hv). apply (Herror m sp Hv).
      intros (_ & r & d & [= <-] & _ & [= <-] & Hacc' & _). congruence. }
  assert (Hp : (user = None \/ exists r', profile = Resolved r')
               \/ exists u e, user = Some u /\ profile = Rejected e).
  { destruct user as [u|]; [|left; left; reflexivity].
    destruct profile as [r'|e]; [left; right; eauto | right; eauto]. }
  destruct Hp as [Hp|(u & e & -> & ->)].
  2:{ apply accepting_true in Hacc as [H1 H2]. eapply Herror.
      - subst st'. unfold fetchSpace, fetchSpace_try, prefill. rewrite Hcode. simpl.
        rewrite H1, H2. reflexivity.
      - intros (_ & r & d & _ & _ & _ & _ & [[=]|[r' [=]]] & _). }
  destruct (loaded_accepting Date_parse code user now data profile Hcode Hacc Hp)
    as (Hl & He & Hs & Hsub & Hsp).
  fold st' in Hl, He, Hs, Hsub, Hsp.
  rewrite (render_with_space st' _ Hl He Hs Hsp), Hsub.
  destruct (formFields (storedSpace data)) as [inputs|] eqn:Hff.
  - split; [|left; reflexivity]. split; [|reflexivity].
    intros _. split; [reflexivity|].
    exists {| Response.data := Some data; Response.error := None |}, data.
    rewrite Hff. repeat split; eauto.
  - split; [|right; left; reflexivity]. split; [discriminate|].
    intros (_ & r & d & [= <-] & _ & [= <-] & _ & _ & [x Hx]). congruence.
Qed.

(** ** Identity prefill, when it succeeds *)

Lemma or_else_empty (s : string) : JsString.or_else s "" = s.
Proof. destruct s; reflexivity. Qed.

(** X4. When a signed-in visitor resolves an accepting space and the
    profile fetch delivers a row, the form opens with [name] and [email]
    set to the profile's full name and email and nothing else filled
    in; the two inputs stay editable, a typed value replacing the
    default. *)
Theorem prefill_gives_editable_defaults Date_parse code u now data r userData inputs :
  noCode code = false ->
  accepting Date_parse data now = true ->
  Response.data r = Some userData ->
  formFields (storedSpace data) = Some inputs ->
  let st' := fetchSpace Date_parse code (Some u) now (found data) (Resolved r) initialPage in
  values st' = <["email" := UserRow.email userData]>
                 (<["name" := UserRow.full_name userData]> ∅)
  /\ render st' = FormView inputs false
  /\ calls st' = [FindSpaceByCode (default "" code); FindUserProfile (User.id u)]
  /\ (forall v, values (step (Some u) st' (EvInput 0 v)) !! "name" = Some v
                /\ values (step (Some u) st' (EvInput 0 v)) !! "email"
                   = Some (UserRow.email userData))
  /\ (forall v, values (step (Some u) st' (EvInput 1 v)) !! "email" = Some v
                /\ values (step (Some u) st' (EvInput 1 v)) !! "name"
                   = Some (UserRow.full_name userData)).
Proof.
  intros Hcode Hacc Hud Hff st'.
  destruct (loaded_accepting Date_parse code (Some u) now data (Resolved r) Hcode Hacc)
    as (Hl & He & Hs & Hsub & Hsp); [right; eauto|].
  fold st' in Hl, He, Hs, Hsub, Hsp.
  assert (Hr : render st' = FormView inputs false).
  { rewrite (render_with_space st' _ Hl He Hs Hsp), Hff, Hsub. reflexivity. }
  assert (Hv : values st' = <["email" := UserRow.email userData]>
                              (<["name" := UserRow.full_name userData]> ∅)).
  { subst st'. apply accepting_true in Hacc as [H1 H2].
    unfold fetchSpace, fetchSpace_try, prefill. rewrite Hcode. simpl.
    rewrite H1, H2, Hud. simpl. rewrite !or_else_empty. reflexivity. }
  destruct (render_form_fixed st' inputs false Hr) as [fs ->].
  split; [exact Hv|]. split; [exact Hr|]. split.
  { subst st'. apply accepting_true in Hacc as [H1 H2].
    unfold fetchSpace, fetchSpace_try, prefill. rewrite Hcode. simpl.
    rewrite H1, H2, Hud. reflexivity. }
  split; intros v; unfold step; rewrite Hr; simpl; rewrite Hv.
  - split; [apply lookup_insert_eq|].
    rewrite lookup_insert_ne by discriminate. apply lookup_insert_eq.
  - split; [apply lookup_insert_eq|].
    rewrite lookup_insert_ne by discriminate.
    rewrite lookup_insert_ne by discriminate. apply lookup_insert_eq.
Qed.

Lemma prefill_gives_editable_defaults_witness :
  values (fetchSpace IsoDate.parse Sample.code (Some Sample.jane) Sample.noon
            (found (Sample.row "open" Sample.schema None)) (found Sample.janeRow)
            initialPage)
  = <["email" := "jane@x.com"]> (<["name" := "Jane Doe"]> ∅).
Proof.
  exact (proj1 (prefill_gives_editable_defaults IsoDate.parse Sample.code Sample.jane
                  Sample.noon (Sample.row "open" Sample.schema None)
                  {| Response.data := Some Sample.janeRow; Response.error := None |}
                  Sample.janeRow [nameField; emailField; Sample.studentIdField]
                  eq_refl eq_refl eq_refl eq_refl)).
Defined.

(** ** Submissions that fail, and the page after a success *)

Lemma render_congr a b :
  loading a = loading b -> error a = error b -> submitted a = submitted b ->
  space a = space b -> isSubmitting a = isSubmitting b -> render a = render b.
Proof. intros H1 H2 H3 H4 H5. unfold render. rewrite H1, H2, H3, H4, H5. reflexivity. Qed.

(** X5. When the insert of a valid submit fails, by a rejected promise or
    by an error answer, the page is not submitted: the error is logged,
    one destructive toast "Failed to submit attendance" is raised, the
    form is rendered again with its values kept and the control enabled,
    and a second click issues the insert of the same record once more.
    Both clicks are clicks that the browser lets through, on a form
    whose inputs have simple names. *)
Theorem failed_submission_can_be_retried user st inputs sp answer e :
  render st = FormView inputs false ->
  space st = Some sp ->
  Forall (fun f => simpleName (name f) = true) inputs ->
  validate (values st) inputs = [] ->
  (answer = Rejected e \/ exists r, answer = Resolved r /\ Response.error r = Some e) ->
  let record :=
    {| space_id := Space.id sp; user_id := submitter user; fields := values st |} in
  let st2 := session user st [Click true; Settling answer] in
  submitted st2 = false
  /\ isSubmitting st2 = false
  /\ values st2 = values st
  /\ render st2 = FormView inputs false
  /\ toasts st2 = toasts st ++ [ {| toast_title := "Error";
                                   toast_description := "Failed to submit attendance";
                                   toast_variant := Destructive |} ]
  /\ console st2 = console st ++ [("Error submitting attendance:", e)]
  /\ calls st2 = calls st ++ [InsertAttendanceRecord record]
  /\ calls (act user st2 (Click true))
     = calls st ++ [InsertAttendanceRecord record; InsertAttendanceRecord record].
Proof.
  intros Hr Hsp _ Hv Hans record st2.
  destruct (step_submit_valid user st inputs sp Hr Hsp Hv) as [Hstep _].
  destruct (render_form_inv st inputs false Hr) as (Hl & Hs & Hsub & _).
  assert (Hst2 : st2 = setIsSubmitting false
                         (submitFailed e
                            (setPending (tail (pending st ++ [record]))
                               (setPending (pending st ++ [record])
                                  (issue (InsertAttendanceRecord record)
                                     (setIsSubmitting true (setFieldErrors [] st))))))).
  { change st2 with (step user (step user st EvSubmit) (EvInsertSettled answer)).
    rewrite Hstep, (begin_with_space user _ _ sp) by exact Hsp.
    fold record. simpl. unfold onSubmit_settle.
    destruct (pending st);
      (destruct Hans as [->|(r & -> & Hre)]; [|simpl; rewrite Hre]; reflexivity). }
  assert (Hr2 : render st2 = FormView inputs false).
  { rewrite <- Hr. rewrite Hst2. apply render_congr; try reflexivity.
    simpl. congruence. }
  split; [rewrite Hst2; simpl; exact Hs|].
  split; [rewrite Hst2; reflexivity|].
  split; [rewrite Hst2; reflexivity|].
  split; [exact Hr2|].
  split; [rewrite Hst2; reflexivity|].
  split; [rewrite Hst2; reflexivity|].
  split; [rewrite Hst2; reflexivity|].
  assert (Hv2 : validate (values st2) inputs = []) by (rewrite Hst2; exact Hv).
  assert (Hsp2 : space st2 = Some sp) by (rewrite Hst2; exact Hsp).
  destruct (step_submit_valid user st2 inputs sp Hr2 Hsp2 Hv2) as [_ Hc].
  rewrite act_click, Hc. rewrite Hst2. simpl. rewrite <- app_assoc. reflexivity.
Qed.

Lemma failed_submission_can_be_retried_witness :
  calls (act None (session None (Sample.filled "jane@x.com")
                     [Click true; Settling (Rejected Sample.unreachable)]) (Click true))
  = calls (Sample.filled "jane@x.com")
    ++ [InsertAttendanceRecord
          {| space_id := "5f0c9a4e-0000-4000-8000-000000000042"; user_id := None;
             fields := values (Sample.filled "jane@x.com") |};
        InsertAttendanceRecord
          {| space_id := "5f0c9a4e-0000-4000-8000-000000000042"; user_id := None;
             fields := values (Sample.filled "jane@x.com") |}].
Proof.
  pose proof (failed_submission_can_be_retried None (Sample.filled "jane@x.com")
                [nameField; emailField; Sample.studentIdField]
                (storedSpace (Sample.row "open" Sample.schema None))
                (Rejected Sample.unreachable) Sample.unreachable) as H.
  cbv zeta in H.
  refine (proj2 (proj2 (proj2 (proj2 (proj2 (proj2 (proj2 (H _ _ _ _ _)))))))).
  - reflexivity.
  - reflexivity.
  - repeat constructor.
  - vm_compute. reflexivity.
  - left. reflexivity.
Defined.

Lemma step_keeps_submitted user st ev :
  submitted st = true -> submitted (step user st ev) = true.
Proof.
  intros Hs. destruct ev as [i v| |answer]; simpl.
  - destruct (render st); try exact Hs. destruct (inputs !! i); exact Hs.
  - destruct (render st) as [| | | |inputs []|] eqn:Hr; try exact Hs.
    apply render_form_inv in Hr as (_ & Hs' & _). congruence.
  - destruct (pending st); [exact Hs|].
    unfold onSubmit_settle, submitFailed.
    destruct answer as [r|e]; [destruct (Response.error r)|]; simpl; auto.
Qed.

(** X6. The submitted state is final: once [submitted] is set, no
    sequence of inputs, submit activations and insert answers issues a
    store call or brings the form back. *)
Theorem submitted_is_terminal user st evs :
  submitted st = true ->
  calls (run user st evs) = calls st
  /\ submitted (run user st evs) = true
  /\ isFormView (render (run user st evs)) = false.
Proof.
  intros Hs.
  assert (Hv : isFormView (render st) = false).
  { unfold render. rewrite Hs. destruct (loading st); [reflexivity|].
    destruct (error st) as [[|a m]|]; reflexivity. }
  destruct (run_without_form user st evs Hv) as [Hv' Hc].
  split; [exact Hc|]. split; [|exact Hv'].
  revert st Hs Hv Hv' Hc. induction evs as [|ev evs IH]; intros st Hs _ _ _; [exact Hs|].
  rewrite run_cons. pose proof (step_keeps_submitted user st ev Hs) as Hs'.
  apply IH; try exact Hs'.
  - unfold render. rewrite Hs'. destruct (loading _); [reflexivity|].
    destruct (error _) as [[|a m]|]; reflexivity.
  - apply run_without_form. unfold render. rewrite Hs'.
    destruct (loading _); [reflexivity|]. destruct (error _) as [[|a m]|]; reflexivity.
  - apply run_without_form. unfold render. rewrite Hs'.
    destruct (loading _); [reflexivity|]. destruct (error _) as [[|a m]|]; reflexivity.
Qed.

Lemma submitted_is_terminal_witness :
  calls (run None
           (run None (Sample.filled "jane@x.com") [EvSubmit; EvInsertSettled Sample.ok])
           [EvInput 0 "John Roe"; EvSubmit; EvSubmit])
  = calls (run None (Sample.filled "jane@x.com") [EvSubmit; EvInsertSettled Sample.ok]).
Proof.
  refine (proj1 (submitted_is_terminal None
                   (run None (Sample.filled "jane@x.com")
                      [EvSubmit; EvInsertSettled Sample.ok])
                   [EvInput 0 "John Roe"; EvSubmit; EvSubmit] _)).
  vm_compute. reflexivity.
Defined.

(** ** A second run of the effect *)

(** X7. The resolver never clears an error.  When the effect runs again
    on a page that shows an error (its dependencies include the signed-in
    user), the page still shows an error afterwards and no form; if the
    second run finds the space accepting, the old message stays, now
    beside the details of the space just fetched. *)
Theorem error_survives_rerun Date_parse code user now lookup profile st m :
  error st = Some m ->
  m <> "" ->
  let st' := fetchSpace Date_parse code user now lookup profile st in
  (exists m', error st' = Some m' /\ m' <> "")
  /\ isFormView (render st') = false
  /\ (forall data,
        noCode code = false -> lookup = found data ->
        accepting Date_parse data now = true ->
        (user = None \/ exists r, profile = Resolved r) ->
        error st' = Some m
        /\ render st' = ErrorView m (Some (storedSpace data))).
Proof.
  intros He Hm st'.
  assert (H1 : exists m', error st' = Some m' /\ m' <> "").
  { subst st'. unfold fetchSpace.
    destruct (noCode code); [eexists; split; [reflexivity|discriminate]|].
    unfold fetchSpace_try, prefill.
    destruct lookup as [r|e]; [|eexists; split; [reflexivity|discriminate]].
    destruct (Response.error r); [eexists; split; [reflexivity|discriminate]|].
    destruct (Response.data r) as [data|];
      [|eexists; split; [reflexivity|discriminate]].
    destruct (negb _); [eexists; split; [reflexivity|discriminate]|].
    destruct (hasEnded _ _ _); [eexists; split; [reflexivity|discriminate]|].
    destruct user as [u|]; [|exists m; split; [exact He|exact Hm]].
    destruct profile as [r'|e'];
      [destruct (Response.data r'); exists m; split; [exact He|exact Hm| |]; auto
      |eexists; split; [reflexivity|discriminate]]. }
  assert (Hl : loading st' = false).
  { subst st'. unfold fetchSpace. destruct (noCode code); [reflexivity|].
    destruct (fetchSpace_try _ _ _ _ _ _ _) as [st1 [|e]]; reflexivity. }
  split; [exact H1|]. split.
  { destruct H1 as (m' & Hm' & Hne). unfold render. rewrite Hl, Hm'.
    destruct m'; [congruence|reflexivity]. }
  intros data Hcode -> [Ha1 Ha2]%accepting_true Hp.
  assert (H : error st' = Some m /\ space st' = Some (storedSpace data)).
  { subst st'. unfold fetchSpace, fetchSpace_try, prefill. rewrite Hcode. simpl.
    rewrite Ha1, Ha2.
    destruct user as [u|]; [|split; [exact He|reflexivity]].
    destruct Hp as [?|[r ->]]; [discriminate|].
    destruct (Response.data r); split; try exact He; reflexivity. }
  destruct H as [He' Hsp']. split; [exact He'|].
  unfold render. rewrite Hl, He', Hsp'. destruct m; [congruence|reflexivity].
Qed.

Lemma error_survives_rerun_witness :
  render (fetchSpace IsoDate.parse Sample.code (Some Sample.jane) Sample.noon
            (found (Sample.row "open" Sample.schema None)) (found Sample.janeRow)
            (fetchSpace IsoDate.parse Sample.code None Sample.noon
               (found (Sample.row "paused" Sample.schema None)) (found Sample.janeRow)
               initialPage))
  = ErrorView "This attendance session is paused"
      (Some (storedSpace (Sample.row "open" Sample.schema None))).
Proof.
  pose proof (error_survives_rerun IsoDate.parse Sample.code (Some Sample.jane)
                Sample.noon (found (Sample.row "open" Sample.schema None))
                (found Sample.janeRow)
                (fetchSpace IsoDate.parse Sample.code None Sample.noon
                   (found (Sample.row "paused" Sample.schema None))
                   (found Sample.janeRow) initialPage)
                "This attendance session is paused" eq_refl) as H.
  cbv zeta in H. destruct H as (_ & _ & H); [discriminate|].
  refine (proj2 (H (Sample.row "open" Sample.schema None) eq_refl eq_refl eq_refl _)).
  right. eexists. reflexivity.
Defined.

(** ** Schemas whose elements are not fields *)

Lemma customFormField_None customField :
  customFormField customField = None
  <-> forall n, Json.get "name" customField <> Some (Json.JString n).
Proof.
  unfold customFormField.
  destruct (Json.get "name" customField) as [[]|]; split;
    try discriminate; try congruence; intros H; try reflexivity.
  exfalso. eapply H. reflexivity.
Qed.

(** X8. The array guard does not look inside the array.  On a page that
    has a space and shows neither the loading, error nor submitted view,
    the render throws exactly when some element of the stored schema has
    no string under [name]; otherwise the form has the two fixed inputs
    and one input per element. *)
Theorem malformed_field_breaks_render st sp :
  loading st = false -> error st = None -> submitted st = false ->
  space st = Some sp ->
  (render st = RenderThrows
   <-> exists customField,
         customField ∈ Space.required_fields sp
         /\ forall n, Json.get "name" customField <> Some (Json.JString n))
  /\ (render st <> RenderThrows ->
      exists inputs,
        render st = FormView (nameField :: emailField :: inputs) (isSubmitting st)
        /\ length inputs = length (Space.required_fields sp)).
Proof.
  intros Hl He Hs Hsp. rewrite (render_with_space st sp Hl He Hs Hsp).
  unfold formFields.
  destruct (mapM customFormField (Space.required_fields sp)) as [fs|] eqn:Hm; simpl.
  - split.
    + split; [discriminate|].
      intros (cf & Hin & Hcf). apply customFormField_None in Hcf.
      assert (Hnone : mapM customFormField (Space.required_fields sp) = None).
      { apply mapM_None. apply Exists_exists. eauto. }
      congruence.
    + intros _. exists fs. split; [reflexivity|].
      apply mapM_Some in Hm. symmetry. eapply Forall2_length. exact Hm.
  - split; [|congruence]. split; [|reflexivity].
    intros _. apply mapM_None, Exists_exists in Hm as (cf & Hin & Hcf).
    exists cf. split; [exact Hin|]. apply customFormField_None. exact Hcf.
Qed.

Lemma malformed_field_breaks_render_witness :
  render (fetchSpace IsoDate.parse Sample.code None Sample.noon
            (found (Sample.row "open" (Json.JArray [Json.JString "Student ID"]) None))
            (found Sample.janeRow) initialPage)
  = RenderThrows.
Proof.
  apply (malformed_field_breaks_render
           (fetchSpace IsoDate.parse Sample.code None Sample.noon
              (found (Sample.row "open" (Json.JArray [Json.JString "Student ID"]) None))
              (found Sample.janeRow) initialPage)
           (storedSpace (Sample.row "open" (Json.JArray [Json.JString "Student ID"]) None))
           eq_refl eq_refl eq_refl eq_refl).
  exists (Json.JString "Student ID"). split; [left|]. intros n. discriminate.
Defined.

(** ** Normalized keys as a normal form *)

Lemma isWhiteSpace_lower c :
  JsString.isWhiteSpace (JsString.toLowerCase_unit c) = JsString.isWhiteSpace c.
Proof. destruct c as [[] [] [] [] [] [] [] []]; reflexivity. Qed.

Lemma lower_is_no_capital c :
  RegExp.inRanges letterClass (JsString.code (JsString.toLowerCase_unit c)) = false.
Proof. destruct c as [[] [] [] [] [] [] [] []]; reflexivity. Qed.

Lemma toLowerCase_replaceRuns b s :
  JsString.toLowerCase (JsString.replaceRuns b s)
  = JsString.replaceRuns b (JsString.toLowerCase s).
Proof.
  revert b. induction s as [|c s IH]; intros b; simpl; [reflexivity|].
  rewrite isWhiteSpace_lower. destruct (JsString.isWhiteSpace c).
  - destruct b; simpl; rewrite IH; reflexivity.
  - simpl. rewrite IH. reflexivity.
Qed.

Lemma replaceRuns_fixpoint b s :
  RegExp.allUnits (fun c => negb (JsString.isWhiteSpace c)) s = true ->
  JsString.replaceRuns b s = s.
Proof.
  revert b. induction s as [|c s IH]; intros b; simpl; [reflexivity|].
  intros [Hc Hs]%andb_true_iff. apply negb_true_iff in Hc. rewrite Hc.
  rewrite IH by exact Hs. reflexivity.
Qed.

Lemma replaceRuns_no_capital b s :
  RegExp.allUnits (fun c => negb (RegExp.inRanges letterClass (JsString.code c))) s = true ->
  RegExp.allUnits (fun c => negb (RegExp.inRanges letterClass (JsString.code c)))
    (JsString.replaceRuns b s) = true.
Proof.
  revert b. induction s as [|c s IH]; intros b; simpl; [reflexivity|].
  intros [Hc Hs]%andb_true_iff. destruct (JsString.isWhiteSpace c).
  - destruct b; [apply IH; exact Hs|]. simpl. apply IH. exact Hs.
  - simpl. rewrite Hc. apply IH. exact Hs.
Qed.

Lemma toLowerCase_no_capital s :
  RegExp.allUnits (fun c => negb (RegExp.inRanges letterClass (JsString.code c)))
    (JsString.toLowerCase s) = true.
Proof.
  induction s as [|c s IH]; [reflexivity|].
  cbn [JsString.toLowerCase RegExp.allUnits].
  rewrite lower_is_no_capital, IH. reflexivity.
Qed.

Lemma normalizeKey_empty_iff n : normalizeKey n = "" <-> n = "".
Proof.
  split; [|intros ->; reflexivity].
  destruct n as [|c n]; [reflexivity|].
  unfold normalizeKey, JsString.replace_ws_underscore. simpl.
  destruct (JsString.isWhiteSpace _); discriminate.
Qed.

(** X9. A normalized key is a normal form: it holds no white space and
    no capital letter A-Z, it is empty only for the empty name, and
    normalizing is idempotent, so a display name that already is a key
    is bound to itself. *)
Theorem normalizeKey_normal_form n :
  normalizeKey (normalizeKey n) = normalizeKey n
  /\ RegExp.allUnits (fun c => negb (JsString.isWhiteSpace c)) (normalizeKey n) = true
  /\ RegExp.allUnits (fun c => negb (RegExp.inRanges letterClass (JsString.code c)))
       (normalizeKey n) = true
  /\ (normalizeKey n = "" <-> n = "").
Proof.
  split; [|split; [|split]].
  - unfold normalizeKey, JsString.replace_ws_underscore.
    rewrite toLowerCase_replaceRuns, toLowerCase_idem.
    apply replaceRuns_fixpoint, replaceRuns_no_whitespace.
  - apply normalizeKey_no_whitespace.
  - apply replaceRuns_no_capital, toLowerCase_no_capital.
  - apply normalizeKey_empty_iff.
Qed.

Lemma toLowerCase_app a b :
  JsString.toLowerCase (a +:+ b) = JsString.toLowerCase a +:+ JsString.toLowerCase b.
Proof.
  induction a as [|c a IH]; [reflexivity|].
  rewrite append_cons. simpl. rewrite IH. reflexivity.
Qed.

Lemma replaceRuns_same_space b x y w1 w2 :
  JsString.isWhiteSpace w1 = true -> JsString.isWhiteSpace w2 = true ->
  JsString.replaceRuns b (x +:+ String w1 y) = JsString.replaceRuns b (x +:+ String w2 y)
  /\ JsString.replaceRuns b (x +:+ String w1 (String w2 y))
     = JsString.replaceRuns b (x +:+ String w1 y).
Proof.
  intros H1 H2. revert b. induction x as [|c x IH]; intros b.
  - rewrite !append_nil_l. simpl. rewrite H1, H2. split; reflexivity.
  - rewrite !append_cons. simpl.
    destruct (JsString.isWhiteSpace c).
    + destruct (IH true) as [E1 E2].
      destruct b; (split; [rewrite E1|rewrite E2]; reflexivity).
    + destruct (IH false) as [E1 E2]. split; [rewrite E1|rewrite E2]; reflexivity.
Qed.

(** X10. Which display names share a key: names that differ only by the
    case of their letters, by the kind of a white-space unit (a tab for a
    space), or by the length of a white-space run are bound to the same
    key, and so collide in the payload. *)
Theorem normalizeKey_collisions a b w1 w2 :
  JsString.isWhiteSpace w1 = true -> JsString.isWhiteSpace w2 = true ->
  normalizeKey (JsString.toLowerCase a) = normalizeKey a
  /\ normalizeKey (a +:+ String w1 b) = normalizeKey (a +:+ String w2 b)
  /\ normalizeKey (a +:+ String w1 (String w2 b)) = normalizeKey (a +:+ String w1 b).
Proof.
  intros H1 H2. split; [apply normalizeKey_ignores_case|].
  unfold normalizeKey, JsString.replace_ws_underscore.
  rewrite !toLowerCase_app. simpl.
  apply replaceRuns_same_space; rewrite isWhiteSpace_lower; assumption.
Qed.

Lemma normalizeKey_collisions_witness :
  normalizeKey ("Phone" +:+ String " " (String " " "Number"))
  = normalizeKey ("Phone" +:+ String " " "Number").
Proof.
  exact (proj2 (proj2 (normalizeKey_collisions "Phone" "Number" " " " " eq_refl eq_refl))).
Defined.

(** ** Every insert of a session *)

Lemma render_form_no_error st inputs d :
  render st = FormView inputs d -> error st = None \/ error st = Some "".
Proof.
  unfold render. destruct (loading st); [discriminate|].
  destruct (error st) as [[|a m]|]; auto. discriminate.
Qed.

Lemma step_values_known user st ev :
  (forall k, is_Some (values st !! k) -> knownKey st k) ->
  forall k, is_Some (values (step user st ev) !! k) -> knownKey (step user st ev) k.
Proof.
  intros Hst k Hk. destruct (step_frame user st ev) as (Hsp & _ & _).
  assert (Hknown : knownKey st k).
  { destruct (step_values user st ev k Hk) as [Hold|Hnew]; [apply Hst; exact Hold|].
    right; right. exact Hnew. }
  unfold knownKey in *. rewrite Hsp. exact Hknown.
Qed.

(** What a record must satisfy to have been inserted from page [st]. *)
Lemma run_new_inserts user st evs r :
  (forall k, is_Some (values st !! k) -> knownKey st k) ->
  r ∈ inserts (calls (run user st evs)) ->
  r ∈ inserts (calls st)
  \/ (exists sp, space st = Some sp /\ space_id r = Space.id sp)
     /\ loading st = false
     /\ (error st = None \/ error st = Some "")
     /\ user_id r = submitter user
     /\ (exists n e, fields r !! "name" = Some n /\ n <> ""
                     /\ fields r !! "email" = Some e
                     /\ RegExp.test true emailPattern e = true)
     /\ (forall k, is_Some (fields r !! k) -> knownKey st k).
Proof.
  revert st. induction evs as [|ev evs IH]; intros st Hst Hr; [left; exact Hr|].
  rewrite run_cons in Hr.
  destruct (step_frame user st ev) as (Hsp & Hl & He).
  destruct (IH _ (step_values_known user st ev Hst) Hr) as [Hin|Hgood].
  2:{ right. unfold knownKey in *. rewrite Hsp, Hl, He in Hgood. exact Hgood. }
  destruct ev as [i v| |answer].
  - left. simpl in Hin. destruct (render st); try exact Hin.
    destruct (inputs !! i); exact Hin.
  - destruct (step_submit_cases user st)
      as [Heq|[(inputs & _ & _ & Heq)|(inputs & sp & Hrd & Hv & Hsp' & Heq)]];
      rewrite Heq in Hin; try (left; exact Hin).
    rewrite (begin_with_space user _ _ sp) in Hin by exact Hsp'.
    simpl in Hin. unfold inserts in Hin. rewrite omap_app in Hin.
    apply elem_of_app in Hin as [Hin|Hin]; [left; exact Hin|].
    simpl in Hin. apply list_elem_of_singleton in Hin. subst r. right. simpl.
    destruct (render_form_inv st inputs false Hrd) as (Hld & _ & _ & _).
    destruct (render_form_fixed st inputs false Hrd) as [fs ->].
    split; [eauto|]. split; [exact Hld|].
    split; [exact (render_form_no_error _ _ _ Hrd)|].
    split; [reflexivity|]. split; [exact (validated_name_email _ _ Hv)|exact Hst].
  - left. simpl in Hin. destruct (pending st); [exact Hin|].
    rewrite settle_keeps_calls in Hin. exact Hin.
Qed.

Lemma loaded_space_no_error Date_parse code user now lookup profile sp :
  let st0 := fetchSpace Date_parse code user now lookup profile initialPage in
  space st0 = Some sp ->
  (error st0 = None \/ error st0 = Some "") ->
  exists row data,
    lookup = Resolved row /\ Response.error row = None /\ Response.data row = Some data
    /\ accepting Date_parse data now = true /\ sp = storedSpace data.
Proof.
  intros st0. subst st0. unfold fetchSpace.
  destruct (noCode code); [intros [=]|].
  unfold fetchSpace_try, prefill.
  destruct lookup as [r|e]; [|intros [=]].
  destruct (Response.error r) eqn:Herr; [intros [=]|].
  destruct (Response.data r) as [data|] eqn:Hdata; [|intros [=]].
  destruct (negb _) eqn:Hopen; [intros _ [[=]|[=]]|].
  destruct (hasEnded _ _ _) eqn:Hend; [intros _ [[=]|[=]]|].
  assert (Hacc : accepting Date_parse data now = true).
  { unfold accepting. apply negb_false_iff in Hopen. rewrite Hopen, Hend. reflexivity. }
  destruct user as [u|];
    [destruct profile as [r'|e']; [destruct (Response.data r')|]|]; simpl;
    intros Hs He; try (destruct He as [[=]|[=]]);
    injection Hs as <-; exists r, data; auto.
Qed.

(** X11. Every insert a session ever issues is a checked one.  On a
    form whose inputs have simple names, whatever the visitor does after
    the page loaded and whatever the browser makes of the clicks, each
    insert in the trace belongs to a space that the lookup delivered and
    that was accepting at load time, carries that space's id and the
    identity's id (null without one), holds a non-empty [name] and an
    [email] matching the pattern, and has no key other than [name],
    [email] and the keys of the rendered inputs, each a simple name. *)
Theorem every_insert_is_checked Date_parse code user now lookup profile gs r :
  let st0 := fetchSpace Date_parse code user now lookup profile initialPage in
  simpleForm st0 ->
  r ∈ inserts (calls (session user st0 gs)) ->
  (exists row data,
     lookup = Resolved row /\ Response.error row = None /\ Response.data row = Some data
     /\ accepting Date_parse data now = true
     /\ space_id r = SpaceRow.id data)
  /\ user_id r = submitter user
  /\ (exists n e, fields r !! "name" = Some n /\ n <> ""
                  /\ fields r !! "email" = Some e
                  /\ RegExp.test true emailPattern e = true)
  /\ (forall k, is_Some (fields r !! k) -> knownKey st0 k /\ simpleName k = true).
Proof.
  intros st0 Hsimple Hr. rewrite session_run in Hr.
  assert (Hvals : forall k, is_Some (values st0 !! k) -> knownKey st0 k).
  { intros k Hk. apply loaded_values_known in Hk as [->| ->];
      [left; reflexivity | right; left; reflexivity]. }
  destruct (run_new_inserts user st0 _ r Hvals Hr)
    as [Hold|((sp & Hsp & Hid) & _ & He & Huid & Hne & Hkeys)].
  { exfalso.
    destruct (resolver_reads Date_parse code user now lookup profile initialPage) as [H _].
    fold st0 in H. rewrite H in Hold. inversion Hold. }
  destruct (loaded_space_no_error Date_parse code user now lookup profile sp Hsp He)
    as (row & data & H1 & H2 & H3 & H4 & ->).
  split; [exists row, data; repeat split; assumption|].
  split; [exact Huid|]. split; [exact Hne|].
  intros k Hk. pose proof (Hkeys k Hk) as Hknown. split; [exact Hknown|].
  destruct Hknown as [->|[->|(sp1 & inputs & Hsp1 & Hff & Hin)]]; try reflexivity.
  apply list_elem_of_fmap in Hin as (f & -> & Hf).
  pose proof (Hsimple sp1 inputs Hsp1 Hff) as Hall. rewrite Forall_forall in Hall.
  exact (Hall f Hf).
Qed.

Lemma every_insert_is_checked_witness :
  exists n e,
    Sample.answers !! "name" = Some n /\ n <> ""
    /\ Sample.answers !! "email" = Some e
    /\ RegExp.test true emailPattern e = true.
Proof.
  pose proof (every_insert_is_checked IsoDate.parse Sample.code None Sample.noon
                (found (Sample.row "open" Sample.schema None)) (found Sample.janeRow)
                [Typing 0 "Jane Doe"; Click false; Typing 1 "jane@x.com"; Typing 2 "99";
                 Click true]
                {| space_id := "5f0c9a4e-0000-4000-8000-000000000042"; user_id := None;
                   fields := Sample.answers |}) as H.
  cbv zeta in H. refine (proj1 (proj2 (proj2 (H _ _)))).
  - intros sp inputs Hsp Hff. vm_compute in Hsp. injection Hsp as <-.
    vm_compute in Hff. injection Hff as <-. repeat constructor.
  - vm_compute. left.
Defined.

(** ** Custom fields and their rules *)







(** * The space-creation page *)

(** ** [trim] *)

Lemma trimStart_head s :
  Js.trimStart s = ""
  \/ exists c t, Js.trimStart s = String c t /\ JsString.isWhiteSpace c = false.
Proof.
  induction s as [|c s IH]; [left; reflexivity|]. simpl.
  destruct (JsString.isWhiteSpace c) eqn:Hc; [exact IH|]. right. eauto.
Qed.

Lemma trimEnd_head c s :
  JsString.isWhiteSpace c = false -> exists t, Js.trimEnd (String c s) = String c t.
Proof.
  intros Hc. simpl. destruct (Js.trimEnd s); [rewrite Hc|]; eauto.
Qed.

Lemma trimEnd_idem s : Js.trimEnd (Js.trimEnd s) = Js.trimEnd s.
Proof.
  induction s as [|c s IH]; [reflexivity|]. simpl.
  destruct (Js.trimEnd s) as [|d t] eqn:Ht.
  - destruct (JsString.isWhiteSpace c) eqn:Hc; [reflexivity|]. simpl. rewrite Hc. reflexivity.
  - change (Js.trimEnd (String c (String d t)))
      with (match Js.trimEnd (String d t) with
            | EmptyString =>
                if JsString.isWhiteSpace c then EmptyString else String c EmptyString
            | t0 => String c t0
            end).
    rewrite IH. reflexivity.
Qed.

Lemma trim_idem s : Js.trim (Js.trim s) = Js.trim s.
Proof.
  unfold Js.trim. destruct (trimStart_head s) as [E|(c & t & E & Hc)]; rewrite E.
  - reflexivity.
  - destruct (trimEnd_head c t Hc) as [t' E']. rewrite E'.
    assert (Hs : Js.trimStart (String c t') = String c t') by (simpl; rewrite Hc; reflexivity).
    rewrite Hs, <- E'. apply trimEnd_idem.
Qed.

(** ** What the admin can compose *)

Lemma edit_wellFormed s e :
  Forall CreateSpace.wellFormedField (CreateSpace.customFields s) ->
  Forall CreateSpace.wellFormedField (CreateSpace.customFields (CreateSpace.edit s e)).
Proof.
  intros H. destruct e as [text|t|now|id]; simpl; try exact H.
  - unfold CreateSpace.addCustomField.
    destruct (Js.trim (CreateSpace.newFieldName s)) as [|c t] eqn:Ht; simpl; [exact H|].
    apply Forall_app. split; [exact H|]. apply Forall_singleton.
    split; [reflexivity|]. simpl. split; [discriminate|].
    rewrite <- Ht. apply trim_idem.
  - apply Forall_forall. intros f Hf.
    apply list_elem_of_In, filter_In in Hf as [Hf _].
    eapply Forall_forall in H; [exact H|]. apply list_elem_of_In. exact Hf.
Qed.

Lemma edits_wellFormed es s :
  Forall CreateSpace.wellFormedField (CreateSpace.customFields s) ->
  Forall CreateSpace.wellFormedField (CreateSpace.customFields (CreateSpace.edits s es)).
Proof.
  unfold CreateSpace.edits. revert s. induction es as [|e es IH]; intros s Hs; [exact Hs|].
  simpl. apply IH, edit_wellFormed, Hs.
Qed.

(** X13. Whatever the admin types, picks, adds and removes, every field
    of the composed schema is required and has a name that is not empty
    and has no white space at either end: a blank name is never added.
    On the attendance page each such field is rendered as an input with
    a non-empty key and the rule "<name> is required". *)
Theorem composed_fields_are_required_and_named es f :
  f ∈ CreateSpace.customFields (CreateSpace.edits CreateSpace.initialState es) ->
  cf_required f = true
  /\ cf_name f <> ""
  /\ Js.trim (cf_name f) = cf_name f
  /\ exists input,
       customFormField (CustomField_json f) = Some input
       /\ name input = normalizeKey (cf_name f)
       /\ name input <> ""
       /\ required (rules input) = Some (cf_name f +:+ " is required").
Proof.
  intros Hf.
  pose proof (edits_wellFormed es CreateSpace.initialState
                (Forall_nil_2 CreateSpace.wellFormedField)) as H.
  eapply Forall_forall in H; [|exact Hf]. destruct H as (Hr & Hn & Ht).
  split; [exact Hr|]. split; [exact Hn|]. split; [exact Ht|].
  rewrite customFormField_json, Hr. eexists. split; [reflexivity|]. simpl.
  split; [reflexivity|]. split; [|reflexivity].
  intros Hk. exact (Hn (proj1 (normalizeKey_empty_iff _) Hk)).
Qed.

Lemma composed_fields_are_required_and_named_witness :
  cf_name Sample.studentId <> "" /\ Js.trim (cf_name Sample.studentId) = cf_name Sample.studentId.
Proof.
  pose proof (composed_fields_are_required_and_named
                [CreateSpace.TypeName "  Student ID "; CreateSpace.PickType TNumber;
                 CreateSpace.Add 1752000000000]
                Sample.studentId) as H.
  destruct H as (_ & H1 & H2 & _); [vm_compute; left|].
  split; assumption.
Defined.

Lemma filter_keeps_all {A} (p : A -> bool) (l : list A) :
  Forall (fun x => p x = true) l -> List.filter p l = l.
Proof.
  induction 1 as [|x l Hx _ IH]; [reflexivity|]. simpl. rewrite Hx, IH. reflexivity.
Qed.

(** X14. A blank draft name adds nothing.  Otherwise [addCustomField]
    appends one field, whose id is the clock reading, and clears the
    draft; removing by that id then gives back the schema as it was,
    provided no earlier field carries the same id.  Fields added within
    one millisecond share their id, and removing one removes them all. *)
Theorem add_then_remove now s :
  let id := Js.Number_toString now in
  let added := CreateSpace.addCustomField now s in
  (Js.trim (CreateSpace.newFieldName s) = "" -> added = s)
  /\ (Js.trim (CreateSpace.newFieldName s) <> "" ->
      CreateSpace.customFields added
      = CreateSpace.customFields s
        ++ [ {| cf_id := id; cf_name := Js.trim (CreateSpace.newFieldName s);
                cf_type := CreateSpace.newFieldType s; cf_required := true |} ]
      /\ CreateSpace.newFieldName added = ""
      /\ CreateSpace.customFields (CreateSpace.removeCustomField id added)
         = List.filter (fun f => negb (String.eqb (cf_id f) id)) (CreateSpace.customFields s)
      /\ (Forall (fun f => cf_id f <> id) (CreateSpace.customFields s) ->
          CreateSpace.customFields (CreateSpace.removeCustomField id added)
          = CreateSpace.customFields s)).
Proof.
  intros id added. subst added. unfold CreateSpace.addCustomField.
  destruct (Js.trim (CreateSpace.newFieldName s)) as [|c t] eqn:Ht; simpl.
  - split; [reflexivity|]. intros H. congruence.
  - split; [discriminate|]. intros _.
    assert (Hf : List.filter (fun f => negb (String.eqb (cf_id f) id))
                   (CreateSpace.customFields s
                    ++ [ {| cf_id := id; cf_name := String c t;
                            cf_type := CreateSpace.newFieldType s; cf_required := true |} ])
                 = List.filter (fun f => negb (String.eqb (cf_id f) id))
                     (CreateSpace.customFields s)).
    { rewrite List.filter_app. simpl. rewrite String.eqb_refl. simpl. apply app_nil_r. }
    split; [reflexivity|]. split; [reflexivity|]. split; [exact Hf|].
    intros Hall. etransitivity; [exact Hf|]. apply filter_keeps_all.
    eapply Forall_impl; [exact Hall|]. intros f Hne. simpl in Hne.
    apply negb_true_iff, String.eqb_neq. exact Hne.
Qed.

Lemma add_then_remove_witness :
  CreateSpace.customFields
    (CreateSpace.removeCustomField "1752000000000"
       (CreateSpace.addCustomField 1752000000000
          (CreateSpace.setNewFieldName "Student ID" CreateSpace.initialState)))
  = [].
Proof.
  pose proof (add_then_remove 1752000000000
                (CreateSpace.setNewFieldName "Student ID" CreateSpace.initialState)) as H.
  cbv zeta in H. destruct H as [_ H].
  destruct H as (_ & _ & _ & H); [discriminate|].
  apply H. constructor.
Defined.

(** Two fields added at the same clock reading go together. *)
Example same_millisecond_fields_go_together :
  CreateSpace.customFields
    (CreateSpace.edits CreateSpace.initialState
       [CreateSpace.TypeName "Student ID"; CreateSpace.Add 1752000000000;
        CreateSpace.TypeName "Department"; CreateSpace.Add 1752000000000;
        CreateSpace.Remove "1752000000000"])
  = [].
Proof. reflexivity. Qed.

(** ** The unique code *)

Lemma substring_length n m s :
  String.length (String.substring n m s) = Nat.min m (String.length s - n).
Proof.
  revert n m. induction s as [|c s IH]; intros n m.
  - destruct n, m; simpl; try reflexivity; lia.
  - destruct n as [|n].
    + destruct m as [|m]; [reflexivity|]. simpl. rewrite IH. simpl.
      rewrite Nat.sub_0_r. reflexivity.
    + simpl. apply IH.
Qed.

Lemma toUpperCase_length s : String.length (Js.toUpperCase s) = String.length s.
Proof. induction s as [|c s IH]; simpl; [reflexivity|]. rewrite IH. reflexivity. Qed.

Lemma upper_is_no_small_letter c :
  JsString.between 97 122 (JsString.code (Js.toUpperCase_unit c)) = false.
Proof. destruct c as [[] [] [] [] [] [] [] []]; reflexivity. Qed.

Lemma toUpperCase_no_small_letter s :
  RegExp.allUnits (fun c => negb (JsString.between 97 122 (JsString.code c)))
    (Js.toUpperCase s) = true.
Proof.
  induction s as [|c s IH]; [reflexivity|].
  cbn [Js.toUpperCase RegExp.allUnits]. rewrite upper_is_no_small_letter, IH. reflexivity.
Qed.

(** X15. The generated code is "TEND-" followed by at most five units,
    none of them a lower-case letter.  The five are there only when the
    base-36 text of the random number has seven units or more: a short
    expansion gives a shorter code, down to the bare prefix. *)
Theorem unique_code_shape digits :
  exists suffix,
    CreateSpace.generateUniqueCode digits = "TEND-" +:+ suffix
    /\ String.length suffix = Nat.min 5 (String.length digits - 2)
    /\ RegExp.allUnits (fun c => negb (JsString.between 97 122 (JsString.code c))) suffix
       = true
    /\ String.length (CreateSpace.generateUniqueCode digits) <= 10
    /\ (String.length (CreateSpace.generateUniqueCode digits) = 10
        <-> 7 <= String.length digits).
Proof.
  exists (Js.toUpperCase (String.substring 2 5 digits)).
  assert (Hlen : String.length (Js.toUpperCase (String.substring 2 5 digits))
                 = Nat.min 5 (String.length digits - 2))
    by (rewrite toUpperCase_length; apply substring_length).
  assert (Hcode : String.length (CreateSpace.generateUniqueCode digits)
                  = 5 + Nat.min 5 (String.length digits - 2)).
  { unfold CreateSpace.generateUniqueCode. rewrite !append_cons, append_nil_l. simpl.
    rewrite Hlen. reflexivity. }
  split; [reflexivity|]. split; [exact Hlen|].
  split; [apply toUpperCase_no_small_letter|].
  rewrite Hcode. split; lia.
Qed.

Example short_random_number_short_code :
  CreateSpace.generateUniqueCode "0.i" = "TEND-I"
  /\ CreateSpace.generateUniqueCode "0" = "TEND-"
  /\ CreateSpace.generateUniqueCode "0.4fzyo82mvyr" = "TEND-4FZYO".
Proof. repeat split; reflexivity. Qed.

(** ** Creating the space *)

Section CreateSubmit.

Variable JSON_stringify : list CustomField -> string.
Variable toISOString : string -> option string.

(** What the [try] block does, case by case. *)
Lemma create_try_cases u data digits origin qr answer s :
  let r := CreateSpace.onSubmit_try JSON_stringify toISOString u data digits origin qr answer s in
  CreateSpace.isSubmitting r.1 = CreateSpace.isSubmitting s
  /\ CreateSpace.customFields r.1 = CreateSpace.customFields s
  /\ CreateSpace.console r.1 = CreateSpace.console s
  /\ ((CreateSpace.inserted r.1 = CreateSpace.inserted s
       /\ CreateSpace.createdSpace r.1 = CreateSpace.createdSpace s
       /\ CreateSpace.toasts r.1 = CreateSpace.toasts s
       /\ exists e, r.2 = Some e)
      \/ exists qrCode start_time end_time,
           qr = CreateSpace.Fulfilled qrCode
           /\ CreateSpace.isoOrNull toISOString (CreateSpace.FormData.startTime data)
              = Some start_time
           /\ CreateSpace.isoOrNull toISOString (CreateSpace.FormData.endTime data)
              = Some end_time
           /\ CreateSpace.inserted r.1
              = CreateSpace.inserted s
                ++ [ {| CreateSpace.SpaceData.title := CreateSpace.FormData.title data;
                        CreateSpace.SpaceData.type := CreateSpace.FormData.type data;
                        CreateSpace.SpaceData.admin_id := User.id u;
                        CreateSpace.SpaceData.required_fields :=
                          Json.JString (JSON_stringify (CreateSpace.customFields s));
                        CreateSpace.SpaceData.unique_code :=
                          CreateSpace.generateUniqueCode digits;
                        CreateSpace.SpaceData.public_link :=
                          origin +:+ "/attend/" +:+ CreateSpace.generateUniqueCode digits;
                        CreateSpace.SpaceData.qr_code := qrCode;
                        CreateSpace.SpaceData.start_time := start_time;
                        CreateSpace.SpaceData.end_time := end_time |} ]
           /\ ((CreateSpace.createdSpace r.1 = CreateSpace.createdSpace s
                /\ CreateSpace.toasts r.1 = CreateSpace.toasts s
                /\ exists e, r.2 = Some e)
               \/ exists resp row,
                    answer = Resolved resp /\ Response.error resp = None
                    /\ Response.data resp = Some row
                    /\ r.2 = None
                    /\ CreateSpace.createdSpace r.1
                       = Some {| CreateSpace.Created.id := CreateSpace.Row.id row;
                                 CreateSpace.Created.title := CreateSpace.Row.title row;
                                 CreateSpace.Created.uniqueCode :=
                                   CreateSpace.Row.unique_code row;
                                 CreateSpace.Created.publicLink :=
                                   CreateSpace.Row.public_link row;
                                 CreateSpace.Created.qrCode := CreateSpace.Row.qr_code row |}
                    /\ CreateSpace.toasts r.1
                       = CreateSpace.toasts s
                         ++ [ {| toast_title := "Success";
                                 toast_description := "Attendance space created successfully!";
                                 toast_variant := Default |} ])).
Proof.
  intros r. subst r. unfold CreateSpace.onSubmit_try.
  destruct qr as [qrCode|e]; [|repeat split; left; repeat split; eauto].
  destruct (CreateSpace.isoOrNull toISOString (CreateSpace.FormData.startTime data))
    as [start_time|]; [|repeat split; left; repeat split; eauto].
  destruct (CreateSpace.isoOrNull toISOString (CreateSpace.FormData.endTime data))
    as [end_time|]; [|repeat split; left; repeat split; eauto].
  destruct answer as [resp|e].
  2:{ repeat split; right; exists qrCode, start_time, end_time;
      repeat split; left; repeat split; eauto. }
  destruct (Response.error resp) as [e|] eqn:Herr.
  { repeat split; right; exists qrCode, start_time, end_time;
      repeat split; left; repeat split; eauto. }
  destruct (Response.data resp) as [row|] eqn:Hdata.
  2:{ repeat split; right; exists qrCode, start_time, end_time;
      repeat split; left; repeat split; eauto. }
  repeat split; right; exists qrCode, start_time, end_time;
    repeat split; right; exists resp, row; repeat split; assumption.
Qed.

(** X16. Creating a space: without a signed-in admin nothing happens but
    one destructive toast.  With one, [isSubmitting] is false again at
    the end on every path and at most one insert is issued, after the QR
    code was made and both times were converted; the created panel is
    set only from the row of a successful insert, with one success
    toast; every failure is logged once and raises one destructive
    toast, and the composed fields are kept in all cases. *)
Theorem create_submit_outcomes user data digits origin qr answer s :
  let s' := CreateSpace.onSubmit JSON_stringify toISOString user data digits origin qr answer s in
  (user = None ->
   s' = CreateSpace.toast
          {| toast_title := "Error";
             toast_description := "You must be logged in to create a space";
             toast_variant := Destructive |} s)
  /\ (user <> None -> CreateSpace.isSubmitting s' = false)
  /\ CreateSpace.customFields s' = CreateSpace.customFields s
  /\ (CreateSpace.inserted s' = CreateSpace.inserted s
      \/ exists u d qrCode,
           user = Some u /\ qr = CreateSpace.Fulfilled qrCode
           /\ CreateSpace.inserted s' = CreateSpace.inserted s ++ [d]
           /\ CreateSpace.SpaceData.admin_id d = User.id u
           /\ CreateSpace.SpaceData.unique_code d = CreateSpace.generateUniqueCode digits
           /\ CreateSpace.SpaceData.public_link d
              = origin +:+ "/attend/" +:+ CreateSpace.SpaceData.unique_code d)
  /\ ((CreateSpace.createdSpace s' = CreateSpace.createdSpace s
       /\ (user <> None ->
           exists e, CreateSpace.console s'
                     = CreateSpace.console s ++ [("Error creating space:", e)]
                     /\ CreateSpace.toasts s' = CreateSpace.toasts s ++ [CreateSpace.failureToast]))
      \/ exists resp row,
           answer = Resolved resp /\ Response.error resp = None
           /\ Response.data resp = Some row
           /\ CreateSpace.inserted s' <> CreateSpace.inserted s
           /\ CreateSpace.console s' = CreateSpace.console s
           /\ (exists c, CreateSpace.createdSpace s' = Some c
                         /\ CreateSpace.Created.uniqueCode c = CreateSpace.Row.unique_code row
                         /\ CreateSpace.Created.publicLink c
                            = CreateSpace.Row.public_link row)).
Proof.
  intros s'. subst s'. unfold CreateSpace.onSubmit.
  destruct user as [u|].
  2:{ split; [reflexivity|]. split; [congruence|]. split; [reflexivity|].
      split; [left; reflexivity|]. left. split; [reflexivity|]. congruence. }
  pose proof (create_try_cases u data digits origin qr answer
                (CreateSpace.setIsSubmitting true s)) as H.
  cbv zeta in H.
  destruct (CreateSpace.onSubmit_try JSON_stringify toISOString u data digits origin qr answer (CreateSpace.setIsSubmitting true s))
    as [s1 thrown]. simpl in H.
  destruct H as (_ & Hcf & Hcon & H).
  split; [discriminate|].
  split; [intros _; destruct thrown; reflexivity|].
  split; [destruct thrown; simpl; exact Hcf|].
  destruct H as [(Hins & Hcr & Hto & e & ->)
                |(qrCode & st & et & -> & _ & _ & Hins & H)].
  - split; [left; simpl; exact Hins|]. left. simpl. split; [exact Hcr|].
    intros _. exists e. rewrite Hcon, Hto. split; reflexivity.
  - split.
    { right. eexists u, _, qrCode. split; [reflexivity|]. split; [reflexivity|].
      split; [destruct thrown; simpl; exact Hins|]. repeat split. }
    destruct H as [(Hcr & Hto & e & ->)|(resp & row & -> & He & Hd & -> & Hcr & Hto)].
    + left. simpl. split; [exact Hcr|]. intros _. exists e.
      rewrite Hcon, Hto. split; reflexivity.
    + right. exists resp, row. simpl. repeat split; try assumption.
      * rewrite Hins. intros Habs. symmetry in Habs. exact (app_one_more _ _ Habs).
      * eexists. split; [exact Hcr|]. split; reflexivity.
Qed.

(** X17. The schema is written as text.  The [required_fields] that
    [onSubmit] hands to the insert is the JSON text of the composed
    fields, a string and not an array; a row that carries this value
    back to the attendance page fails its array guard, so the page
    stores the empty schema and renders [name] and [email] only,
    whatever fields were composed. *)
Theorem schema_written_as_text_is_not_rendered user data digits origin qr answer s d row :
  CreateSpace.inserted (CreateSpace.onSubmit JSON_stringify toISOString user data digits origin qr answer s)
  = CreateSpace.inserted s ++ [d] ->
  SpaceRow.required_fields row = CreateSpace.SpaceData.required_fields d ->
  CreateSpace.SpaceData.required_fields d
  = Json.JString (JSON_stringify (CreateSpace.customFields s))
  /\ Json.isArray (SpaceRow.required_fields row) = false
  /\ Space.required_fields (storedSpace row) = []
  /\ formFields (storedSpace row) = Some [nameField; emailField].
Proof.
  intros Hins Hrow.
  assert (Hd : CreateSpace.SpaceData.required_fields d
               = Json.JString (JSON_stringify (CreateSpace.customFields s))).
  { unfold CreateSpace.onSubmit in Hins. destruct user as [u|].
    2:{ simpl in Hins. destruct (app_one_more _ _ Hins). }
    pose proof (create_try_cases u data digits origin qr answer
                  (CreateSpace.setIsSubmitting true s)) as H.
    cbv zeta in H.
    destruct (CreateSpace.onSubmit_try JSON_stringify toISOString u data digits origin qr answer (CreateSpace.setIsSubmitting true s))
      as [s1 thrown]. simpl in H.
    assert (Hs1 : CreateSpace.inserted s1 = CreateSpace.inserted s ++ [d])
      by (destruct thrown; exact Hins).
    destruct H as (_ & _ & _ & [(H & _)|(qrCode & st & et & _ & _ & _ & H & _)]).
    - rewrite H in Hs1. destruct (app_one_more _ _ Hs1).
    - rewrite H in Hs1. simpl in Hs1. apply app_inv_head in Hs1.
      injection Hs1 as <-. reflexivity. }
  split; [exact Hd|].
  assert (Harr : Space.required_fields (storedSpace row) = []).
  { unfold storedSpace. simpl. rewrite Hrow, Hd. reflexivity. }
  split; [rewrite Hrow, Hd; reflexivity|]. split; [exact Harr|].
  apply formFields_no_custom. exact Harr.
Qed.

End CreateSubmit.

Lemma create_submit_outcomes_witness :
  CreateSpace.isSubmitting
    (CreateSpace.onSubmit CreateSpace.stringifyFields CreateSpace.utcISOString
       (Some Sample.jane) SampleCreate.form SampleCreate.digits SampleCreate.origin
       SampleCreate.qr SampleCreate.answer SampleCreate.composed)
  = false.
Proof.
  pose proof (create_submit_outcomes CreateSpace.stringifyFields CreateSpace.utcISOString
                (Some Sample.jane) SampleCreate.form SampleCreate.digits SampleCreate.origin
                SampleCreate.qr SampleCreate.answer SampleCreate.composed) as H.
  cbv zeta in H. destruct H as (_ & H & _). apply H. discriminate.
Defined.

Lemma schema_written_as_text_is_not_rendered_witness :
  formFields (storedSpace (Sample.row "open"
                             (Json.JString (CreateSpace.stringifyFields [Sample.studentId]))
                             None))
  = Some [nameField; emailField].
Proof.
  refine (proj2 (proj2 (proj2
    (schema_written_as_text_is_not_rendered CreateSpace.stringifyFields
       CreateSpace.utcISOString (Some Sample.jane) SampleCreate.form SampleCreate.digits
       SampleCreate.origin SampleCreate.qr SampleCreate.answer SampleCreate.composed
       SampleCreate.written
       (Sample.row "open"
          (Json.JString (CreateSpace.stringifyFields [Sample.studentId])) None)
       _ _)))).
  - vm_compute. reflexivity.
  - reflexivity.
Defined.

(** * The image helpers *)

(** ** Validation before upload *)

Lemma spread_defaults_twice o :
  ImageUpload.spread ImageUpload.DEFAULT_OPTIONS
    (ImageUpload.spread ImageUpload.DEFAULT_OPTIONS o)
  = ImageUpload.spread ImageUpload.DEFAULT_OPTIONS o.
Proof. destruct o as [[m|] [a|] [u|]]; reflexivity. Qed.

Lemma validate_after_spread file o :
  ImageUpload.validateImageFile file (ImageUpload.spread ImageUpload.DEFAULT_OPTIONS o)
  = ImageUpload.validateImageFile file o.
Proof. unfold ImageUpload.validateImageFile. rewrite spread_defaults_twice. reflexivity. Qed.

Lemma existsb_eqb_elem (x : string) (l : list string) :
  existsb (String.eqb x) l = true <-> x ∈ l.
Proof.
  rewrite existsb_exists, list_elem_of_In. split.
  - intros (y & Hy & ->%String.eqb_eq). exact Hy.
  - intros H. exists x. split; [exact H|apply String.eqb_refl].
Qed.

(** X18. A file reaches the storage service only when it is valid: its
    size is at most the limit, the limit itself included, and its type
    is one of the allowed ones; the limit is 5 MiB and the types are
    JPEG, PNG, GIF and WebP unless the caller overrides them.  An
    invalid file makes [uploadImage] throw the validation message, the
    one about the size first, without any storage call or log line. *)
Theorem only_valid_images_are_uploaded bucket path file options uploaded publicUrl :
  let limit := default (5 * 1024 * 1024)%N (ImageUpload.maxSizeBytes options) in
  let types := default ["image/jpeg"; "image/png"; "image/gif"; "image/webp"]
                 (ImageUpload.allowedTypes options) in
  let run := ImageUpload.uploadImage bucket path file options uploaded publicUrl in
  let valid := (ImageUpload.File.size file <= limit)%N /\ ImageUpload.File.type file ∈ types in
  (ImageUpload.validateImageFile file options = None <-> valid)
  /\ (ImageUpload.calls run <> [] <-> valid)
  /\ ((limit < ImageUpload.File.size file)%N ->
      ImageUpload.outcome run
      = inl (ImageUpload.Error
               ("File size must be less than "
                +:+ Js.Number_toString (ImageUpload.roundMB limit) +:+ "MB"))
      /\ ImageUpload.log run = [])
  /\ ((ImageUpload.File.size file <= limit)%N ->
      ImageUpload.File.type file ∉ types ->
      ImageUpload.outcome run
      = inl (ImageUpload.Error "Please select a valid image file (JPEG, PNG, GIF, or WebP)")
      /\ ImageUpload.log run = [])
  /\ (ImageUpload.maxSizeBytes options = None ->
      Js.Number_toString (ImageUpload.roundMB limit) = "5").
Proof.
  intros limit types run valid.
  assert (Hv : ImageUpload.validateImageFile file options
               = if (limit <? ImageUpload.File.size file)%N then
                   Some ("File size must be less than "
                         +:+ Js.Number_toString (ImageUpload.roundMB limit) +:+ "MB")
                 else if negb (existsb (String.eqb (ImageUpload.File.type file)) types) then
                   Some "Please select a valid image file (JPEG, PNG, GIF, or WebP)"
                 else None).
  { subst limit types. unfold ImageUpload.validateImageFile.
    destruct options as [[m|] [a|] [u|]]; reflexivity. }
  assert (Hrun : run = match ImageUpload.validateImageFile file options with
                       | Some (String c m) =>
                           {| ImageUpload.outcome := inl (ImageUpload.Error (String c m));
                              ImageUpload.calls := []; ImageUpload.log := [] |}
                       | _ => run
                       end).
  { subst run. unfold ImageUpload.uploadImage. rewrite validate_after_spread.
    destruct (ImageUpload.validateImageFile file options) as [[|c m]|]; reflexivity. }
  assert (Hcalls : ImageUpload.validateImageFile file options = None ->
                   ImageUpload.calls run <> []).
  { intros Hn. subst run. unfold ImageUpload.uploadImage.
    rewrite validate_after_spread, Hn.
    destruct uploaded as [[e|]|e]; discriminate. }
  assert (Hiff : ImageUpload.validateImageFile file options = None <-> valid).
  { rewrite Hv. subst valid. destruct (N.ltb_spec limit (ImageUpload.File.size file)) as [Hlt|Hle].
    - split; [discriminate|]. intros [H _]. lia.
    - destruct (existsb (String.eqb (ImageUpload.File.type file)) types) eqn:Hex; simpl.
      + split; [|reflexivity]. intros _. split; [exact Hle|].
        apply existsb_eqb_elem. exact Hex.
      + split; [discriminate|]. intros [_ Hin]. apply existsb_eqb_elem in Hin. congruence. }
  split; [exact Hiff|]. split.
  { rewrite <- Hiff. split; [|exact Hcalls].
    intros Hne. destruct (ImageUpload.validateImageFile file options) as [[|c m]|] eqn:E;
      [exfalso| |reflexivity].
    - rewrite Hv in E.
      destruct (limit <? ImageUpload.File.size file)%N; [discriminate|].
      destruct (negb _); discriminate.
    - rewrite Hrun in Hne. simpl in Hne. congruence. }
  split.
  { intros Hlt. apply N.ltb_lt in Hlt. rewrite Hlt in Hv.
    rewrite Hrun, Hv. split; reflexivity. }
  split.
  { intros Hle Hnot. apply N.ltb_ge in Hle. rewrite Hle in Hv.
    assert (Hex : existsb (String.eqb (ImageUpload.File.type file)) types = false).
    { destruct (existsb _ _) eqn:E; [|reflexivity].
      apply existsb_eqb_elem in E. contradiction. }
    rewrite Hex in Hv. simpl in Hv. rewrite Hrun, Hv. split; reflexivity. }
  intros Hnone. subst limit. rewrite Hnone. reflexivity.
Qed.

Lemma only_valid_images_are_uploaded_witness :
  ImageUpload.outcome
    (ImageUpload.uploadImage "avatars" "u1.pdf" SampleCreate.scan ImageUpload.noOptions
       (ImageUpload.Fulfilled None) "https://cdn.example/u1.pdf")
  = inl (ImageUpload.Error "File size must be less than 5MB").
Proof.
  pose proof (only_valid_images_are_uploaded "avatars" "u1.pdf" SampleCreate.scan
                ImageUpload.noOptions (ImageUpload.Fulfilled None)
                "https://cdn.example/u1.pdf") as H.
  cbv zeta in H. destruct H as (_ & _ & H & _).
  exact (proj1 (H eq_refl)).
Defined.

(** A limit that is not a whole number of MiB is reported rounded: a
    limit of 100 kB reads as 0MB. *)
Example small_limit_reads_as_zero :
  ImageUpload.validateImageFile SampleCreate.photo
    {| ImageUpload.maxSizeBytes := Some 100000%N; ImageUpload.allowedTypes := None;
       ImageUpload.upsert := None |}
  = Some "File size must be less than 0MB".
Proof. reflexivity. Qed.

(** ** File extensions and paths *)

Lemma hasDot_noDot s :
  existsb (Ascii.eqb ".") (list_ascii_of_string s)
  = negb (RegExp.allUnits (fun c => negb (Ascii.eqb c ".")) s).
Proof.
  induction s as [|c s IH]; [reflexivity|].
  cbn [list_ascii_of_string existsb RegExp.allUnits].
  rewrite IH, (Ascii.eqb_sym "." c).
  destruct (Ascii.eqb c "."); reflexivity.
Qed.

Lemma afterLastDot_noDot s :
  RegExp.allUnits (fun c => negb (Ascii.eqb c ".")) (Js.afterLastDot s) = true.
Proof.
  induction s as [|c s IH]; [reflexivity|]. cbn [Js.afterLastDot].
  destruct (Ascii.eqb c ".") eqn:Hc; [exact IH|].
  rewrite hasDot_noDot.
  destruct (RegExp.allUnits _ s) eqn:Hs; cbn [negb]; [|exact IH].
  cbn [RegExp.allUnits]. rewrite Hc, Hs. reflexivity.
Qed.

Lemma afterLastDot_whole s :
  RegExp.allUnits (fun c => negb (Ascii.eqb c ".")) s = true -> Js.afterLastDot s = s.
Proof.
  destruct s as [|c s]; [reflexivity|]. cbn [RegExp.allUnits Js.afterLastDot].
  intros [Hc Hs]%andb_true_iff. apply negb_true_iff in Hc.
  rewrite Hc, hasDot_noDot, Hs. reflexivity.
Qed.

Lemma afterLastDot_app stem ext :
  Js.afterLastDot (stem +:+ String "." ext) = Js.afterLastDot ext.
Proof.
  induction stem as [|c stem IH]; [reflexivity|].
  rewrite append_cons. cbn [Js.afterLastDot]. rewrite IH.
  destruct (Ascii.eqb c "."); [reflexivity|].
  assert (Hd : existsb (Ascii.eqb ".") (list_ascii_of_string (stem +:+ String "." ext))
               = true).
  { clear. induction stem as [|d stem IH]; [reflexivity|].
    rewrite append_cons. cbn [list_ascii_of_string existsb]. rewrite IH. apply orb_true_r. }
  rewrite Hd. reflexivity.
Qed.

(** X19. The extension taken from a file name is never empty and holds
    no point.  It is what follows the last point of the name, "png" when
    nothing follows it; a name without any point is taken whole as its
    own extension. *)
Theorem file_extension_shape file :
  ImageUpload.fileExt file <> ""
  /\ RegExp.allUnits (fun c => negb (Ascii.eqb c ".")) (ImageUpload.fileExt file) = true
  /\ (forall stem ext,
        ImageUpload.File.name file = stem +:+ String "." ext ->
        RegExp.allUnits (fun c => negb (Ascii.eqb c ".")) ext = true ->
        ImageUpload.fileExt file = if JsString.truthy ext then ext else "png")
  /\ (RegExp.allUnits (fun c => negb (Ascii.eqb c ".")) (ImageUpload.File.name file) = true ->
      ImageUpload.fileExt file
      = if JsString.truthy (ImageUpload.File.name file)
        then ImageUpload.File.name file else "png").
Proof.
  unfold ImageUpload.fileExt, JsString.or_else. split; [|split; [|split]].
  - destruct (Js.afterLastDot (ImageUpload.File.name file)); discriminate.
  - pose proof (afterLastDot_noDot (ImageUpload.File.name file)) as H.
    destruct (Js.afterLastDot (ImageUpload.File.name file)); [reflexivity|exact H].
  - intros stem ext -> Hext. rewrite afterLastDot_app, (afterLastDot_whole ext Hext).
    reflexivity.
  - intros H. rewrite (afterLastDot_whole _ H). reflexivity.
Qed.

Lemma file_extension_shape_witness :
  ImageUpload.fileExt SampleCreate.photo = "JPG".
Proof.
  exact (proj1 (proj2 (proj2 (file_extension_shape SampleCreate.photo)))
           "me.profile" "JPG" eq_refl eq_refl).
Defined.

Example file_extension_edges :
  Js.afterLastDot "README" = "README"
  /\ JsString.or_else (Js.afterLastDot "photo.") "png" = "png"
  /\ JsString.or_else (Js.afterLastDot "") "png" = "png"
  /\ Js.afterLastDot "archive.tar.gz" = "gz".
Proof. repeat split; reflexivity. Qed.

(** ** The avatar *)

(** X20. [uploadAvatar] talks to the "avatars" bucket under the path
    "<user id>.<extension>" and to the profile, and never removes
    anything.  The profile is updated exactly when the file was valid
    and the upload succeeded; when that update is answered with an
    error the helper throws "Failed to update profile with new avatar"
    although the file is already stored, and the URL is returned only
    when upload and update both succeeded. *)
Theorem avatar_upload_is_not_undone userId file uploaded publicUrl updated :
  let path := userId +:+ "." +:+ ImageUpload.fileExt file in
  let run := ImageUpload.uploadAvatar userId file uploaded publicUrl updated in
  let stored := ImageUpload.validateImageFile file ImageUpload.noOptions = None
                /\ uploaded = ImageUpload.Fulfilled None in
  (forall c, c ∈ ImageUpload.calls run ->
     c = ImageUpload.Upload "avatars" path file (Some true)
     \/ c = ImageUpload.GetPublicUrl "avatars" path
     \/ c = ImageUpload.UpdateAvatarUrl userId publicUrl)
  /\ (ImageUpload.UpdateAvatarUrl userId publicUrl ∈ ImageUpload.calls run <-> stored)
  /\ (stored -> forall e,
        updated = ImageUpload.Fulfilled (Some e) ->
        ImageUpload.outcome run
        = inl (ImageUpload.Error "Failed to update profile with new avatar")
        /\ ImageUpload.calls run
           = [ImageUpload.Upload "avatars" path file (Some true);
              ImageUpload.GetPublicUrl "avatars" path;
              ImageUpload.UpdateAvatarUrl userId publicUrl])
  /\ (forall u, ImageUpload.outcome run = inr u ->
        u = publicUrl /\ stored /\ updated = ImageUpload.Fulfilled None).
Proof.
  intros path run stored. subst run stored.
  unfold ImageUpload.uploadAvatar, ImageUpload.uploadImage. fold path.
  rewrite validate_after_spread.
  destruct (ImageUpload.validateImageFile file ImageUpload.noOptions) as [[|c m]|] eqn:Hv.
  - exfalso. unfold ImageUpload.validateImageFile in Hv. simpl in Hv.
    destruct (_ <? _)%N; [discriminate|]. destruct (negb _); discriminate.
  - simpl. split; [intros c0 H; inversion H|].
    split; [split; [intros H; inversion H|intros [[=] _]]|].
    split; [intros [[=] _]|]. intros u [=].
  - destruct uploaded as [[e|]|e]; simpl.
    + split; [intros c0 ->%list_elem_of_singleton; left; reflexivity|].
      split; [split; [intros H%list_elem_of_singleton; discriminate|intros [_ [=]]]|].
      split; [intros [_ [=]]|]. intros u [=].
    + assert (Hcalls : forall o l,
                ImageUpload.calls
                  (match updated with
                   | ImageUpload.Fulfilled (Some _) =>
                       {| ImageUpload.outcome := inl (ImageUpload.Error o);
                          ImageUpload.calls := l; ImageUpload.log := [] |}
                   | ImageUpload.Fulfilled None =>
                       {| ImageUpload.outcome := inr publicUrl;
                          ImageUpload.calls := l; ImageUpload.log := [] |}
                   | ImageUpload.Broken e =>
                       {| ImageUpload.outcome := inl (ImageUpload.Raw e);
                          ImageUpload.calls := l; ImageUpload.log := [] |}
                   end) = l)
        by (intros o l; destruct updated as [[e|]|e]; reflexivity).
      rewrite Hcalls.
      split.
      { intros c0 Hc. repeat (apply elem_of_cons in Hc as [->|Hc]); auto.
        inversion Hc. }
      split; [split; [auto|intros _; right; right; left]|].
      split; [intros _ e ->; split; reflexivity|].
      intros u Hu. destruct updated as [[e|]|e]; try discriminate.
      injection Hu as <-. auto.
    + split; [intros c0 ->%list_elem_of_singleton; left; reflexivity|].
      split; [split; [intros H%list_elem_of_singleton; discriminate|intros [_ [=]]]|].
      split; [intros [_ [=]]|]. intros u [=].
Qed.

Lemma avatar_upload_is_not_undone_witness :
  ImageUpload.calls
    (ImageUpload.uploadAvatar "u1" SampleCreate.photo (ImageUpload.Fulfilled None)
       "https://cdn.example/avatars/u1.JPG"
       (ImageUpload.Fulfilled (Some (StoreError "42501" "permission denied"))))
  = [ImageUpload.Upload "avatars" "u1.JPG" SampleCreate.photo (Some true);
     ImageUpload.GetPublicUrl "avatars" "u1.JPG";
     ImageUpload.UpdateAvatarUrl "u1" "https://cdn.example/avatars/u1.JPG"].
Proof.
  pose proof (avatar_upload_is_not_undone "u1" SampleCreate.photo (ImageUpload.Fulfilled None)
                "https://cdn.example/avatars/u1.JPG"
                (ImageUpload.Fulfilled (Some (StoreError "42501" "permission denied")))) as H.
  cbv zeta in H. destruct H as (_ & _ & H & _).
  exact (proj2 (H (conj eq_refl eq_refl) _ eq_refl)).
Defined.
